(** * MyStation 2.0: a shallow embedding of the history log, the size
    formatter and the menu loop of [MyStation2.0(default).py].

    Conventions of the embedding.
    - Python [int] is [Z]; a Python [float] is [pyfloat], an IEEE binary64
      value given by sign, integral significand and binary exponent, with all
      conversions rounded to nearest, ties to even, as CPython does.
    - Python [str] is [string]; its characters are the code points below 256.
    - A raised exception is the [Raise] case of [result].
    - The file system is a finite map from file names to file contents, the
      contents being the text as seen through a text-mode handle. *)

From Stdlib Require Import ZArith NArith Lia Ascii DecimalString DecimalN.
From stdpp Require Import gmap strings list.

Local Open Scope Z_scope.

(** ** Exceptions *)

(** An exception carries the text [str(e)] gives.  [KeyboardInterrupt] is the
    one exception of the model that is not an [Exception]. *)
Inductive exn :=
| OverflowError (msg : string)
| ZeroDivisionError (msg : string)
| EOFError (msg : string)
| OtherException (msg : string)
| KeyboardInterrupt.

Definition is_Exception (e : exn) : bool :=
  match e with
  | KeyboardInterrupt => false
  | _ => true
  end.

Definition exn_str (e : exn) : string :=
  match e with
  | OverflowError msg | ZeroDivisionError msg | EOFError msg
  | OtherException msg => msg
  | KeyboardInterrupt => ""
  end.

Inductive result (A : Type) :=
| Ok (a : A)
| Raise (e : exn).
Arguments Ok {A} a.
Arguments Raise {A} e.

Global Instance result_ret : MRet result := fun A a => Ok a.
Global Instance result_bind : MBind result := fun A B k r =>
  match r with
  | Ok a => k a
  | Raise e => Raise e
  end.

(** ** Python strings *)

Module PyStr.

Definition LF : string := String "010" "".
Definition ESC : string := String "027" "".

(** [str.isspace] on one character, for code points below 256. *)
Definition isspace (c : ascii) : bool :=
  let n := N_of_ascii c in
  ((9 <=? n) && (n <=? 13) || (28 <=? n) && (n <=? 32)
   || (n =? 133) || (n =? 160))%N.

Fixpoint lstrip (s : string) : string :=
  match s with
  | String c s' => if isspace c then lstrip s' else s
  | EmptyString => EmptyString
  end.

(** Drops trailing whitespace: a character is kept when it is not a space
    or something is kept after it. *)
Fixpoint rstrip (s : string) : string :=
  match s with
  | String c s' =>
      match rstrip s' with
      | EmptyString => if isspace c then EmptyString else String c EmptyString
      | t => String c t
      end
  | EmptyString => EmptyString
  end.

(** [s.strip()] *)
Definition strip (s : string) : string := rstrip (lstrip s).

(** [s.split(sep)] for a separator of one character: the result always has
    at least one field. *)
Fixpoint split (sep : ascii) (s : string) : list string :=
  match s with
  | EmptyString => [EmptyString]
  | String c s' =>
      if Ascii.eqb c sep then EmptyString :: split sep s'
      else match split sep s' with
           | f :: fs => String c f :: fs
           | [] => [String c EmptyString]
           end
  end.

(** [sub in s] *)
Fixpoint contains (sub s : string) : bool :=
  String.prefix sub s ||
  match s with
  | EmptyString => false
  | String _ s' => contains sub s'
  end.

(** [s.replace(old, new)] for a non-empty [old]: occurrences are taken
    left to right and do not overlap; [skip] counts the characters of a
    matched occurrence still to be dropped. *)
Fixpoint replace_from (skip : nat) (old new s : string) : string :=
  match s with
  | EmptyString => EmptyString
  | String c s' =>
      match skip with
      | S k => replace_from k old new s'
      | O =>
          if String.prefix old s
          then new +:+ replace_from (String.length old - 1) old new s'
          else String c (replace_from O old new s')
      end
  end.

Definition replace (old new s : string) : string := replace_from O old new s.

(** The lines of a text as iterating over a file opened in text mode yields
    them (universal newlines): a carriage return, a line feed and a carriage
    return followed by a line feed each end a line and are read as one line
    feed; each line keeps its newline, the last one may lack it.  [after_cr]
    tells that the character before was a carriage return, whose line feed
    is then no line of its own; [cur] holds the line read so far. *)
Fixpoint lines_from (after_cr : bool) (cur : string -> string) (s : string)
  : list string :=
  match s with
  | EmptyString =>
      match cur EmptyString with
      | EmptyString => []
      | l => [l]
      end
  | String c s' =>
      if Ascii.eqb c "010" then
        if after_cr then lines_from false cur s'
        else cur (String "010" EmptyString) :: lines_from false (fun t => t) s'
      else if Ascii.eqb c "013" then
        cur (String "010" EmptyString) :: lines_from true (fun t => t) s'
      else lines_from false (fun t => cur (String c t)) s'
  end.

Definition lines (s : string) : list string :=
  lines_from false (fun t => t) s.

Fixpoint repeat_char (c : ascii) (n : nat) : string :=
  match n with
  | O => EmptyString
  | S k => String c (repeat_char c k)
  end.

Definition is_digit (c : ascii) : bool :=
  let n := N_of_ascii c in ((48 <=? n) && (n <=? 57))%N.

Definition all_digits (s : string) : bool :=
  forallb is_digit (String.list_ascii_of_string s).

(** Decimal rendering of a natural number, without leading zeros. *)
Definition of_N (n : N) : string := NilZero.string_of_uint (N.to_uint n).

(** One decimal digit. *)
Definition digit (d : Z) : string :=
  String (ascii_of_N (48 + Z.to_N (d mod 10))) EmptyString.

(** A rendering with two decimals: a non-empty run of digits, a point and
    exactly two digits. *)
Definition is_two_decimal (s : string) : bool :=
  match split "." s with
  | [i; f] =>
      negb (String.eqb i "") && all_digits i
      && (String.length f =? 2)%nat && all_digits f
  | _ => false
  end.

End PyStr.

(** ** Python floats *)

Module PyFloat.

(** A binary64 value: [Fin neg m e] is [(-1)^neg * m * 2^e] with
    [0 <= m < 2^53] and [-1074 <= e <= 971], the significand being at least
    [2^52] unless [e = -1074]. *)
Inductive pyfloat :=
| Fin (neg : bool) (m e : Z)
| Inf (neg : bool)
| NaN.

(** Nearest integer to [n / d] for [d > 0], ties to the even one. *)
Definition round_half_even (n d : Z) : Z :=
  let q := n / d in
  match 2 * (n mod d) ?= d with
  | Lt => q
  | Gt => q + 1
  | Eq => if Z.even q then q else q + 1
  end.

(** [floor (log2 (n / d))] for positive [n] and [d]. *)
Definition floor_log2_ratio (n d : Z) : Z :=
  let e0 := Z.log2 n - Z.log2 d in
  if (if 0 <=? e0 then d * 2 ^ e0 <=? n else d <=? n * 2 ^ (- e0))
  then e0 else e0 - 1.

(** The binary64 value nearest to [n / d] ([n >= 0], [d > 0]), with the
    given sign; [Inf] when the rounded value leaves the binary64 range. *)
Definition nearest_double (neg : bool) (n d : Z) : pyfloat :=
  if n =? 0 then Fin neg 0 (-1074)
  else
    let e := floor_log2_ratio n d in
    let q := Z.max (e - 52) (-1074) in
    let m := if 0 <=? q then round_half_even n (d * 2 ^ q)
             else round_half_even (n * 2 ^ (- q)) d in
    let '(m, q) := if m =? 2 ^ 53 then (2 ^ 52, q + 1) else (m, q) in
    if 972 <=? q then Inf neg else Fin neg m q.

(** [a / b] on two ints: correctly rounded, [ZeroDivisionError] on a zero
    divisor, [OverflowError] when the quotient is too large for a float. *)
Definition int_truediv (a b : Z) : result pyfloat :=
  if b =? 0 then Raise (ZeroDivisionError "division by zero")
  else match nearest_double (xorb (a <? 0) (b <? 0)) (Z.abs a) (Z.abs b) with
       | Inf _ =>
           Raise (OverflowError "integer division result too large for a float")
       | x => Ok x
       end.

(** [float(a)] on an int. *)
Definition int_to_float (a : Z) : result pyfloat :=
  match nearest_double (a <? 0) (Z.abs a) 1 with
  | Inf _ => Raise (OverflowError "int too large to convert to float")
  | x => Ok x
  end.

Definition sign_str (neg : bool) : string := if neg then "-" else "".

(** The value times 100, rounded to the nearest integer, ties to even. *)
Definition centi (m e : Z) : Z :=
  if 0 <=? e then 100 * m * 2 ^ e else round_half_even (100 * m) (2 ^ (- e)).

(** A count of hundredths rendered with two decimals. *)
Definition render_centi (neg : bool) (c : Z) : string :=
  sign_str neg +:+ PyStr.of_N (Z.to_N (c / 100)) +:+ "."
    +:+ PyStr.digit (c / 10) +:+ PyStr.digit c.

(** [format(x, '.2f')] on a float. *)
Definition format_2f (x : pyfloat) : string :=
  match x with
  | Fin neg m e => render_centi neg (centi m e)
  | Inf neg => sign_str neg +:+ "inf"
  | NaN => "nan"
  end.

(** A number as the formatter meets it: the branches of [format_size] bind
    [size] to a float or leave it an int. *)
Inductive pynum :=
| PInt (z : Z)
| PFloat (x : pyfloat).

(** [f"{size:.2f}"]: an int is converted with [float()] first. *)
Definition format_num_2f (size : pynum) : result string :=
  match size with
  | PInt z => x ← int_to_float z; Ok (format_2f x)
  | PFloat x => Ok (format_2f x)
  end.

(** *** [float(s)] on a string *)

Definition digit_val (c : ascii) : Z := Z.of_N (N_of_ascii c) - 48.

(** Reads a run of digits: the number read so far, how many digits were
    read, and what follows them. *)
Fixpoint take_digits (acc cnt : Z) (s : string) : Z * Z * string :=
  match s with
  | String c s' =>
      if PyStr.is_digit c
      then take_digits (10 * acc + digit_val c) (cnt + 1) s'
      else (acc, cnt, s)
  | EmptyString => (acc, cnt, s)
  end.

(** Underscores may only stand between two digits; they are dropped.
    [prev] is the previous character. *)
Fixpoint drop_underscores (prev : option ascii) (s : string)
  : option string :=
  let after_digit := match prev with
                     | Some p => PyStr.is_digit p
                     | None => false
                     end in
  match s with
  | EmptyString =>
      if match prev with Some p => Ascii.eqb p "_" | None => false end
      then None else Some EmptyString
  | String c s' =>
      if Ascii.eqb c "_" then
        if after_digit then drop_underscores (Some c) s' else None
      else if match prev with Some p => Ascii.eqb p "_" | None => false end
              && negb (PyStr.is_digit c)
      then None
      else match drop_underscores (Some c) s' with
           | Some t => Some (String c t)
           | None => None
           end
  end.

Definition lower (c : ascii) : ascii :=
  let n := N_of_ascii c in
  if ((65 <=? n) && (n <=? 90))%N then ascii_of_N (n + 32) else c.

Fixpoint lower_str (s : string) : string :=
  match s with
  | String c s' => String (lower c) (lower_str s')
  | EmptyString => EmptyString
  end.

(** An optional sign: whether it is a minus, and the rest. *)
Definition take_sign (s : string) : bool * string :=
  match s with
  | String c s' =>
      if Ascii.eqb c "-" then (true, s')
      else if Ascii.eqb c "+" then (false, s')
      else (false, s)
  | EmptyString => (false, s)
  end.

(** A decimal literal [digits [. digits] [e [sign] digits]] with at least
    one digit before the exponent: the digits as an integer and the power
    of ten they are scaled by. *)
Definition parse_decimal (s : string) : option (Z * Z) :=
  let '(ip, ni, r1) := take_digits 0 0 s in
  let '(mant, nf, r2) :=
    match r1 with
    | String c r => if Ascii.eqb c "." then take_digits ip 0 r
                    else (ip, 0, r1)
    | EmptyString => (ip, 0, r1)
    end in
  if ni + nf =? 0 then None
  else match r2 with
       | EmptyString => Some (mant, - nf)
       | String c r3 =>
           if Ascii.eqb (lower c) "e" then
             let '(eneg, r4) := take_sign r3 in
             let '(ev, ne, r5) := take_digits 0 0 r4 in
             match r5 with
             | EmptyString =>
                 if ne =? 0 then None
                 else Some (mant, (if eneg then - ev else ev) - nf)
             | String _ _ => None
             end
           else None
       end.

(** [float(s)]: surrounding whitespace is ignored; the literal is a signed
    decimal, [inf], [infinity] or [nan] in any case; the value is rounded
    to the nearest binary64.  [None] stands for the [ValueError] raised on
    anything else. *)
Definition py_float (s : string) : option pyfloat :=
  match drop_underscores None (PyStr.strip s) with
  | None => None
  | Some t =>
      let '(neg, body) := take_sign t in
      let word := lower_str body in
      if String.eqb word "inf" || String.eqb word "infinity"
      then Some (Inf neg)
      else if String.eqb word "nan" then Some NaN
      else match parse_decimal body with
           | Some (mant, ex) =>
               Some (if 0 <=? ex then nearest_double neg (mant * 10 ^ ex) 1
                     else nearest_double neg mant (10 ^ (- ex)))
           | None => None
           end
  end.

(** Whether a float lies within [tol] hundredths of [c] hundredths. *)
Definition within_centi (x : pyfloat) (c tol : Z) : bool :=
  match x with
  | Fin neg m e =>
      let v := if neg then - m else m in
      if 0 <=? e then Z.abs (100 * v * 2 ^ e - c) <=? tol
      else Z.abs (100 * v - c * 2 ^ (- e)) <=? tol * 2 ^ (- e)
  | _ => false
  end.

End PyFloat.
Import PyFloat.

(** ** SizeFormatter: [format_size] *)

Definition format_size (bytes_value : Z) : result string :=
  '(size, unit) ←
    (if bytes_value >=? 1024 ^ 3 then
       size ← int_truediv bytes_value (1024 ^ 3); Ok (PFloat size, "GB")
     else if bytes_value >=? 1024 ^ 2 then
       size ← int_truediv bytes_value (1024 ^ 2); Ok (PFloat size, "MB")
     else if bytes_value >=? 1024 then
       size ← int_truediv bytes_value 1024; Ok (PFloat size, "KB")
     else Ok (PInt bytes_value, "Bytes"));
  s ← format_num_2f size;
  Ok (s +:+ " " +:+ unit).

(** The units of [format_size] with their divisors, in the order the branches
    test them. *)
Definition units : list (string * Z) :=
  [("GB", 1024 ^ 3); ("MB", 1024 ^ 2); ("KB", 1024); ("Bytes", 1)].

(** ** Colours *)

Module Colors.
Import PyStr.
Definition HEADER : string := ESC +:+ "[95m".
Definition OKBLUE : string := ESC +:+ "[94m".
Definition OKCYAN : string := ESC +:+ "[96m".
Definition OKGREEN : string := ESC +:+ "[92m".
Definition WARNING : string := ESC +:+ "[93m".
Definition FAIL : string := ESC +:+ "[91m".
Definition ENDC : string := ESC +:+ "[0m".
Definition BOLD : string := ESC +:+ "[1m".
Definition MAGENTA : string := ESC +:+ "[95m".
End Colors.

(** ** The world the program acts on *)

(** What the program does outside the console and the files: the bar chart
    of [plot_usage] (the [plt] calls up to [plt.show()]), [time.sleep], and
    whatever a delegated call does (a shell command, a deleted directory). *)
Inductive effect :=
| ShowBarChart (disks : list string) (used_sizes free_sizes : list pyfloat)
| Sleep (seconds : Z)
| Delegated (what : string).

Record World := {
  fs : gmap string string;   (* the files: name to the characters written *)
  console : list string;     (* what was written to stdout, in order *)
  stdin : list string;       (* the lines the operator will type *)
  effects : list effect;     (* calls to external collaborators, in order *)
  open_error : string -> option exn;
    (* what open(name, 'a') raises, if it does: the [OSError] of a missing
       directory, an empty name, a directory, a refused permission *)
}.

(** [print(s)] *)
Definition print (s : string) (w : World) : World :=
  {| fs := fs w; console := console w ++ [s +:+ PyStr.LF];
     stdin := stdin w; effects := effects w; open_error := open_error w |}.

Definition emit (e : effect) (w : World) : World :=
  {| fs := fs w; console := console w; stdin := stdin w;
     effects := effects w ++ [e]; open_error := open_error w |}.

(** [open(filename, 'a')]: raises when the file cannot be opened, and then
    changes nothing; otherwise the file is created when absent. *)
Definition open_append (filename : string) (w : World) : World * result () :=
  match open_error w filename with
  | Some e => (w, Raise e)
  | None =>
      ({| fs := <[filename := default "" (fs w !! filename)]> (fs w);
          console := console w; stdin := stdin w; effects := effects w;
          open_error := open_error w |}, Ok ())
  end.

(** [file.write(text)] on a handle opened for append: the characters are
    added at the end of the file.  [fs] keeps the characters as written; what
    a reader gets from them, through universal newlines, is for [PyStr.lines]
    to say.  (Where the line separator of the platform is CR LF the handle
    stores each line feed as CR LF and the reader turns it back: the lines
    read are the same, unless a carriage return was written right before a
    line feed.) *)
Definition file_write (filename text : string) (w : World) : World :=
  {| fs := <[filename := default "" (fs w !! filename) +:+ text]> (fs w);
     console := console w; stdin := stdin w; effects := effects w;
     open_error := open_error w |}.

(** ** Timestamps *)

Record datetime := {
  year : N; month : N; day : N; hour : N; minute : N; second : N;
}.

Definition pad2 (n : N) : string :=
  if (n <? 10)%N then "0" +:+ PyStr.of_N n else PyStr.of_N n.

(** [now.strftime("%Y-%m-%d %H:%M:%S")], for the years of four digits. *)
Definition strftime (now : datetime) : string :=
  PyStr.of_N (year now) +:+ "-" +:+ pad2 (month now) +:+ "-"
    +:+ pad2 (day now) +:+ " " +:+ pad2 (hour now) +:+ ":"
    +:+ pad2 (minute now) +:+ ":" +:+ pad2 (second now).



(** ** HistoryStore: [save_history] *)

Definition history_file : string := "disk_usage_history.txt".

(** A usage record: the [data] dict, in insertion order. *)
Definition usage := (Z * Z * Z)%type.
Definition usage_data := list (string * usage).

(** The line written for one drive. *)
Definition history_line (drive : string) (u : usage) : result string :=
  let '(total, used, free) := u in
  t ← format_size total;
  u ← format_size used;
  f ← format_size free;
  Ok (drive +:+ " | Total: " +:+ t +:+ " | Used: " +:+ u
        +:+ " | Free: " +:+ f +:+ PyStr.LF).

(** The loop over [data.items()]: a failing [format_size] leaves the lines
    written so far in the file. *)
Fixpoint write_items (filename : string) (data : usage_data) (w : World)
  : World * result () :=
  match data with
  | [] => (w, Ok ())
  | (drive, u) :: rest =>
      match history_line drive u with
      | Ok line => write_items filename rest (file_write filename line w)
      | Raise e => (w, Raise e)
      end
  end.

(** [save_history(data, filename)], with [now] the reading of the clock. *)
Definition save_history (data : usage_data) (filename : string)
    (now : datetime) (w : World) : World * result () :=
  match open_append filename w with
  | (w, Raise e) => (w, Raise e)
  | (w, Ok _) =>
      let w := file_write filename
                 (PyStr.LF +:+ Colors.MAGENTA +:+ PyStr.repeat_char "-" 40
                    +:+ PyStr.LF) w in
      let w := file_write filename
                 ("Timestamp: " +:+ strftime now +:+ PyStr.LF) w in
      match write_items filename data w with
      | (w, Ok _) =>
          (print (Colors.OKCYAN +:+ PyStr.LF +:+ "Data saved to '" +:+ filename
                    +:+ "'" +:+ Colors.ENDC) w, Ok ())
      | (w, Raise e) => (w, Raise e)
      end
  end.

(** ** HistoryStore: the parser inside [plot_usage] *)

(** [float(part.split(':')[1].strip().replace(' GB', ''))]; [None] stands
    for the exception raised: [IndexError] when the part has no colon,
    [ValueError] when the text is not a number. *)
Definition float_field (part : string) : option pyfloat :=
  match PyStr.split ":" part with
  | _ :: x :: _ => py_float (PyStr.replace " GB" "" (PyStr.strip x))
  | _ => None
  end.

(** The three lists the loop fills. *)
Definition parsed := (list string * list pyfloat * list pyfloat)%type.

(** One turn of the loop over the lines of the file. *)
Definition parse_step (st : parsed) (line : string) : parsed :=
  let '(disks, used_sizes, free_sizes) := st in
  if PyStr.contains "Total" line then
    let parts := PyStr.split "|" (PyStr.strip line) in
    if (3 <=? length parts)%nat then
      let drive_name :=
        PyStr.strip (hd "" (PyStr.split ":" (nth 0 parts ""))) in
      (* try: ... except: continue *)
      match (used_value ← float_field (nth 1 parts "");
             free_value ← float_field (nth 2 parts "");
             Some (used_value, free_value)) with
      | Some (used_value, free_value) =>
          (disks ++ [drive_name], used_sizes ++ [used_value],
           free_sizes ++ [free_value])
      | None => st
      end
    else st
  else st.

(** The whole loop, from the three empty lists. *)
Definition parse_history (text : string) : parsed :=
  fold_left parse_step (PyStr.lines text) ([], [], []).

(** The records the three lists stand for. *)
Definition records (p : parsed) : list (string * pyfloat * pyfloat) :=
  let '(disks, used_sizes, free_sizes) := p in
  zip (zip disks used_sizes) free_sizes.

(** The notices printed when a provider or the data is missing. *)
Definition matplotlib_missing : string :=
  Colors.FAIL
    +:+ "Error: matplotlib is not installed. Install with 'pip install matplotlib'."
    +:+ Colors.ENDC.
Definition no_data : string :=
  Colors.WARNING +:+ "No data to display." +:+ Colors.ENDC.
Definition memory_unavailable : string :=
  Colors.FAIL +:+ "psutil is not installed. Memory monitoring is unavailable."
    +:+ Colors.ENDC.
Definition cpu_unavailable : string :=
  Colors.FAIL +:+ "psutil is not installed, CPU is unavailable."
    +:+ Colors.ENDC.
Definition processes_unavailable : string :=
  Colors.FAIL +:+ "psutil is not installed. Unable to get processes."
    +:+ Colors.ENDC.
Definition providers_required : string :=
  Colors.FAIL +:+ "psutil and matplotlib are required." +:+ Colors.ENDC.

(** [plot_usage()] *)
Definition plot_usage (HAS_MATPLOTLIB : bool) (w : World) : World :=
  if negb HAS_MATPLOTLIB then print matplotlib_missing w
  else
    match fs w !! history_file with
    | None => print no_data w
    | Some text =>
        let '(disks, used_sizes, free_sizes) := parse_history text in
        match disks with
        | [] => w
        | _ => emit (ShowBarChart disks used_sizes free_sizes) w
        end
    end.

(** ** Procedures *)

(** A procedure acts on the world and returns a value or raises; [None]
    stands for a call that does not return: a delegated call that runs for
    ever, or a loop that outruns its fuel. *)
Definition proc (A : Type) : Type := World -> option (World * result A).

Global Instance proc_ret : MRet proc := fun A a w => Some (w, Ok a).
Global Instance proc_bind : MBind proc := fun A B k m w =>
  match m w with
  | None => None
  | Some (w', Ok a) => k a w'
  | Some (w', Raise e) => Some (w', Raise e)
  end.

(** A step that only changes the world. *)
Definition act (f : World -> World) : proc () := fun w => Some (f w, Ok ()).

(** A pure computation that may raise. *)
Definition lift {A} (r : result A) : proc A := fun w => Some (w, r).

(** A call that always returns. *)
Definition call {A} (f : World -> World * result A) : proc A :=
  fun w => Some (f w).

(** [input(prompt)]: the prompt goes to the console without a newline and
    one typed line is consumed; [EOFError] when there is none. *)
Definition prompted (prompt : string) (rest : list string) (w : World)
  : World :=
  {| fs := fs w; console := console w ++ [prompt]; stdin := rest;
     effects := effects w; open_error := open_error w |}.

Definition input (prompt : string) : proc string := fun w =>
  match stdin w with
  | [] => Some (prompted prompt [] w,
                Raise (EOFError "EOF when reading a line"))
  | l :: rest => Some (prompted prompt rest w, Ok l)
  end.

(** [while True: body], run for at most [fuel] turns. *)
Inductive control := Continue | Break.

Fixpoint while_true (fuel : nat) (body : proc control) : proc () := fun w =>
  match fuel with
  | O => None
  | S fuel' =>
      match body w with
      | None => None
      | Some (w', Ok Continue) => while_true fuel' body w'
      | Some (w', Ok Break) => Some (w', Ok ())
      | Some (w', Raise e) => Some (w', Raise e)
      end
  end.

(** ** The host: what the program delegates to *)

(** What a delegated call does: text appended to the console, the files it
    leaves, typed lines it consumed, external effects appended, and how it
    ended. *)
Record outcome := {
  out_console : list string;
  out_fs : gmap string string;
  out_consumed : nat;
  out_effects : list effect;
  out_result : result ();
}.

Definition host_proc : Type := World -> option outcome.

(** The world a delegated call leaves when it ends as [o]. *)
Definition after_call (o : outcome) (w : World) : World :=
  {| fs := out_fs o; console := console w ++ out_console o;
     stdin := drop (out_consumed o) (stdin w);
     effects := effects w ++ out_effects o;
     open_error := open_error w |}.

Definition run_host (p : host_proc) : proc () := fun w =>
  match p w with
  | None => None
  | Some o => Some (after_call o w, out_result o)
  end.

(** The maintenance actions of the optimization menu.  Their bodies work on
    directories, environment variables and shell commands; the model leaves
    them to the host. *)
Inductive task :=
| clean_temp_files
| clear_update_cache
| clear_dns_cache
| clear_prefetch
| optimize_disks
| clean_recycle_bin
| clear_event_logs
| manage_startup_programs.

Global Instance task_eq_dec : EqDecision task.
Proof. solve_decision. Defined.

(** The metrics provider, when its import succeeded: the parts of the
    monitoring functions that run on it. *)
Record Psutil := {
  memory_loop : host_proc;     (* the sampling loop of monitor_memory *)
  cpu_loop : host_proc;        (* the sampling loop of monitor_cpu *)
  process_loop : host_proc;    (* the loop over process_iter of list_processes *)
  live_sampling : host_proc;   (* the sampling and charts of live_monitoring *)
}.

Record Host := {
  os_nt : bool;                    (* os.name == 'nt' *)
  psutil : option Psutil;          (* None: the import failed *)
  HAS_MATPLOTLIB : bool;
  clock : World -> datetime;       (* datetime.datetime.now() *)
  drive_exists : ascii -> bool;    (* os.path.exists on the root of a drive *)
  disk_usage : string -> World -> result usage;   (* shutil.disk_usage *)
  system_commands : host_proc;
  browse_files : host_proc;
  run_task : task -> host_proc;
}.

(** ** Console helpers and disk check *)

Definition print_separator (title : string) (w : World) : World :=
  let bar := PyStr.repeat_char "=" (String.length title) in
  print (Colors.HEADER +:+ bar +:+ Colors.ENDC)
    (print (Colors.BOLD +:+ title +:+ Colors.ENDC)
       (print (Colors.HEADER +:+ PyStr.LF +:+ bar) w)).

Definition ascii_uppercase : list ascii :=
  String.list_ascii_of_string "ABCDEFGHIJKLMNOPQRSTUVWXYZ".

Definition get_disks (h : Host) : list string :=
  if os_nt h
  then map (fun d => String d ":\ ") (filter (drive_exists h) ascii_uppercase)
  else ["/"].

Definition check_disk (h : Host) (drive : string) : proc usage :=
  '(total, used, free) ← call (fun w => (w, disk_usage h drive w));
  act (print_separator ("Disk: " +:+ drive));;
  t ← lift (format_size total);
  act (print (Colors.OKGREEN +:+ "  Total size: " +:+ t +:+ Colors.ENDC));;
  u ← lift (format_size used);
  act (print (Colors.OKBLUE +:+ "  Used: " +:+ u +:+ Colors.ENDC));;
  f ← lift (format_size free);
  act (print (Colors.WARNING +:+ "  Free: " +:+ f +:+ Colors.ENDC));;
  mret (total, used, free).

(** [usage_data[d] = v] on the dict kept in insertion order. *)
Fixpoint dict_set (d : string) (v : usage) (data : usage_data) : usage_data :=
  match data with
  | [] => [(d, v)]
  | (k, x) :: rest =>
      if String.eqb k d then (k, v) :: rest else (k, x) :: dict_set d v rest
  end.

Fixpoint check_disks (h : Host) (disks : list string) (data : usage_data)
  : proc usage_data :=
  match disks with
  | [] => mret data
  | d :: rest =>
      u ← check_disk h d;
      check_disks h rest (dict_set d u data)
  end.

(** ** Monitoring *)

Definition monitor_memory (h : Host) : proc () :=
  match psutil h with
  | None => act (print memory_unavailable)
  | Some ps => run_host (memory_loop ps)
  end.

Definition monitor_cpu (h : Host) : proc () :=
  match psutil h with
  | None => act (print cpu_unavailable)
  | Some ps => run_host (cpu_loop ps)
  end.

Definition live_monitoring (h : Host) : proc () :=
  match psutil h with
  | Some ps =>
      if HAS_MATPLOTLIB h then run_host (live_sampling ps)
      else act (print providers_required)
  | None => act (print providers_required)
  end.

Definition list_processes (h : Host) : proc () :=
  match psutil h with
  | None => act (print processes_unavailable)
  | Some ps =>
      act (print_separator "System Processes");;
      run_host (process_loop ps)
  end.

(** ** OptimizationActions *)

(** Whether a run ended without an exception. *)
Definition succeeded {A} (r : result A) : bool :=
  match r with
  | Ok _ => true
  | Raise _ => false
  end.

(** [try: m except Exception as e: ...]: the outcome of [m] is handed over,
    except [KeyboardInterrupt], which is not an [Exception] and goes on. *)
Definition try_except (m : proc ()) : proc (result ()) := fun w =>
  match m w with
  | None => None
  | Some (w', Ok _) => Some (w', Ok (Ok ()))
  | Some (w', Raise e) =>
      if is_Exception e then Some (w', Ok (Raise e)) else Some (w', Raise e)
  end.

(** The list [optimizations] of [run_all_optimizations]. *)
Definition optimizations : list (string * task) :=
  [("Cleaning temporary files", clean_temp_files);
   ("Clearing update cache", clear_update_cache);
   ("Clearing DNS cache", clear_dns_cache);
   ("Clearing prefetch", clear_prefetch);
   ("Optimizing disks", optimize_disks);
   ("Cleaning Recycle Bin", clean_recycle_bin);
   ("Clearing event logs", clear_event_logs)].

Definition task_header (task_name : string) : string :=
  PyStr.LF +:+ Colors.OKCYAN +:+ ">>> " +:+ task_name +:+ "..." +:+ Colors.ENDC.

Definition error_during (task_name : string) (e : exn) : string :=
  Colors.FAIL +:+ "Error during " +:+ task_name +:+ ": " +:+ exn_str e
    +:+ Colors.ENDC.

(** The loop over [optimizations]. *)
Fixpoint run_tasks (h : Host) (tasks : list (string * task)) : proc () :=
  match tasks with
  | [] => mret ()
  | (task_name, task_func) :: rest =>
      act (print (task_header task_name));;
      r ← try_except (run_host (run_task h task_func));
      match r with
      | Ok _ => mret ()
      | Raise e => act (print (error_during task_name e))
      end;;
      act (emit (Sleep 1));;
      run_tasks h rest
  end.

(** The opening and closing notices of [run_all_optimizations]. *)
Definition running_all : string :=
  Colors.HEADER +:+ "Running all Windows optimizations..." +:+ Colors.ENDC.
Definition all_completed : string :=
  Colors.OKGREEN +:+ PyStr.LF +:+ "All optimizations completed!"
    +:+ Colors.ENDC.

Definition run_all_optimizations (h : Host) : proc () :=
  act (print running_all);;
  run_tasks h optimizations;;
  act (print all_completed).

Definition optimization_menu : list string :=
  [Colors.OKGREEN +:+ "1." +:+ Colors.ENDC +:+ " Clean Temporary Files";
   Colors.OKGREEN +:+ "2." +:+ Colors.ENDC +:+ " Clear Windows Update Cache";
   Colors.OKGREEN +:+ "3." +:+ Colors.ENDC +:+ " Clear DNS Cache";
   Colors.OKGREEN +:+ "4." +:+ Colors.ENDC +:+ " Clear Windows Prefetch";
   Colors.OKGREEN +:+ "5." +:+ Colors.ENDC +:+ " Optimize Disk Drives (Defrag)";
   Colors.OKGREEN +:+ "6." +:+ Colors.ENDC +:+ " Clean Recycle Bin";
   Colors.OKGREEN +:+ "7." +:+ Colors.ENDC +:+ " Clear Windows Event Logs";
   Colors.OKGREEN +:+ "8." +:+ Colors.ENDC
     +:+ " Disable Unnecessary Startup Programs";
   Colors.OKGREEN +:+ "9." +:+ Colors.ENDC +:+ " Run All Optimizations";
   Colors.WARNING +:+ "0." +:+ Colors.ENDC +:+ " Return to Main Menu"].

Definition print_all (lines : list string) (w : World) : World :=
  fold_left (fun w l => print l w) lines w.

(** The chain of comparisons of [windows_optimization] on the selection. *)
Definition optimization_dispatch (h : Host) (choice : string) : proc control :=
  if String.eqb choice "0" then mret Break
  else if String.eqb choice "1" then
    run_host (run_task h clean_temp_files);; mret Continue
  else if String.eqb choice "2" then
    run_host (run_task h clear_update_cache);; mret Continue
  else if String.eqb choice "3" then
    run_host (run_task h clear_dns_cache);; mret Continue
  else if String.eqb choice "4" then
    run_host (run_task h clear_prefetch);; mret Continue
  else if String.eqb choice "5" then
    run_host (run_task h optimize_disks);; mret Continue
  else if String.eqb choice "6" then
    run_host (run_task h clean_recycle_bin);; mret Continue
  else if String.eqb choice "7" then
    run_host (run_task h clear_event_logs);; mret Continue
  else if String.eqb choice "8" then
    run_host (run_task h manage_startup_programs);; mret Continue
  else if String.eqb choice "9" then
    run_all_optimizations h;; mret Continue
  else
    act (print (Colors.FAIL +:+ "Invalid choice. Please try again."
                  +:+ Colors.ENDC));;
    mret Continue.

(** One turn of the loop of [windows_optimization]. *)
Definition windows_optimization_turn (h : Host) : proc control :=
  act (print_all optimization_menu);;
  choice ← input "Select optimization task: ";
  optimization_dispatch h choice.

Definition windows_optimization (fuel : nat) (h : Host) : proc () :=
  if negb (os_nt h) then
    act (print (Colors.FAIL
                  +:+ "This feature is only available on Windows systems."
                  +:+ Colors.ENDC))
  else
    act (print_separator "Windows System Optimization");;
    while_true fuel (windows_optimization_turn h).

(** ** MenuController: [main] *)

Definition main_title : string :=
  "MyStation: Memory and data view. Simple." +:+ PyStr.LF +:+ "v2.0"
    +:+ PyStr.LF +:+ "By - InkWizy".

Definition main_menu : list string :=
  [Colors.OKGREEN +:+ "1." +:+ Colors.ENDC +:+ " Check Disks";
   Colors.OKGREEN +:+ "2." +:+ Colors.ENDC +:+ " Memory Monitoring"
     +:+ Colors.WARNING +:+ " (Warning: This feature overrides all others.)";
   Colors.OKGREEN +:+ "3." +:+ Colors.ENDC +:+ " CPU Monitoring"
     +:+ Colors.WARNING +:+ " (Warning: This feature overrides all others.)";
   Colors.OKGREEN +:+ "4." +:+ Colors.ENDC +:+ " Usage Graphs";
   Colors.OKGREEN +:+ "5." +:+ Colors.ENDC +:+ " View Processes";
   Colors.OKGREEN +:+ "6." +:+ Colors.ENDC +:+ " System Management";
   Colors.OKGREEN +:+ "7." +:+ Colors.ENDC +:+ " File Browser";
   Colors.OKGREEN +:+ "8." +:+ Colors.ENDC +:+ " Windows System Optimization";
   Colors.WARNING +:+ "9." +:+ Colors.ENDC +:+ " Extended Features (Coming soon!)";
   Colors.FAIL +:+ "10." +:+ Colors.ENDC +:+ " Exit"].

(** What one turn of [main] writes before it reads the selection. *)
Definition render_main_menu (w : World) : World :=
  print_all main_menu (print_separator main_title w).

(** The chain of comparisons of [main] on the selection read; [fuel] bounds
    the loop of the optimization menu. *)
Definition main_dispatch (fuel : nat) (h : Host) (choice : string)
  : proc control :=
  if String.eqb choice "1" then
    usage_data ← check_disks h (get_disks h) [];
    call (fun w => save_history usage_data history_file (clock h w) w);;
    mret Continue
  else if String.eqb choice "2" then monitor_memory h;; mret Continue
  else if String.eqb choice "3" then monitor_cpu h;; mret Continue
  else if String.eqb choice "4" then
    act (plot_usage (HAS_MATPLOTLIB h));; mret Continue
  else if String.eqb choice "5" then list_processes h;; mret Continue
  else if String.eqb choice "6" then
    run_host (system_commands h);; mret Continue
  else if String.eqb choice "7" then
    run_host (browse_files h);; mret Continue
  else if String.eqb choice "8" then
    windows_optimization fuel h;; mret Continue
  else if String.eqb choice "9" then live_monitoring h;; mret Continue
  else if String.eqb choice "10" then
    act (print "Exiting...");; mret Break
  else
    act (print "Invalid choice. Please try again.");; mret Continue.

(** One turn of the loop of [main]. *)
Definition main_turn (fuel : nat) (h : Host) : proc control :=
  act render_main_menu;;
  choice ← input "Select a menu item: ";
  main_dispatch fuel h choice.

Definition main (fuel : nat) (h : Host) : proc () :=
  while_true fuel (main_turn fuel h).

(** The selections [main] recognises. *)
Definition main_choices : list string :=
  ["1"; "2"; "3"; "4"; "5"; "6"; "7"; "8"; "9"; "10"].

(** ** The bodies of two delegated calls *)

(** [optimize_disks] and the loop of [monitor_memory] written out, over
    what they call themselves: the shell and the metrics provider. *)

Module TaskBodies.

(** [os.system(cmd)]: the command goes to the shell and the exit status
    that comes back is dropped. *)
Definition os_system (cmd : string) : proc () := act (emit (Delegated cmd)).

(** The loop over [drives]. *)
Fixpoint defrag_drives (h : Host) (drives : list string) : proc () :=
  match drives with
  | [] => mret ()
  | drive :: rest =>
      act (print ("Optimizing drive " +:+ drive +:+ "..."));;
      os_system (if os_nt h then "defrag " +:+ drive +:+ ": /U /V"
                 else "sudo defrag " +:+ drive +:+ ":");;
      defrag_drives h rest
  end.

(** [optimize_disks()]; nothing in its [try] block raises. *)
Definition optimize_disks (h : Host) : proc () :=
  act (print (Colors.OKCYAN +:+ "Optimizing disk drives..." +:+ Colors.ENDC));;
  defrag_drives h
    (map (fun d => String d ":") (filter (drive_exists h) ascii_uppercase));;
  act (print (Colors.OKGREEN +:+ "Disk optimization completed."
                +:+ Colors.ENDC)).

End TaskBodies.

Module Monitoring.

(** What [psutil.virtual_memory()] returns, as far as the program reads
    it; [percent] is the text [str(mem.percent)]. *)
Record svmem := { total : Z; used : Z; percent : string }.

(** The calls of the loop that may be interrupted from the keyboard or
    fail otherwise. *)
Record Sampler := {
  virtual_memory : World -> result svmem;
  sleep : Z -> World -> result ();
}.

(** [print(text, end='')] *)
Definition write (text : string) (w : World) : World :=
  {| fs := fs w; console := console w ++ [text]; stdin := stdin w;
     effects := effects w; open_error := open_error w |}.

(** [get_memory_info()] with the provider present. *)
Definition get_memory_info (ps : Sampler)
  : proc (pyfloat * pyfloat * string) :=
  mem ← call (fun w => (w, virtual_memory ps w));
  total_gb ← lift (int_truediv (total mem) (1024 ^ 3));
  used_gb ← lift (int_truediv (used mem) (1024 ^ 3));
  mret (total_gb, used_gb, percent mem).

Definition memory_line (total_gb used_gb : pyfloat) (percent : string)
  : string :=
  String "013" "" +:+ Colors.OKCYAN +:+ "Memory: " +:+ format_2f used_gb
    +:+ " GB out of " +:+ format_2f total_gb +:+ " GB (" +:+ percent
    +:+ "%) " +:+ Colors.ENDC.

Definition memory_stopped : string :=
  PyStr.LF +:+ Colors.WARNING +:+ "Memory monitoring stopped." +:+ Colors.ENDC.

(** One turn of the loop of [monitor_memory]. *)
Definition monitor_memory_turn (ps : Sampler) (interval : Z) : proc control :=
  '(total_gb, used_gb, percent) ← get_memory_info ps;
  act (write (memory_line total_gb used_gb percent));;
  call (fun w => (emit (Sleep interval) w, sleep ps interval w));;
  mret Continue.

(** [monitor_memory(interval)] with the provider present: the loop inside
    [try: ... except KeyboardInterrupt]. *)
Definition monitor_memory (ps : Sampler) (interval : Z) (fuel : nat)
  : proc () := fun w =>
  match while_true fuel (monitor_memory_turn ps interval) w with
  | Some (w', Raise KeyboardInterrupt) => Some (print memory_stopped w', Ok ())
  | r => r
  end.

End Monitoring.

(** ** Example inputs *)

Definition empty_world : World :=
  {| fs := ∅; console := []; stdin := []; effects := [];
     open_error := fun _ => None |}.

(** A world in which the operator types the given lines. *)
Definition typing (lines : list string) : World :=
  {| fs := ∅; console := []; stdin := lines; effects := [];
     open_error := fun _ => None |}.

(** A world in which the operator types the given lines and no file can be
    opened for append. *)
Definition read_only (lines : list string) : World :=
  {| fs := ∅; console := []; stdin := lines; effects := [];
     open_error := fun _ => Some (OtherException "Permission denied") |}.

(** The record of the spec's round-trip example, and a reading of the clock. *)
Definition example_data : usage_data :=
  [("C", (500000000000, 300000000000, 200000000000))].
Definition example_now : datetime :=
  {| year := 2024; month := 1; day := 2; hour := 3; minute := 4; second := 5 |}.

(** A delegated call that does nothing but end with [r]. *)
Definition silent (r : result ()) : host_proc := fun w =>
  Some {| out_console := []; out_fs := fs w; out_consumed := 0;
          out_effects := []; out_result := r |}.

(** A Windows host without metrics and charting providers, on which the
    tasks in [failing] raise and the others succeed. *)
Definition example_host (failing : list task) : Host :=
  {| os_nt := true; psutil := None; HAS_MATPLOTLIB := false;
     clock := fun _ => example_now;
     drive_exists := fun d => Ascii.eqb d "C";
     disk_usage := fun _ _ => Ok (500000000000, 300000000000, 200000000000);
     system_commands := silent (Ok ());
     browse_files := silent (Ok ());
     run_task := fun t =>
       if bool_decide (t ∈ failing)
       then silent (Raise (OtherException "failed"))
       else silent (Ok ()) |}.

(** ** Vocabulary of the statements *)

(** Sizes of the data model: unsigned 64-bit byte counts. *)
Definition uint64_usage (u : usage) : Prop :=
  let '(total, used, free) := u in
  0 <= total < 2 ^ 64 /\ 0 <= used < 2 ^ 64 /\ 0 <= free < 2 ^ 64.

(** A rendered size: a magnitude with two decimals, a space and a unit. *)
Definition is_size (s : string) : Prop :=
  exists mag unit scale,
    s = mag +:+ " " +:+ unit /\ PyStr.is_two_decimal mag = true /\
    In (unit, scale) units.


(** The shape of the line of one snapshot. *)
Definition is_history_line (drive line : string) : Prop :=
  exists t u f,
    is_size t /\ is_size u /\ is_size f /\
    line = drive +:+ " | Total: " +:+ t +:+ " | Used: " +:+ u
             +:+ " | Free: " +:+ f +:+ PyStr.LF.

(** A string in which the character [c] does not occur. *)
Definition free_of (c : ascii) (s : string) : bool :=
  forallb (fun x => negb (Ascii.eqb x c)) (String.list_ascii_of_string s).




(** The name the parser of [plot_usage] takes from a written line whose
    label is [label]: [parts[0].split(':')[0].strip()]. *)
Definition shown_name (label : string) : string :=
  PyStr.strip (hd "" (PyStr.split ":" (PyStr.lstrip (label +:+ " ")))).

(** A byte count in GiB with two decimals, as a float. *)
Definition gib_value (b : Z) : pyfloat :=
  nearest_double false (round_half_even (100 * b) (2 ^ 30)) 100.


(** A label that stays on one line and in one field of the log: it holds
    no bar, no line feed and no carriage return. *)
Definition plain_label (label : string) : bool :=
  free_of "|" label && free_of "010" label && free_of "013" label.


(** What [check_disk] writes for a drive whose three sizes render as
    [t], [u] and [f]. *)
Definition disk_report (drive t u f : string) : list string :=
  console
    (print (Colors.WARNING +:+ "  Free: " +:+ f +:+ Colors.ENDC)
       (print (Colors.OKBLUE +:+ "  Used: " +:+ u +:+ Colors.ENDC)
          (print (Colors.OKGREEN +:+ "  Total size: " +:+ t +:+ Colors.ENDC)
             (print_separator ("Disk: " +:+ drive) empty_world)))).


(** The sizes of a drive of one tebibyte, half of it in use. *)
Definition half_used_drive : usage := (2 ^ 40, 2 ^ 39, 2 ^ 39).

(** A host with the charting provider on which every drive reads as the
    given sizes. *)
Definition charting_host (sizes : usage) : Host :=
  {| os_nt := true; psutil := None; HAS_MATPLOTLIB := true;
     clock := fun _ => example_now;
     drive_exists := fun d => Ascii.eqb d "C" || Ascii.eqb d "D";
     disk_usage := fun _ _ => Ok sizes;
     system_commands := silent (Ok ());
     browse_files := silent (Ok ());
     run_task := fun _ => silent (Ok ()) |}.

(** A host on which no drive can be read. *)
Definition unreadable_host : Host :=
  {| os_nt := true; psutil := None; HAS_MATPLOTLIB := true;
     clock := fun _ => example_now;
     drive_exists := fun d => Ascii.eqb d "C";
     disk_usage := fun _ _ => Raise (OtherException "The device is not ready");
     system_commands := silent (Ok ());
     browse_files := silent (Ok ());
     run_task := fun _ => silent (Ok ()) |}.

(** A host that is not Windows. *)
Definition posix_host : Host :=
  {| os_nt := false; psutil := None; HAS_MATPLOTLIB := false;
     clock := fun _ => example_now;
     drive_exists := fun _ => false;
     disk_usage := fun _ _ => Ok half_used_drive;
     system_commands := silent (Ok ());
     browse_files := silent (Ok ());
     run_task := fun _ => silent (Ok ()) |}.

(** A Windows host on which the task [t] is interrupted from the keyboard
    and the others succeed. *)
Definition interrupting_host (t : task) : Host :=
  {| os_nt := true; psutil := None; HAS_MATPLOTLIB := false;
     clock := fun _ => example_now;
     drive_exists := fun d => Ascii.eqb d "C";
     disk_usage := fun _ _ => Ok half_used_drive;
     system_commands := silent (Ok ());
     browse_files := silent (Ok ());
     run_task := fun t' =>
       if bool_decide (t' = t) then silent (Raise KeyboardInterrupt)
       else silent (Ok ()) |}.

(** The selections the optimization menu recognises. *)
Definition optimization_choices : list string :=
  ["0"; "1"; "2"; "3"; "4"; "5"; "6"; "7"; "8"; "9"].

(** The selection that runs a task directly. *)
Definition task_choice (t : task) : string :=
  match t with
  | clean_temp_files => "1"
  | clear_update_cache => "2"
  | clear_dns_cache => "3"
  | clear_prefetch => "4"
  | optimize_disks => "5"
  | clean_recycle_bin => "6"
  | clear_event_logs => "7"
  | manage_startup_programs => "8"
  end.

(** The notice of [windows_optimization] off Windows. *)
Definition not_on_windows : string :=
  Colors.FAIL +:+ "This feature is only available on Windows systems."
    +:+ Colors.ENDC.

(** The text of the optimization menu, and what one turn on an unrecognised
    selection adds to the console. *)
Definition optimization_menu_text : list string :=
  map (fun l => l +:+ PyStr.LF) optimization_menu.

Definition invalid_optimization_text : list string :=
  optimization_menu_text
    ++ ["Select optimization task: ";
        Colors.FAIL +:+ "Invalid choice. Please try again." +:+ Colors.ENDC
          +:+ PyStr.LF].

(** A metrics provider that reports 16 GiB, half of it used, and is never
    interrupted; one that is interrupted in its first pause. *)
Definition steady_sampler : Monitoring.Sampler :=
  {| Monitoring.virtual_memory := fun _ =>
       Ok {| Monitoring.total := 2 ^ 34; Monitoring.used := 2 ^ 33;
             Monitoring.percent := "50.0" |};
     Monitoring.sleep := fun _ _ => Ok () |}.

Definition interrupted_sampler : Monitoring.Sampler :=
  {| Monitoring.virtual_memory := fun _ =>
       Ok {| Monitoring.total := 2 ^ 34; Monitoring.used := 2 ^ 33;
             Monitoring.percent := "50.0" |};
     Monitoring.sleep := fun _ _ => Raise KeyboardInterrupt |}.

(** The command [optimize_disks] hands to the shell for the drive of
    letter [d]. *)
Definition defrag_command (h : Host) (d : ascii) : string :=
  if os_nt h then "defrag " +:+ String d "::" +:+ " /U /V"
  else "sudo defrag " +:+ String d "::".

(** A text made of digits and points only. *)
Definition numeric (s : string) : bool :=
  forallb (fun c => PyStr.is_digit c || Ascii.eqb c ".")
    (String.list_ascii_of_string s).

(** A string that does not begin with a digit. *)
Definition head_not_digit (s : string) : bool :=
  match s with
  | String c _ => negb (PyStr.is_digit c)
  | EmptyString => true
  end.


(** The text of the main menu, as one turn of [main] writes it. *)
Definition main_menu_text : list string :=
  console (render_main_menu empty_world).

(** What one turn on an unrecognised selection adds to the console. *)
Definition invalid_turn_text : list string :=
  main_menu_text
    ++ ["Select a menu item: ";
        "Invalid choice. Please try again." +:+ PyStr.LF].

(** What the turn on the selection ["10"] adds to the console. *)
Definition exit_turn_text : list string :=
  main_menu_text ++ ["Select a menu item: "; "Exiting..." +:+ PyStr.LF].

(** The line the loop of the composite prints about a task that ended as
    [o]: none when it ended well. *)
Definition error_lines (task_name : string) (o : outcome) : list string :=
  match out_result o with
  | Ok _ => []
  | Raise e => [error_during task_name e +:+ PyStr.LF]
  end.

(** What the loop of the composite writes for one task: the header, what
    the task itself printed, and the error line when it failed. *)
Definition task_report (entry : string * task) (o : outcome) : list string :=
  (task_header entry.1 +:+ PyStr.LF) :: out_console o
    ++ error_lines entry.1 o.

(** The world one turn of the loop of the composite leaves, for a task that
    was called after its header and ended as [o]. *)
Definition after_task (task_name : string) (o : outcome) (w : World) : World :=
  let w1 := after_call o (print (task_header task_name) w) in
  emit (Sleep 1)
    match out_result o with
    | Ok _ => w1
    | Raise e => print (error_during task_name e) w1
    end.

(** A run of the tasks of a list: each is called once, in the order of the
    list, on the world the turn before left, and ends as the outcome listed
    for it; [w'] is the world after the last turn. *)
Fixpoint task_run (h : Host) (tasks : list (string * task))
    (outs : list outcome) (w w' : World) : Prop :=
  match tasks, outs with
  | [], [] => w' = w
  | (task_name, task_func) :: tasks, o :: outs =>
      run_task h task_func (print (task_header task_name) w) = Some o /\
      task_run h tasks outs (after_task task_name o w) w'
  | _, _ => False
  end.




(** * Facts about rounding and rendering *)

Module FloatFacts.
Import PyStr.

Lemma rhe_scale n d c :
  0 < d -> 0 < c -> round_half_even (n * c) (d * c) = round_half_even n d.
Proof.
  intros Hd Hc. unfold round_half_even.
  rewrite Z.div_mul_cancel_r by lia.
  rewrite Zmult_mod_distr_r.
  replace (2 * (n `mod` d * c)) with (2 * (n `mod` d) * c) by ring.
  rewrite <- (Zmult_compare_compat_r _ _ c) by lia. reflexivity.
Qed.

Lemma rhe_exact n d : 0 < d -> round_half_even (n * d) d = n.
Proof.
  intros Hd. unfold round_half_even.
  rewrite Z.div_mul, Z.mod_mul by lia.
  destruct (2 * 0 ?= d) eqn:E; try reflexivity.
  - apply Z.compare_eq in E. lia.
  - apply Z.compare_gt_iff in E. lia.
Qed.

Lemma rhe_one n : round_half_even n 1 = n.
Proof.
  pose proof (rhe_exact n 1) as H. rewrite Z.mul_1_r in H. apply H. lia.
Qed.

Lemma rhe_nonneg n d : 0 <= n -> 0 < d -> 0 <= round_half_even n d.
Proof.
  intros Hn Hd. unfold round_half_even.
  assert (0 <= n / d) by (apply Z.div_pos; lia).
  destruct (_ ?= _); try destruct (Z.even _); lia.
Qed.

Lemma floor_log2_ratio_pow2 n k :
  0 < n -> 0 <= k -> floor_log2_ratio n (2 ^ k) = Z.log2 n - k.
Proof.
  intros Hn Hk. unfold floor_log2_ratio.
  rewrite Z.log2_pow2 by lia.
  destruct (Z.log2_spec n Hn) as [Hlo _].
  assert (HL : 0 <= Z.log2 n) by apply Z.log2_nonneg.
  destruct (0 <=? Z.log2 n - k) eqn:E.
  - apply Z.leb_le in E.
    rewrite <- Z.pow_add_r by lia.
    replace (k + (Z.log2 n - k)) with (Z.log2 n) by lia.
    apply Z.leb_le in Hlo. rewrite Hlo. reflexivity.
  - apply Z.leb_gt in E.
    assert (H : 2 ^ k <= n * 2 ^ (- (Z.log2 n - k))).
    { replace k with (Z.log2 n + (- (Z.log2 n - k))) at 1 by lia.
      rewrite Z.pow_add_r by lia.
      apply Z.mul_le_mono_nonneg_r; [apply Z.pow_nonneg; lia | exact Hlo]. }
    apply Z.leb_le in H. rewrite H. reflexivity.
Qed.

Lemma nearest_double_finite neg n k :
  0 < n -> 0 <= k <= 1022 -> Z.log2 n - k < 1023 ->
  exists m e, nearest_double neg n (2 ^ k) = Fin neg m e /\ 0 <= m
              /\ Z.log2 n - k - 52 <= e.
Proof.
  intros Hn Hk HL. unfold nearest_double.
  assert (H0 : 0 <= Z.log2 n) by apply Z.log2_nonneg.
  assert (Hp : 0 < 2 ^ k) by (apply Z.pow_pos_nonneg; lia).
  destruct (n =? 0) eqn:En; [apply Z.eqb_eq in En; lia|].
  rewrite floor_log2_ratio_pow2 by lia.
  rewrite Z.max_l by lia.
  set (q := Z.log2 n - k - 52).
  set (m0 := if 0 <=? q then round_half_even n (2 ^ k * 2 ^ q)
             else round_half_even (n * 2 ^ (- q)) (2 ^ k)).
  assert (Hm0 : 0 <= m0).
  { subst m0. destruct (0 <=? q) eqn:Eq.
    - apply Z.leb_le in Eq. apply rhe_nonneg; [lia|].
      apply Z.mul_pos_pos; [lia | apply Z.pow_pos_nonneg; lia].
    - apply Z.leb_gt in Eq. apply rhe_nonneg; [|lia].
      apply Z.mul_nonneg_nonneg; [lia | apply Z.pow_nonneg; lia]. }
  destruct (m0 =? 2 ^ 53) eqn:Em.
  - destruct (972 <=? q + 1) eqn:Eo; [apply Z.leb_le in Eo; lia|].
    exists (2 ^ 52), (q + 1). split; [reflexivity|]. split; [|lia].
    apply Z.pow_nonneg; lia.
  - destruct (972 <=? q) eqn:Eo; [apply Z.leb_le in Eo; lia|].
    exists m0, q. split; [reflexivity|]. split; [assumption | lia].
Qed.

Lemma nearest_double_exact neg n k :
  0 < n < 2 ^ 53 -> 0 <= k <= 1022 ->
  exists m e, nearest_double neg n (2 ^ k) = Fin neg m e /\ 0 <= m
              /\ centi m e = round_half_even (100 * n) (2 ^ k).
Proof.
  intros [Hn Hn53] Hk. unfold nearest_double.
  assert (H0 : 0 <= Z.log2 n) by apply Z.log2_nonneg.
  assert (H52 : Z.log2 n < 53) by (apply Z.log2_lt_pow2; lia).
  destruct (Z.log2_spec n Hn) as [Hlo Hhi].
  assert (Hp : 0 < 2 ^ k) by (apply Z.pow_pos_nonneg; lia).
  destruct (n =? 0) eqn:En; [apply Z.eqb_eq in En; lia|].
  rewrite floor_log2_ratio_pow2 by lia.
  rewrite Z.max_l by lia.
  set (L := Z.log2 n) in *.
  set (q := L - k - 52).
  assert (Hs : 0 < 2 ^ (52 - L)) by (apply Z.pow_pos_nonneg; lia).
  assert (Hm : n * 2 ^ (52 - L) < 2 ^ 53).
  { replace 53 with (Z.succ L + (52 - L)) by lia.
    rewrite Z.pow_add_r by lia. apply Z.mul_lt_mono_pos_r; lia. }
  destruct (0 <=? q) eqn:Eq.
  - apply Z.leb_le in Eq.
    assert (k = 0) by lia. assert (L = 52) by lia. subst k.
    assert (Hq : q = 0) by lia. rewrite Hq.
    change (2 ^ 0) with 1. change (1 * 1) with 1.
    rewrite !rhe_one.
    destruct (n =? 2 ^ 53) eqn:E2; [apply Z.eqb_eq in E2; lia|].
    destruct (972 <=? 0) eqn:Eo; [discriminate|].
    exists n, 0. split; [reflexivity|]. split; [lia|].
    unfold centi. change (0 <=? 0) with true. cbv iota.
    change (2 ^ 0) with 1. lia.
  - apply Z.leb_gt in Eq.
    replace (- q) with ((52 - L) + k) by lia.
    rewrite Z.pow_add_r by lia.
    replace (n * (2 ^ (52 - L) * 2 ^ k)) with (n * 2 ^ (52 - L) * 2 ^ k) by ring.
    rewrite rhe_exact by lia.
    destruct (n * 2 ^ (52 - L) =? 2 ^ 53) eqn:E2; [apply Z.eqb_eq in E2; lia|].
    destruct (972 <=? q) eqn:Eo; [apply Z.leb_le in Eo; lia|].
    exists (n * 2 ^ (52 - L)), q. split; [reflexivity|]. split; [lia|].
    unfold centi. destruct (0 <=? q) eqn:Eq'; [apply Z.leb_le in Eq'; lia|].
    replace (- q) with (k + (52 - L)) by lia.
    rewrite Z.pow_add_r by lia.
    replace (100 * (n * 2 ^ (52 - L))) with (100 * n * 2 ^ (52 - L)) by ring.
    apply rhe_scale; lia.
Qed.

Lemma nearest_double_overflow neg n k :
  0 < n -> 0 <= k <= 1022 -> 1024 <= Z.log2 n - k ->
  nearest_double neg n (2 ^ k) = Inf neg.
Proof.
  intros Hn Hk HL. unfold nearest_double.
  destruct (n =? 0) eqn:En; [apply Z.eqb_eq in En; lia|].
  rewrite floor_log2_ratio_pow2 by lia.
  rewrite Z.max_l by lia.
  set (q := Z.log2 n - k - 52).
  destruct (_ =? 2 ^ 53).
  - destruct (972 <=? q + 1) eqn:Eo; [reflexivity | apply Z.leb_gt in Eo; lia].
  - destruct (972 <=? q) eqn:Eo; [reflexivity | apply Z.leb_gt in Eo; lia].
Qed.

Lemma centi_nonneg m e : 0 <= m -> 0 <= centi m e.
Proof.
  intros Hm. unfold centi. destruct (0 <=? e) eqn:E.
  - apply Z.leb_le in E. apply Z.mul_nonneg_nonneg; [lia|].
    apply Z.pow_nonneg; lia.
  - apply Z.leb_gt in E. apply rhe_nonneg; [lia|].
    apply Z.pow_pos_nonneg; lia.
Qed.

(** *** Decimal rendering *)

Lemma string_of_uint_digits d :
  all_digits (NilEmpty.string_of_uint d) = true.
Proof. induction d; simpl; auto. Qed.

Lemma of_N_digits n : all_digits (of_N n) = true.
Proof.
  unfold of_N, NilZero.string_of_uint.
  destruct (N.to_uint n); try reflexivity;
    apply (string_of_uint_digits (_ _)).
Qed.

Lemma of_N_nonempty n : of_N n <> "".
Proof.
  unfold of_N, NilZero.string_of_uint.
  destruct (N.to_uint n); simpl; discriminate.
Qed.

Lemma digit_is_digit d : all_digits (digit d) = true.
Proof.
  unfold digit, all_digits. simpl.
  assert (H : 0 <= d mod 10 < 10) by (apply Z.mod_pos_bound; lia).
  unfold is_digit. rewrite N_ascii_embedding by lia.
  rewrite andb_true_r. apply andb_true_iff. split; apply N.leb_le; lia.
Qed.

Lemma split_digits_point s1 s2 :
  all_digits s1 = true ->
  split "." (s1 +:+ String "." s2) = s1 :: split "." s2.
Proof.
  unfold all_digits. induction s1 as [|c s1 IH]; simpl; intros H.
  - reflexivity.
  - apply andb_true_iff in H as [Hc Hs].
    destruct (Ascii.eqb c ".") eqn:E.
    + apply Ascii.eqb_eq in E. subst c. discriminate.
    + rewrite (IH Hs). reflexivity.
Qed.

Lemma split_digits s : all_digits s = true -> split "." s = [s].
Proof.
  unfold all_digits. induction s as [|c s IH]; simpl; intros H.
  - reflexivity.
  - apply andb_true_iff in H as [Hc Hs].
    destruct (Ascii.eqb c ".") eqn:E.
    + apply Ascii.eqb_eq in E. subst c. discriminate.
    + rewrite (IH Hs). reflexivity.
Qed.

Lemma all_digits_app s1 s2 :
  all_digits s1 = true -> all_digits s2 = true ->
  all_digits (s1 +:+ s2) = true.
Proof.
  unfold all_digits. induction s1 as [|c s1 IH]; simpl; intros H1 H2.
  - assumption.
  - apply andb_true_iff in H1 as [Hc Hs]. rewrite Hc. simpl. auto.
Qed.

Lemma render_centi_two_decimal c :
  is_two_decimal (render_centi false c) = true.
Proof.
  unfold render_centi, is_two_decimal, sign_str.
  change ("" +:+ ?x) with x.
  change ("." +:+ ?x) with (String "." x).
  rewrite split_digits_point by apply of_N_digits.
  rewrite split_digits
    by (apply all_digits_app; apply digit_is_digit).
  rewrite of_N_digits.
  rewrite (all_digits_app _ _ (digit_is_digit _) (digit_is_digit _)).
  destruct (String.eqb (of_N (Z.to_N (c / 100))) "") eqn:E.
  - apply String.eqb_eq in E. destruct (of_N_nonempty _ E).
  - reflexivity.
Qed.

Lemma digit_mul10 v : digit (10 * v) = "0".
Proof.
  unfold digit. rewrite Z.mul_comm, Z.mod_mul by lia. reflexivity.
Qed.

Lemma render_centi_integral neg v :
  render_centi neg (100 * v) = sign_str neg +:+ of_N (Z.to_N v) +:+ ".00".
Proof.
  unfold render_centi.
  replace (100 * v / 100) with v
    by (rewrite Z.mul_comm, Z.div_mul; lia).
  replace (100 * v / 10) with (10 * v)
    by (replace (100 * v) with (10 * v * 10) by ring;
        rewrite Z.div_mul; lia).
  replace (100 * v) with (10 * (10 * v)) by ring.
  rewrite !digit_mul10. reflexivity.
Qed.

(** *** The two number conversions of [format_size] *)

Lemma int_truediv_pow2 b k :
  0 < b -> 0 <= k <= 1022 -> Z.log2 b - k < 1023 ->
  exists m e, int_truediv b (2 ^ k) = Ok (Fin false m e) /\ 0 <= m
              /\ (b < 2 ^ 53 -> centi m e = round_half_even (100 * b) (2 ^ k)).
Proof.
  intros Hb Hk HL. unfold int_truediv.
  assert (Hp : 0 < 2 ^ k) by (apply Z.pow_pos_nonneg; lia).
  destruct (2 ^ k =? 0) eqn:E0; [apply Z.eqb_eq in E0; lia|].
  destruct (b <? 0) eqn:E1; [apply Z.ltb_lt in E1; lia|].
  destruct (2 ^ k <? 0) eqn:E2; [apply Z.ltb_lt in E2; lia|].
  rewrite (Z.abs_eq b), (Z.abs_eq (2 ^ k)) by lia. simpl xorb.
  destruct (Z_lt_dec b (2 ^ 53)) as [Hlt|Hge].
  - destruct (nearest_double_exact false b k) as (m & e & -> & Hm & Hc);
      [lia..|].
    exists m, e. split; [reflexivity|]. split; [assumption | auto].
  - destruct (nearest_double_finite false b k) as (m & e & -> & Hm & _);
      [lia..|].
    exists m, e. split; [reflexivity|]. split; [assumption | lia].
Qed.

Lemma rhe_zero d : 0 < d -> round_half_even 0 d = 0.
Proof. intros Hd. exact (rhe_exact 0 d Hd). Qed.

Lemma int_to_float_exact b :
  Z.abs b < 2 ^ 53 ->
  exists m e, int_to_float b = Ok (Fin (b <? 0) m e) /\ 0 <= m
              /\ centi m e = 100 * Z.abs b.
Proof.
  intros Hb. unfold int_to_float.
  destruct (Z.eq_dec b 0) as [->|Hnz].
  - exists 0, (-1074). split; [reflexivity|]. split; [lia|].
    unfold centi. change (0 <=? -1074) with false. cbv iota.
    apply rhe_zero. apply Z.pow_pos_nonneg; lia.
  - destruct (nearest_double_exact (b <? 0) (Z.abs b) 0)
      as (m & e & Heq & Hm & Hc); [lia..|].
    change (2 ^ 0) with 1 in Heq, Hc. rewrite Heq.
    exists m, e. split; [reflexivity|]. split; [assumption|].
    rewrite Hc. apply rhe_one.
Qed.

Lemma rhe_error n d : 0 < d -> 2 * Z.abs (round_half_even n d * d - n) <= d.
Proof.
  intros Hd. unfold round_half_even. cbv zeta.
  pose proof (Z.div_mod n d ltac:(lia)) as Hdm.
  pose proof (Z.mod_pos_bound n d Hd) as Hr.
  set (q := n `div` d) in *. set (r := n `mod` d) in *. clearbody q r.
  destruct (Z.compare_spec (2 * r) d) as [E|E|E].
  - destruct (Z.even q).
    + replace (q * d - n) with (- r) by lia. lia.
    + replace ((q + 1) * d - n) with (d - r) by lia. lia.
  - replace (q * d - n) with (- r) by lia. lia.
  - replace ((q + 1) * d - n) with (d - r) by lia. lia.
Qed.

Lemma string_app_assoc (s1 s2 s3 : string) :
  (s1 +:+ s2) +:+ s3 = s1 +:+ s2 +:+ s3.
Proof.
  induction s1 as [|c s1 IH]; [reflexivity|].
  change (String c ((s1 +:+ s2) +:+ s3) = String c (s1 +:+ s2 +:+ s3)).
  rewrite IH. reflexivity.
Qed.

Lemma int_to_float_finite b :
  2 ^ 53 <= Z.abs b < 2 ^ 1023 ->
  exists m e, int_to_float b = Ok (Fin (b <? 0) m e) /\ 0 <= m /\ 0 < e
              /\ 2 * Z.abs (m * 2 ^ e - Z.abs b) <= 2 ^ (Z.log2 (Z.abs b) - 52).
Proof.
  intros [Hlo Hhi]. unfold int_to_float, nearest_double.
  set (n := Z.abs b) in *.
  assert (Hpos : 0 < n) by lia.
  assert (HL : 53 <= Z.log2 n) by (apply Z.log2_le_pow2; lia).
  assert (HU : Z.log2 n < 1023) by (apply Z.log2_lt_pow2; lia).
  destruct (n =? 0) eqn:En; [apply Z.eqb_eq in En; lia|].
  pose proof (floor_log2_ratio_pow2 n 0 Hpos ltac:(lia)) as Hf.
  change (2 ^ 0) with 1 in Hf. rewrite Hf, Z.sub_0_r.
  rewrite Z.max_l by lia.
  set (q := Z.log2 n - 52).
  destruct (0 <=? q) eqn:Eq; [|apply Z.leb_gt in Eq; lia].
  rewrite Z.mul_1_l.
  assert (Hd : 0 < 2 ^ q) by (apply Z.pow_pos_nonneg; lia).
  pose proof (rhe_error n (2 ^ q) Hd) as Herr.
  pose proof (rhe_nonneg n (2 ^ q) ltac:(lia) Hd) as Hnn.
  destruct (round_half_even n (2 ^ q) =? 2 ^ 53) eqn:Em.
  - apply Z.eqb_eq in Em.
    destruct (972 <=? q + 1) eqn:Eo; [apply Z.leb_le in Eo; lia|].
    exists (2 ^ 52), (q + 1). split; [reflexivity|].
    split; [apply Z.pow_nonneg; lia|]. split; [lia|].
    rewrite Em in Herr.
    replace (2 ^ 52 * 2 ^ (q + 1)) with (2 ^ 53 * 2 ^ q); [exact Herr|].
    rewrite Z.pow_add_r by lia. change (2 ^ 53) with (2 ^ 52 * 2 ^ 1). ring.
  - destruct (972 <=? q) eqn:Eo; [apply Z.leb_le in Eo; lia|].
    exists (round_half_even n (2 ^ q)), q. split; [reflexivity|].
    split; [assumption|]. split; [lia | exact Herr].
Qed.

Lemma int_to_float_overflow b :
  2 ^ 1024 <= Z.abs b ->
  int_to_float b = Raise (OverflowError "int too large to convert to float").
Proof.
  intros Hlo. unfold int_to_float.
  assert (Hpos : 0 < Z.abs b) by lia.
  assert (HL : 1024 <= Z.log2 (Z.abs b)) by (apply Z.log2_le_pow2; lia).
  pose proof (nearest_double_overflow (b <? 0) (Z.abs b) 0) as H.
  change (2 ^ 0) with 1 in H. rewrite H by lia. reflexivity.
Qed.

End FloatFacts.

(** * SizeFormatter *)

Module FormatSizeFacts.
Import PyStr FloatFacts.

(** The branch taken by [format_size], with the float it formats. *)
Lemma format_size_scaled b k unit :
  0 < b -> 0 <= k <= 1022 -> Z.log2 b - k < 1023 ->
  exists c, 0 <= c /\
    ('(size, unit) ← (size ← int_truediv b (2 ^ k); Ok (PFloat size, unit));
     s ← format_num_2f size;
     Ok (s +:+ " " +:+ unit)) = Ok (render_centi false c +:+ " " +:+ unit)
    /\ (b < 2 ^ 53 -> c = round_half_even (100 * b) (2 ^ k)).
Proof.
  intros Hb Hk HL.
  destruct (int_truediv_pow2 b k Hb Hk HL) as (m & e & -> & Hm & Hc).
  exists (centi m e). split; [apply centi_nonneg; assumption|].
  split; [reflexivity | assumption].
Qed.

Lemma format_size_bytes b :
  b < 1024 ->
  format_size b = (s ← format_num_2f (PInt b); Ok (s +:+ " " +:+ "Bytes")).
Proof.
  intros Hb. unfold format_size. rewrite !Z.geb_leb.
  destruct (1024 ^ 3 <=? b) eqn:E3; [apply Z.leb_le in E3; lia|].
  destruct (1024 ^ 2 <=? b) eqn:E2; [apply Z.leb_le in E2; lia|].
  destruct (1024 <=? b) eqn:E1; [apply Z.leb_le in E1; lia|].
  reflexivity.
Qed.

(** The four branches of [format_size] on a non-negative argument inside
    the float range. *)
Lemma format_size_cases b :
  0 <= b < 2 ^ 1053 ->
  exists unit k c,
    format_size b = Ok (render_centi false c +:+ " " +:+ unit) /\
    (b < 2 ^ 53 -> c = round_half_even (100 * b) (2 ^ k)) /\
    (unit = "GB" /\ k = 30 /\ 2 ^ 30 <= b
     \/ unit = "MB" /\ k = 20 /\ 2 ^ 20 <= b < 2 ^ 30
     \/ unit = "KB" /\ k = 10 /\ 2 ^ 10 <= b < 2 ^ 20
     \/ unit = "Bytes" /\ k = 0 /\ b < 2 ^ 10).
Proof.
  intros [Hb Hhi].
  assert (HL : 0 < b -> Z.log2 b < 1053) by (intros; apply Z.log2_lt_pow2; lia).
  destruct (Z_lt_dec b 1024) as [H1|H1].
  - exists "Bytes", 0, (100 * b). split; [|split].
    + rewrite format_size_bytes by assumption. unfold format_num_2f.
      destruct (int_to_float_exact b) as (m & e & -> & Hm & Hc); [lia|].
      destruct (b <? 0) eqn:E; [apply Z.ltb_lt in E; lia|].
      cbn [mbind result_bind]. unfold format_2f.
      rewrite Hc, Z.abs_eq by lia. reflexivity.
    + intros _. symmetry. apply rhe_one.
    + do 3 right. repeat split; lia.
  - unfold format_size. rewrite !Z.geb_leb.
    destruct (1024 ^ 3 <=? b) eqn:E3; [|destruct (1024 ^ 2 <=? b) eqn:E2;
      [|destruct (1024 <=? b) eqn:E1]];
      rewrite ?Z.leb_le, ?Z.leb_gt in *.
    + destruct (format_size_scaled b 30 "GB") as (c & Hc0 & Heq & Hc);
        [lia | lia | specialize (HL ltac:(lia)); lia |].
      exists "GB", 30, c. split; [exact Heq|]. split; [exact Hc|].
      left. repeat split; lia.
    + destruct (format_size_scaled b 20 "MB") as (c & Hc0 & Heq & Hc);
        [lia | lia | |].
      { assert (Z.log2 b < 30) by (apply Z.log2_lt_pow2; lia). lia. }
      exists "MB", 20, c. split; [exact Heq|]. split; [exact Hc|].
      right. left. repeat split; lia.
    + destruct (format_size_scaled b 10 "KB") as (c & Hc0 & Heq & Hc);
        [lia | lia | |].
      { assert (Z.log2 b < 30) by (apply Z.log2_lt_pow2; lia). lia. }
      exists "KB", 10, c. split; [exact Heq|]. split; [exact Hc|].
      right. right. left. repeat split; lia.
    + lia.
Qed.

End FormatSizeFacts.

(** * The claims about [format_size] *)

Import PyStr FloatFacts FormatSizeFacts.

(** The examples of the spec. *)
Example format_size_examples :
  format_size 0 = Ok "0.00 Bytes" /\ format_size 1024 = Ok "1.00 KB" /\
  format_size (1024 ^ 3) = Ok "1.00 GB" /\ format_size 1536 = Ok "1.50 KB".
Proof. repeat split; vm_compute; reflexivity. Qed.

(** C4, as stated, fails at one tebibyte: [format_size] has no unit above GB,
    so [2^40] bytes are rendered in GB with magnitude 1024, which is not
    below 1024. *)
Lemma format_size_tebibyte_not_below_1024 :
  format_size (2 ^ 40) = Ok "1024.00 GB" /\
  ~ (2 ^ 40 < 1024 * 1024 ^ 3).
Proof. split; [vm_compute; reflexivity | lia]. Qed.

(** C4, amended: for every non-negative integer [b] below [2^1053],
    [format_size] selects the first unit of GB, MB, KB whose divisor is at
    most [b], and Bytes when [b < 1024]; the selected unit is the largest one
    with magnitude at least 1; the magnitude is below 1024 as long as
    [b < 1024^4] (GB has no upper bound); the result is the magnitude rendered
    with exactly two decimals, a space and the unit suffix, and below [2^53]
    the two decimals are the exact quotient rounded half to even. *)
Theorem format_size_unit_selection (b : Z) :
  0 <= b < 2 ^ 1053 ->
  exists unit scale c,
    In (unit, scale) units /\
    format_size b = Ok (render_centi false c +:+ " " +:+ unit) /\
    is_two_decimal (render_centi false c) = true /\
    (b < 2 ^ 53 -> c = round_half_even (100 * b) scale) /\
    (forall u' s', In (u', s') units -> s' <= b -> s' <= scale) /\
    (b < 1024 -> unit = "Bytes") /\
    (1024 <= b -> scale <= b) /\
    (1024 <= b < 1024 ^ 4 -> b < 1024 * scale) /\
    (1024 ^ 3 <= b -> unit = "GB").
Proof.
  intros Hb.
  destruct (format_size_cases b Hb) as (unit & k & c & Heq & Hc & Hcase).
  assert (Hunits : forall u' s', In (u', s') units ->
            s' = 1024 ^ 3 \/ s' = 1024 ^ 2 \/ s' = 1024 \/ s' = 1).
  { intros u' s' H. unfold units in H. cbn in H.
    destruct H as [H|[H|[H|[H|[]]]]]; inversion H; auto. }
  exists unit, (2 ^ k), c.
  split.
  { unfold units.
    destruct Hcase as [(-> & -> & _)|[(-> & -> & _)|[(-> & -> & _)|(-> & -> & _)]]];
      cbn; auto. }
  split; [exact Heq|].
  split; [apply render_centi_two_decimal|].
  split; [exact Hc|].
  split.
  { intros u' s' Hin Hs.
    destruct (Hunits _ _ Hin) as [->|[->|[->| ->]]];
      destruct Hcase as [(_ & -> & ?)|[(_ & -> & ?)|[(_ & -> & ?)|(_ & -> & ?)]]];
      lia. }
  destruct Hcase as [(-> & -> & ?)|[(-> & -> & ?)|[(-> & -> & ?)|(-> & -> & ?)]]];
    repeat split; intros; try lia; try reflexivity.
Qed.

Lemma format_size_unit_selection_witness :
  0 <= 1536 < 2 ^ 1053 /\
  exists unit scale c,
    In (unit, scale) units /\
    format_size 1536 = Ok (render_centi false c +:+ " " +:+ unit) /\
    is_two_decimal (render_centi false c) = true /\
    (1536 < 2 ^ 53 -> c = round_half_even (100 * 1536) scale) /\
    (forall u' s', In (u', s') units -> s' <= 1536 -> s' <= scale) /\
    (1536 < 1024 -> unit = "Bytes") /\
    (1024 <= 1536 -> scale <= 1536) /\
    (1024 <= 1536 < 1024 ^ 4 -> 1536 < 1024 * scale) /\
    (1024 ^ 3 <= 1536 -> unit = "GB").
Proof. split; [lia | apply (format_size_unit_selection 1536); lia]. Defined.

(** C9, as stated, fails on large negative integers: the Bytes branch formats
    the int through [float()], which raises [OverflowError] beyond the float
    range and rounds to 53 significant bits beyond [2^53]. *)
Lemma format_size_negative_not_total :
  - 2 ^ 1024 < 0 /\
  format_size (- 2 ^ 1024)
  = Raise (OverflowError "int too large to convert to float") /\
  format_size (- (2 ^ 53 + 1)) = Ok "-9007199254740992.00 Bytes".
Proof. split; [lia | split; vm_compute; reflexivity]. Qed.

(** C9, amended: on every negative integer all unit thresholds fail and
    [format_size] takes the Bytes branch; above [-2^53] it returns the value
    itself rendered as ["-<digits>.00 Bytes"]; from [-2^53] down to above
    [-2^1023] it returns the float nearest to the value (within half a unit
    in the 53rd significant bit) rendered the same way; at or below [-2^1024]
    it raises [OverflowError]. *)
Theorem format_size_negative (b : Z) :
  b < 0 ->
  format_size b = (s ← format_num_2f (PInt b); Ok (s +:+ " " +:+ "Bytes")) /\
  (- 2 ^ 53 < b ->
   format_size b = Ok ("-" +:+ of_N (Z.to_N (- b)) +:+ ".00 Bytes")) /\
  (- 2 ^ 1023 < b <= - 2 ^ 53 ->
   exists v, format_size b = Ok ("-" +:+ of_N (Z.to_N v) +:+ ".00 Bytes") /\
             0 <= v /\ 2 * Z.abs (v - - b) <= 2 ^ (Z.log2 (- b) - 52)) /\
  (b <= - 2 ^ 1024 ->
   format_size b = Raise (OverflowError "int too large to convert to float")).
Proof.
  intros Hb.
  assert (Hbr := format_size_bytes b ltac:(lia)).
  assert (Hneg : (b <? 0) = true) by (apply Z.ltb_lt; lia).
  assert (Habs : Z.abs b = - b) by lia.
  split; [exact Hbr|]. rewrite Hbr. unfold format_num_2f.
  split; [|split].
  - intros Hlo.
    destruct (int_to_float_exact b) as (m & e & -> & Hm & Hc); [lia|].
    rewrite Hneg. cbn [mbind result_bind]. unfold format_2f.
    rewrite Hc, Habs, render_centi_integral.
    cbn [sign_str]. rewrite !string_app_assoc. reflexivity.
  - intros Hr.
    destruct (int_to_float_finite b) as (m & e & -> & Hm & He & Herr); [lia|].
    rewrite Hneg. cbn [mbind result_bind]. unfold format_2f, centi.
    destruct (0 <=? e) eqn:E; [|apply Z.leb_gt in E; lia].
    exists (m * 2 ^ e). rewrite <- Z.mul_assoc, render_centi_integral.
    cbn [sign_str]. rewrite !string_app_assoc.
    split; [reflexivity|]. rewrite Habs in Herr.
    split; [|exact Herr].
    apply Z.mul_nonneg_nonneg; [assumption | apply Z.pow_nonneg; lia].
  - intros Hr. rewrite int_to_float_overflow by lia. reflexivity.
Qed.

Lemma format_size_negative_witness :
  -5 < 0 /\
  format_size (-5) = Ok "-5.00 Bytes".
Proof.
  split; [lia|].
  destruct (format_size_negative (-5) ltac:(lia)) as (_ & H & _).
  rewrite H by lia. reflexivity.
Defined.

(** * HistoryStore: writing *)

Module HistoryFacts.
Import PyStr FloatFacts FormatSizeFacts.

Lemma string_app_empty_r (s : string) : s +:+ "" = s.
Proof.
  induction s as [|c s IH]; [reflexivity|].
  change (String c (s +:+ "") = String c s). rewrite IH. reflexivity.
Qed.

Lemma file_write_twice filename t1 t2 w :
  file_write filename t2 (file_write filename t1 w)
  = file_write filename (t1 +:+ t2) w.
Proof.
  unfold file_write. cbn [fs console stdin effects].
  rewrite lookup_insert_eq, insert_insert_eq. cbn [from_option id].
  rewrite string_app_assoc. reflexivity.
Qed.


(** [save_history] when the destination cannot be opened. *)
Lemma save_history_unopened data filename now w e :
  open_error w filename = Some e ->
  save_history data filename now w = (w, Raise e).
Proof. intros Hopen. unfold save_history, open_append. rewrite Hopen. reflexivity. Qed.


Lemma format_size_uint64 b :
  0 <= b < 2 ^ 64 -> exists s, format_size b = Ok s /\ is_size s.
Proof.
  intros Hb.
  destruct (format_size_cases b) as (unit & k & c & Heq & _ & Hcase); [lia|].
  exists (render_centi false c +:+ " " +:+ unit). split; [exact Heq|].
  exists (render_centi false c), unit, (2 ^ k).
  split; [reflexivity|]. split; [apply render_centi_two_decimal|].
  unfold units.
  destruct Hcase as [(-> & -> & _)|[(-> & -> & _)|[(-> & -> & _)|(-> & -> & _)]]];
    cbn; auto.
Qed.

Lemma history_line_uint64 drive u :
  uint64_usage u ->
  exists line, history_line drive u = Ok line /\ is_history_line drive line.
Proof.
  destruct u as [[total used] free]. intros (Ht & Hu & Hf).
  destruct (format_size_uint64 total Ht) as (ts & Hts & Hst).
  destruct (format_size_uint64 used Hu) as (us & Hus & Hsu).
  destruct (format_size_uint64 free Hf) as (fs' & Hfs & Hsf).
  unfold history_line. rewrite Hts, Hus, Hfs. cbn [mbind result_bind].
  eexists. split; [reflexivity|]. exists ts, us, fs'. auto.
Qed.

Lemma write_items_uint64 filename data :
  Forall (fun item => uint64_usage (snd item)) data ->
  exists lines,
    Forall2 (fun item line => history_line (fst item) (snd item) = Ok line
                              /\ is_history_line (fst item) line) data lines /\
    forall w head,
      write_items filename data (file_write filename head w)
      = (file_write filename (head +:+ String.concat "" lines) w, Ok ()).
Proof.
  induction 1 as [|[drive u] data Hu Hdata (lines & Hlines & IH)].
  - exists []. split; [constructor|]. intros w head. cbn.
    rewrite string_app_empty_r. reflexivity.
  - destruct (history_line_uint64 drive u Hu) as (line & Hline & Hshape).
    exists (line :: lines). split; [constructor; auto|].
    intros w head. cbn [write_items]. rewrite Hline.
    rewrite file_write_twice, IH. cbn [String.concat].
    destruct lines; rewrite ?string_app_assoc, ?string_app_empty_r;
      reflexivity.
Qed.



(** *** The shape of the timestamp *)






End HistoryFacts.

(** * The claims about the history log: writing *)

Import HistoryFacts.




(** * HistoryStore: parsing *)

Module ParseFacts.

Lemma split_free sep s : free_of sep s = true -> split sep s = [s].
Proof.
  unfold free_of. induction s as [|c s IH]; cbn; intros H; [reflexivity|].
  apply andb_true_iff in H as [Hc Hs].
  destruct (Ascii.eqb c sep); [discriminate|]. rewrite (IH Hs). reflexivity.
Qed.

Lemma split_app_sep sep a r :
  free_of sep a = true -> split sep (a +:+ String sep r) = a :: split sep r.
Proof.
  unfold free_of. induction a as [|c a IH]; intros H.
  - change ("" +:+ String sep r) with (String sep r). cbn [split].
    rewrite Ascii.eqb_refl. reflexivity.
  - cbn in H. apply andb_true_iff in H as [Hc Hs].
    change (String c a +:+ String sep r) with (String c (a +:+ String sep r)).
    cbn [split]. destruct (Ascii.eqb c sep); [discriminate|].
    rewrite (IH Hs). reflexivity.
Qed.





Lemma free_of_app c s1 s2 :
  free_of c (s1 +:+ s2) = free_of c s1 && free_of c s2.
Proof.
  unfold free_of. induction s1 as [|x s1 IH]; [reflexivity|].
  change (String x s1 +:+ s2) with (String x (s1 +:+ s2)). cbn.
  rewrite IH, andb_assoc. reflexivity.
Qed.





End ParseFacts.

(** * The claims about the history log: parsing *)

(** C1 on the code: after [save_history] of the spec's example record, the
    parser of [plot_usage] yields one record labelled ["C"], but its two
    numbers are the Total and Used columns (465.66 and 279.40), not the Used
    and Free ones (279.40 and 186.26): [parts[1]] and [parts[2]] of the line
    split on ['|'] are the fields after the volume, and the first of them
    is [Total]. *)
Theorem roundtrip_example_reads_total_and_used :
  exists text used_value free_value,
    fs (save_history example_data history_file example_now empty_world).1
      !! history_file = Some text /\
    records (parse_history text) = [("C", used_value, free_value)] /\
    py_float "465.66" = Some used_value /\
    py_float "279.40" = Some free_value /\
    within_centi used_value 27940 1 = false /\
    within_centi free_value 18626 1 = false.
Proof.
  do 3 eexists. split; [vm_compute; reflexivity|].
  split; [vm_compute; reflexivity|].
  repeat split; vm_compute; reflexivity.
Qed.

(** The selection the loop makes, in the parser's own terms: a line without
    ["Total"] is ignored; a line with it is used only when splitting on ['|']
    gives at least three fields and the second and third of them convert with
    [float]; in every other case the line leaves the three lists as they
    were, no exception escapes, and the lines after it are parsed as if it
    were absent. *)
Lemma parse_line_selection (st : parsed) (line : string) :
  let parts := split "|" (strip line) in
  (contains "Total" line = false -> parse_step st line = st) /\
  (contains "Total" line = true -> (length parts < 3)%nat ->
   parse_step st line = st) /\
  (contains "Total" line = true -> (3 <= length parts)%nat ->
   float_field (nth 1 parts "") = None \/ float_field (nth 2 parts "") = None ->
   parse_step st line = st) /\
  (forall used_value free_value,
     contains "Total" line = true -> (3 <= length parts)%nat ->
     float_field (nth 1 parts "") = Some used_value ->
     float_field (nth 2 parts "") = Some free_value ->
     parse_step st line
     = (st.1.1 ++ [strip (hd "" (split ":" (nth 0 parts "")))],
        st.1.2 ++ [used_value], st.2 ++ [free_value])) /\
  (forall before after,
     parse_step (fold_left parse_step before st) line
     = fold_left parse_step before st ->
     fold_left parse_step (before ++ line :: after) st
     = fold_left parse_step (before ++ after) st).
Proof.
  intros parts.
  split; [|split; [|split; [|split]]];
    [destruct st as [[disks used_sizes] free_sizes];
     unfold parse_step; fold parts ..|].
  - intros ->. reflexivity.
  - intros -> Hlen.
    destruct (3 <=? length parts)%nat eqn:E; [|reflexivity].
    apply Nat.leb_le in E. lia.
  - intros -> Hlen Hfail.
    destruct (3 <=? length parts)%nat; [|reflexivity].
    destruct Hfail as [-> | H2]; [reflexivity|].
    rewrite H2. destruct (float_field (nth 1 parts "")); reflexivity.
  - intros used_value free_value -> Hlen H1 H2.
    apply Nat.leb_le in Hlen. rewrite Hlen, H1, H2. reflexivity.
  - intros before after Hskip.
    rewrite !fold_left_app. cbn [fold_left]. rewrite Hskip. reflexivity.
Qed.

Lemma parse_line_selection_witness :
  parse_step ([], [], [])
    ("C | Total: 512.00 MB | Used: 100.00 MB | Free: 412.00 MB" +:+ LF)
  = ([], [], []).
Proof.
  apply (parse_line_selection ([], [], [])
           ("C | Total: 512.00 MB | Used: 100.00 MB | Free: 412.00 MB" +:+ LF)).
  - vm_compute. reflexivity.
  - vm_compute. lia.
  - left. vm_compute. reflexivity.
Defined.

(** A file with a line in MB followed by a line in GB: the first is skipped,
    the second is parsed. *)
Example parse_history_skips_and_continues :
  records (parse_history
    ("C | Total: 512.00 MB | Used: 100.00 MB | Free: 412.00 MB" +:+ LF
     +:+ "D | Total: 2.00 GB | Used: 1.50 GB | Free: 0.50 GB" +:+ LF))
  = [("D", Fin false (2 ^ 52) (-51), Fin false (3 * 2 ^ 51) (-52))].
Proof. vm_compute. reflexivity. Qed.

(** A line whose Total and Used are in GB is used whatever its Free field
    holds: the parser never reads the fourth part. *)
Example parse_step_ignores_free_field :
  parse_step ([], [], [])
    ("C | Total: 500.00 GB | Used: 499.50 GB | Free: 512.00 MB" +:+ LF)
  = (["C"], [Fin false (125 * 2 ^ 46) (-44)], [Fin false (999 * 2 ^ 43) (-44)]).
Proof. vm_compute. reflexivity. Qed.

(** C3 on the code: the skip policy is decided by the Total and Used fields,
    not by the Used and Free ones. The two fields the [try] block converts
    are [parts[1]] and [parts[2]], the fields after the volume. So a line
    that holds ["Total"], has four fields and whose free size is recorded in
    MB is not skipped: it is used, with its Total and Used numbers; and a
    line whose Used and Free fields are both numbers in GB is skipped when
    its Total field is not a number. Both hold whatever was parsed before. *)
Theorem parse_skip_reads_total_and_used (st : parsed) :
  float_field " Free: 512.00 MB" = None /\
  parse_step st
    ("C | Total: 500.00 GB | Used: 499.50 GB | Free: 512.00 MB" +:+ LF)
  = (st.1.1 ++ ["C"], st.1.2 ++ [Fin false (125 * 2 ^ 46) (-44)],
     st.2 ++ [Fin false (999 * 2 ^ 43) (-44)]) /\
  float_field " Used: 1.50 GB " = Some (Fin false (3 * 2 ^ 51) (-52)) /\
  float_field " Free: 0.50 GB" = Some (Fin false (2 ^ 52) (-53)) /\
  parse_step st ("C | Total: n/a | Used: 1.50 GB | Free: 0.50 GB" +:+ LF) = st.
Proof.
  destruct st as [[disks used_sizes] free_sizes].
  repeat split; vm_compute; reflexivity.
Qed.

(** C7: when the history file does not exist, [plot_usage] returns without
    raising, parses nothing and renders no chart: it leaves the files, the
    pending input and the external effects as they were and writes exactly
    one notice to the console. *)
Theorem plot_usage_missing_file (HAS_MATPLOTLIB : bool) (w : World) :
  fs w !! history_file = None ->
  let w' := plot_usage HAS_MATPLOTLIB w in
  effects w' = effects w /\ fs w' = fs w /\ stdin w' = stdin w /\
  console w' =
    console w
      ++ [(if HAS_MATPLOTLIB then no_data else matplotlib_missing) +:+ LF].
Proof.
  intros Hnone. unfold plot_usage. rewrite Hnone.
  destruct HAS_MATPLOTLIB; cbn; auto.
Qed.

Lemma plot_usage_missing_file_witness :
  effects (plot_usage true empty_world) = [] /\
  console (plot_usage true empty_world) = [no_data +:+ LF].
Proof.
  destruct (plot_usage_missing_file true empty_world) as (He & _ & _ & Hc).
  - reflexivity.
  - split; [exact He | exact Hc].
Defined.

(** * MenuController *)

Module MenuFacts.

Lemma print_all_console lines w :
  console (print_all lines w) = console w ++ map (fun l => l +:+ LF) lines.
Proof.
  revert w. induction lines as [|l lines IH]; intros w; cbn.
  - rewrite app_nil_r. reflexivity.
  - unfold print_all in IH. rewrite IH. cbn. rewrite <- app_assoc. reflexivity.
Qed.

Lemma print_all_rest lines w :
  fs (print_all lines w) = fs w /\ stdin (print_all lines w) = stdin w
  /\ effects (print_all lines w) = effects w.
Proof.
  revert w. induction lines as [|l lines IH]; intros w; cbn; [auto|].
  unfold print_all in IH. destruct (IH (print l w)) as (-> & -> & ->). auto.
Qed.

Lemma render_main_menu_console w :
  console (render_main_menu w) = console w ++ main_menu_text.
Proof.
  unfold main_menu_text, render_main_menu. rewrite !print_all_console.
  cbn. rewrite <- !app_assoc. reflexivity.
Qed.

Lemma render_main_menu_rest w :
  fs (render_main_menu w) = fs w /\ stdin (render_main_menu w) = stdin w
  /\ effects (render_main_menu w) = effects w.
Proof.
  unfold render_main_menu.
  destruct (print_all_rest main_menu (print_separator main_title w))
    as (-> & -> & ->). auto.
Qed.

(** One turn reads the selection after writing the menu. *)
Lemma main_turn_read fuel h w c rest :
  stdin w = c :: rest ->
  main_turn fuel h w
  = main_dispatch fuel h c
      (prompted "Select a menu item: " rest (render_main_menu w)).
Proof.
  intros Hin. unfold main_turn.
  unfold mbind, proc_bind, act, input.
  destruct (render_main_menu_rest w) as (_ & -> & _). rewrite Hin.
  reflexivity.
Qed.

Lemma main_turn_exit fuel h w rest :
  stdin w = "10" :: rest ->
  main_turn fuel h w
  = Some (print "Exiting..."
            (prompted "Select a menu item: " rest (render_main_menu w)),
          Ok Break).
Proof. intros Hin. rewrite (main_turn_read _ _ _ _ _ Hin). reflexivity. Qed.

Lemma main_turn_invalid fuel h w c rest :
  ~ In c main_choices ->
  stdin w = c :: rest ->
  main_turn fuel h w
  = Some (print "Invalid choice. Please try again."
            (prompted "Select a menu item: " rest (render_main_menu w)),
          Ok Continue).
Proof.
  intros Hc Hin. rewrite (main_turn_read _ _ _ _ _ Hin).
  unfold main_dispatch.
  assert (Hne : forall k, In k main_choices -> String.eqb c k = false).
  { intros k Hk. apply String.eqb_neq. intros ->. exact (Hc Hk). }
  rewrite !Hne by (unfold main_choices; cbn; tauto).
  reflexivity.
Qed.

Lemma main_loop_invalid_then_exit k h invalid :
  Forall (fun c => ~ In c main_choices) invalid ->
  forall fuel w rest,
    stdin w = invalid ++ "10" :: rest ->
    (length invalid < fuel)%nat ->
    exists w',
      while_true fuel (main_turn k h) w = Some (w', Ok ()) /\
      console w'
      = console w ++ concat (map (fun _ => invalid_turn_text) invalid)
          ++ exit_turn_text /\
      stdin w' = rest /\ fs w' = fs w /\ effects w' = effects w.
Proof.
  induction 1 as [|c invalid Hc Hinv IH]; intros fuel w rest Hin Hfuel.
  - destruct fuel as [|fuel]; [cbn in Hfuel; lia|].
    cbn [while_true]. rewrite (main_turn_exit k h w rest Hin).
    eexists. split; [reflexivity|].
    destruct (render_main_menu_rest w) as (Hfs & _ & Hef).
    unfold print, prompted. cbn [console stdin fs effects].
    rewrite render_main_menu_console, Hfs, Hef.
    unfold exit_turn_text. rewrite <- !app_assoc. auto.
  - destruct fuel as [|fuel]; [cbn in Hfuel; lia|].
    cbn [while_true].
    rewrite (main_turn_invalid k h w c (invalid ++ "10" :: rest) Hc Hin).
    set (w1 := print _ _).
    destruct (IH fuel w1 rest) as (w' & Hrun & Hcon & Hst & Hfs' & Hef');
      [reflexivity | cbn in Hfuel; lia |].
    exists w'. split; [exact Hrun|].
    destruct (render_main_menu_rest w) as (Hfs & _ & Hef).
    rewrite Hcon, Hst, Hfs', Hef'. subst w1.
    unfold print, prompted. cbn [console stdin fs effects concat map].
    rewrite render_main_menu_console, Hfs, Hef.
    unfold invalid_turn_text. rewrite <- !app_assoc. auto.
Qed.

End MenuFacts.

(** * The claims about the menu *)

Import MenuFacts.

(** C5: from the top of the main loop, a turn on a selection that is not
    one of ["1"] .. ["10"] writes the menu, prints the invalid-choice notice,
    changes nothing else and lets the loop go round; a turn on ["10"] writes
    the menu, prints the exit notice and leaves the loop.  So on any run of
    unrecognised selections followed by ["10"], [main] writes the same menu
    once per selection, each time followed by the invalid-choice notice, then
    the menu and the exit notice, and returns: no menu is written after that
    and the rest of the input is not read. *)
Theorem main_dispatch_invalid_and_exit
    (h : Host) (fuel : nat) (w : World) (invalid rest : list string) :
  Forall (fun c => ~ In c main_choices) invalid ->
  stdin w = invalid ++ "10" :: rest ->
  (length invalid < fuel)%nat ->
  (forall w0 c rest0,
     ~ In c main_choices -> stdin w0 = c :: rest0 ->
     main_turn fuel h w0
     = Some (print "Invalid choice. Please try again."
               (prompted "Select a menu item: " rest0 (render_main_menu w0)),
             Ok Continue)) /\
  (forall w0 rest0,
     stdin w0 = "10" :: rest0 ->
     main_turn fuel h w0
     = Some (print "Exiting..."
               (prompted "Select a menu item: " rest0 (render_main_menu w0)),
             Ok Break)) /\
  exists w',
    main fuel h w = Some (w', Ok ()) /\
    console w'
    = console w ++ concat (map (fun _ => invalid_turn_text) invalid)
        ++ exit_turn_text /\
    stdin w' = rest /\ fs w' = fs w /\ effects w' = effects w.
Proof.
  intros Hinv Hin Hfuel. split; [|split].
  - intros w0 c rest0 Hc Hw0. exact (main_turn_invalid fuel h w0 c rest0 Hc Hw0).
  - intros w0 rest0 Hw0. exact (main_turn_exit fuel h w0 rest0 Hw0).
  - unfold main.
    exact (main_loop_invalid_then_exit fuel h invalid Hinv fuel w rest Hin
             Hfuel).
Qed.

Lemma main_dispatch_invalid_and_exit_witness :
  exists w',
    main 4 (example_host []) (typing ["abc"; "0"; "11"; "10"; "1"])
    = Some (w', Ok ()) /\
    console w'
    = invalid_turn_text ++ invalid_turn_text ++ invalid_turn_text
        ++ exit_turn_text /\
    stdin w' = ["1"].
Proof.
  destruct (main_dispatch_invalid_and_exit (example_host []) 4
              (typing ["abc"; "0"; "11"; "10"; "1"]) ["abc"; "0"; "11"] ["1"])
    as (_ & _ & w' & Hrun & Hcon & Hst & _).
  - repeat constructor; unfold main_choices; cbn;
      intros H; repeat destruct H as [H|H]; try discriminate H; exact H.
  - reflexivity.
  - cbn. lia.
  - exists w'. split; [exact Hrun|]. split; [|exact Hst].
    rewrite Hcon. reflexivity.
Defined.

(** C8: when the metrics provider is absent, memory monitoring, CPU
    monitoring, the process listing and the live charts each print their
    notice and return; when the charting provider is absent so do the usage
    graphs and the live charts.  Selected from the main menu, each of them
    then adds its notice to the console, changes nothing else and lets the
    loop go round. *)
Theorem missing_dependency_degrades
    (h : Host) (fuel : nat) (w : World) (c : string) (rest : list string) :
  stdin w = c :: rest ->
  let asked := prompted "Select a menu item: " rest (render_main_menu w) in
  (psutil h = None ->
   monitor_memory h w = Some (print memory_unavailable w, Ok ()) /\
   monitor_cpu h w = Some (print cpu_unavailable w, Ok ()) /\
   list_processes h w = Some (print processes_unavailable w, Ok ()) /\
   live_monitoring h w = Some (print providers_required w, Ok ()) /\
   (c = "2" ->
    main_turn fuel h w = Some (print memory_unavailable asked, Ok Continue)) /\
   (c = "3" ->
    main_turn fuel h w = Some (print cpu_unavailable asked, Ok Continue)) /\
   (c = "5" ->
    main_turn fuel h w
    = Some (print processes_unavailable asked, Ok Continue)) /\
   (c = "9" ->
    main_turn fuel h w = Some (print providers_required asked, Ok Continue)))
  /\
  (HAS_MATPLOTLIB h = false ->
   plot_usage (HAS_MATPLOTLIB h) w = print matplotlib_missing w /\
   live_monitoring h w = Some (print providers_required w, Ok ()) /\
   (c = "4" ->
    main_turn fuel h w = Some (print matplotlib_missing asked, Ok Continue)) /\
   (c = "9" ->
    main_turn fuel h w = Some (print providers_required asked, Ok Continue))).
Proof.
  intros Hin asked.
  rewrite (main_turn_read fuel h w c rest Hin). fold asked. split.
  - intros Hps.
    unfold monitor_memory, monitor_cpu, list_processes, live_monitoring,
      main_dispatch, monitor_memory, monitor_cpu, list_processes,
      live_monitoring.
    rewrite Hps. repeat split; intros; subst; reflexivity.
  - intros Hmp.
    unfold live_monitoring, main_dispatch, live_monitoring, plot_usage.
    rewrite Hmp. destruct (psutil h); repeat split; intros; subst; reflexivity.
Qed.

Lemma missing_dependency_degrades_witness :
  main_turn 1 (example_host []) (typing ["2"])
  = Some (print memory_unavailable
            (prompted "Select a menu item: " []
               (render_main_menu (typing ["2"]))), Ok Continue) /\
  main_turn 1 (example_host []) (typing ["4"])
  = Some (print matplotlib_missing
            (prompted "Select a menu item: " []
               (render_main_menu (typing ["4"]))), Ok Continue).
Proof.
  split.
  - destruct (missing_dependency_degrades (example_host []) 1 (typing ["2"])
                "2" [] eq_refl) as [H _].
    destruct (H eq_refl) as (_ & _ & _ & _ & H2 & _). exact (H2 eq_refl).
  - destruct (missing_dependency_degrades (example_host []) 1 (typing ["4"])
                "4" [] eq_refl) as [_ H].
    destruct (H eq_refl) as (_ & _ & H4 & _). exact (H4 eq_refl).
Defined.

(** * OptimizationActions *)

Module RunAllFacts.
Import PyStr.

(** The loop over a list of tasks that return and fail softly: every task
    of the list is called, in order, whatever the ones before did. *)
Lemma run_tasks_trace h tasks :
  Forall (fun entry => forall w, exists o,
            run_task h entry.2 w = Some o /\
            forall e, out_result o = Raise e -> is_Exception e = true) tasks ->
  forall w, exists outs w',
    task_run h tasks outs w w' /\
    run_tasks h tasks w = Some (w', Ok ()) /\
    length outs = length tasks /\
    console w' = console w ++ concat (zip_with task_report tasks outs).
Proof.
  induction 1 as [|[name t] tasks Hsoft _ IH]; intros w.
  - exists [], w. cbn. rewrite app_nil_r. auto.
  - cbn [snd] in Hsoft.
    destruct (Hsoft (print (task_header name) w)) as (o & Ho & Hexc).
    destruct (IH (after_task name o w)) as (outs & w' & Hrun & E & Hlen & Hcon).
    exists (o :: outs), w'. split; [split; [exact Ho | exact Hrun]|].
    split; [|split].
    + cbn [run_tasks].
      unfold mbind, proc_bind, act, try_except, run_host, mret, proc_ret.
      rewrite Ho. unfold after_task in E.
      destruct (out_result o) as [[]|e] eqn:Hres.
      * exact E.
      * rewrite (Hexc e eq_refl). exact E.
    + cbn [length]. rewrite Hlen. reflexivity.
    + rewrite Hcon. unfold after_task, task_report, error_lines.
      cbn [zip_with concat fst].
      destruct (out_result o) as [[]|e];
        cbn [emit print after_call console]; rewrite <- ?app_assoc;
        cbn [app]; rewrite <- ?app_assoc; reflexivity.
Qed.

(** The loop depends on the host only through the tasks of its list. *)
Lemma run_tasks_depends_on_listed h h' tasks :
  Forall (fun entry => run_task h entry.2 = run_task h' entry.2) tasks ->
  forall w, run_tasks h tasks w = run_tasks h' tasks w.
Proof.
  induction 1 as [|[name t] tasks Heq _ IH]; intros w; [reflexivity|].
  cbn [run_tasks]. cbn [snd] in Heq.
  unfold mbind, proc_bind, act, try_except, run_host, mret, proc_ret.
  rewrite Heq.
  destruct (run_task h' t _) as [o|]; [|reflexivity].
  destruct (out_result o) as [[]|e]; cbv beta iota.
  - rewrite IH. reflexivity.
  - destruct (is_Exception e); [|reflexivity]. cbv beta iota.
    rewrite IH. reflexivity.
Qed.

Lemma run_all_depends_on_listed h h' w :
  (forall t, t <> manage_startup_programs -> run_task h' t = run_task h t) ->
  run_all_optimizations h' w = run_all_optimizations h w.
Proof.
  intros Hsame. unfold run_all_optimizations.
  unfold mbind, proc_bind, act, mret, proc_ret.
  rewrite (run_tasks_depends_on_listed h' h optimizations); [reflexivity|].
  unfold optimizations. repeat constructor; cbn [snd]; apply Hsame;
    discriminate.
Qed.


End RunAllFacts.

(** * The claims about the optimizations *)

Import RunAllFacts.




(** C10: when each of the seven tasks returns and fails only with an
    [Exception], the composite calls exactly these seven, once each and in
    this order: temp files, update cache, DNS cache, prefetch, disks,
    recycle bin, event logs, each right after its header and on the world
    the turn before left; the world it ends in is the one the seventh turn
    left, followed by the closing notice.  The startup-programs task is
    never called: the composite behaves the same on every host that differs
    only in that task, although the menu offers it as item 8 and dispatches
    ["8"] to it. *)
Theorem run_all_excludes_startup (h : Host) (w : World) :
  (forall t w, t <> manage_startup_programs -> exists o,
     run_task h t w = Some o /\
     forall e, out_result o = Raise e -> is_Exception e = true) ->
  exists o1 o2 o3 o4 o5 o6 o7,
    let w0 := print running_all w in
    let w1 := after_task "Cleaning temporary files" o1 w0 in
    let w2 := after_task "Clearing update cache" o2 w1 in
    let w3 := after_task "Clearing DNS cache" o3 w2 in
    let w4 := after_task "Clearing prefetch" o4 w3 in
    let w5 := after_task "Optimizing disks" o5 w4 in
    let w6 := after_task "Cleaning Recycle Bin" o6 w5 in
    let w7 := after_task "Clearing event logs" o7 w6 in
    run_task h clean_temp_files
      (print (task_header "Cleaning temporary files") w0) = Some o1 /\
    run_task h clear_update_cache
      (print (task_header "Clearing update cache") w1) = Some o2 /\
    run_task h clear_dns_cache
      (print (task_header "Clearing DNS cache") w2) = Some o3 /\
    run_task h clear_prefetch
      (print (task_header "Clearing prefetch") w3) = Some o4 /\
    run_task h optimize_disks
      (print (task_header "Optimizing disks") w4) = Some o5 /\
    run_task h clean_recycle_bin
      (print (task_header "Cleaning Recycle Bin") w5) = Some o6 /\
    run_task h clear_event_logs
      (print (task_header "Clearing event logs") w6) = Some o7 /\
    run_all_optimizations h w = Some (print all_completed w7, Ok ()) /\
    (forall h',
       (forall t, t <> manage_startup_programs -> run_task h' t = run_task h t) ->
       run_all_optimizations h' w = run_all_optimizations h w) /\
    nth 7 optimization_menu ""
    = Colors.OKGREEN +:+ "8." +:+ Colors.ENDC
        +:+ " Disable Unnecessary Startup Programs" /\
    optimization_dispatch h "8"
    = (run_host (run_task h manage_startup_programs);; mret Continue).
Proof.
  intros Hsoft.
  destruct (run_tasks_trace h optimizations
              ltac:(unfold optimizations; repeat constructor; cbn [snd];
                    intros w0; apply Hsoft; discriminate)
              (print running_all w))
    as (outs & w7 & Hrun & E & Hlen & _).
  unfold optimizations in Hrun.
  destruct outs as [|o1 [|o2 [|o3 [|o4 [|o5 [|o6 [|o7 [|o8 outs]]]]]]]];
    try discriminate Hlen.
  cbn [task_run] in Hrun.
  destruct Hrun as (H1 & H2 & H3 & H4 & H5 & H6 & H7 & ->).
  exists o1, o2, o3, o4, o5, o6, o7. cbv zeta.
  repeat (split; [assumption|]).
  split.
  { unfold run_all_optimizations. unfold mbind, proc_bind, act at 1.
    rewrite E. reflexivity. }
  split; [intros h' Hsame; apply run_all_depends_on_listed, Hsame|].
  split; reflexivity.
Qed.

Lemma run_all_excludes_startup_witness :
  run_all_optimizations (example_host []) empty_world
  = run_all_optimizations (example_host [manage_startup_programs]) empty_world.
Proof.
  destruct (run_all_excludes_startup
              (example_host [manage_startup_programs]) empty_world)
    as (o1 & o2 & o3 & o4 & o5 & o6 & o7 & H).
  - intros t w Ht. cbn [run_task example_host].
    destruct t; try (destruct (Ht eq_refl)); eexists;
      (split; [reflexivity|]); cbn; intros e [=].
  - cbv zeta in H. destruct H as (_ & _ & _ & _ & _ & _ & _ & _ & Hsame & _).
    apply Hsame. intros t Ht. cbn [run_task example_host].
    destruct t; try reflexivity. destruct (Ht eq_refl).
Defined.

(** * Further properties of the history log *)

Module LogFacts.

(** What [write_items] leaves in the file is what was there followed by the
    lines it wrote, whether or not it ended well. *)
Lemma write_items_appends filename data :
  forall w head, exists added,
    (write_items filename data (file_write filename head w)).1
    = file_write filename (head +:+ added) w.
Proof.
  induction data as [|[drive u] data IH]; intros w head.
  - exists "". cbn. rewrite string_app_empty_r. reflexivity.
  - cbn [write_items]. destruct (history_line drive u) as [line|e].
    + rewrite file_write_twice. destruct (IH w (head +:+ line)) as (added & ->).
      exists (line +:+ added). rewrite string_app_assoc. reflexivity.
    + exists "". cbn. rewrite string_app_empty_r. reflexivity.
Qed.

Lemma write_items_result filename data w :
  (write_items filename data w).2 = Ok () \/
  exists e, (write_items filename data w).2 = Raise e.
Proof.
  revert w. induction data as [|[drive u] data IH]; intros w; cbn; [auto|].
  destruct (history_line drive u); [apply IH | eauto].
Qed.

(** The three lists of the parser grow together. *)
Lemma parse_step_lengths st line :
  length st.1.1 = length st.1.2 -> length st.1.2 = length st.2 ->
  let st' := parse_step st line in
  length st'.1.1 = length st'.1.2 /\ length st'.1.2 = length st'.2 /\
  (length st.2 <= length st'.2 <= S (length st.2))%nat /\
  (contains "Total" line = false -> st' = st).
Proof.
  destruct st as [[disks used_sizes] free_sizes]. cbn [fst snd].
  intros H1 H2. unfold parse_step.
  destruct (contains "Total" line); [|cbn; auto with lia].
  destruct (3 <=? _)%nat; [|cbn; split; [auto|split; [auto|split; [lia|discriminate]]]].
  destruct (_ ≫= _) as [[used_value free_value]|]; cbn [fst snd];
    rewrite ?length_app; cbn [length];
    (split; [lia|split; [lia|split; [lia|discriminate]]]).
Qed.

Lemma fold_parse_lengths lines st :
  length st.1.1 = length st.1.2 -> length st.1.2 = length st.2 ->
  let st' := fold_left parse_step lines st in
  length st'.1.1 = length st'.1.2 /\ length st'.1.2 = length st'.2 /\
  (length st'.2
   <= length st.2 + length (filter (fun l => contains "Total" l = true) lines))%nat.
Proof.
  revert st. induction lines as [|line lines IH]; intros st H1 H2.
  - cbn. auto with lia.
  - cbn [fold_left].
    destruct (parse_step_lengths st line H1 H2) as (H1' & H2' & Hle & Hskip).
    destruct (IH (parse_step st line) H1' H2') as (G1 & G2 & G3).
    split; [exact G1|]. split; [exact G2|].
    rewrite filter_cons.
    destruct (decide (contains "Total" line = true)) as [Hc|Hc].
    + cbn [length]. lia.
    + apply not_true_is_false in Hc. rewrite (Hskip Hc) in *. lia.
Qed.

Lemma lines_from_ext b cur cur' s :
  (forall t, cur t = cur' t) -> lines_from b cur s = lines_from b cur' s.
Proof.
  revert b cur cur'. induction s as [|c s IH]; intros b cur cur' H.
  - cbn. rewrite H. reflexivity.
  - cbn [lines_from]. rewrite H.
    destruct (Ascii.eqb c "010"); [destruct b; [apply IH, H | reflexivity]|].
    destruct (Ascii.eqb c "013"); [reflexivity|].
    apply IH. intros t. apply H.
Qed.

(** The lines of a text that follows a complete line. *)
Lemma lines_from_app s rest :
  forall b cur,
    (b = true -> forall t, cur t = t) ->
    lines_from b cur (s +:+ LF +:+ rest)
    = lines_from b cur (s +:+ LF) ++ lines rest.
Proof.
  induction s as [|c s IH]; intros b cur Hb.
  - change ("" +:+ LF +:+ rest) with (String "010" rest).
    change ("" +:+ LF) with (String "010" "").
    cbn [lines_from]. change (Ascii.eqb "010" "010") with true. cbv iota.
    destruct b.
    + cbn [lines_from]. rewrite (Hb eq_refl ""). cbn [app].
      apply lines_from_ext, Hb. reflexivity.
    + reflexivity.
  - change (String c s +:+ LF +:+ rest) with (String c (s +:+ LF +:+ rest)).
    change (String c s +:+ LF) with (String c (s +:+ LF)).
    cbn [lines_from]. destruct (Ascii.eqb c "010").
    + destruct b.
      * apply IH. discriminate.
      * rewrite (IH false (fun t => t)) by discriminate. reflexivity.
    + destruct (Ascii.eqb c "013").
      * rewrite (IH true (fun t => t)) by reflexivity. reflexivity.
      * apply IH. discriminate.
Qed.

Lemma lines_app s rest :
  lines (s +:+ LF +:+ rest) = lines (s +:+ LF) ++ lines rest.
Proof. apply lines_from_app. discriminate. Qed.

(** Records of a longer run of lines: those so far, then the new ones. *)
Lemma records_fold lines st :
  length st.1.1 = length st.1.2 -> length st.1.2 = length st.2 ->
  records (fold_left parse_step lines st)
  = records st ++ records (fold_left parse_step lines ([], [], [])).
Proof.
  revert st. induction lines as [|line lines IH]; intros st H1 H2.
  - cbn. rewrite app_nil_r. reflexivity.
  - cbn [fold_left].
    destruct (parse_step_lengths st line H1 H2) as (H1' & H2' & _ & _).
    destruct (parse_step_lengths ([], [], []) line eq_refl eq_refl)
      as (E1 & E2 & _ & _).
    rewrite (IH (parse_step st line) H1' H2').
    rewrite (IH (parse_step ([], [], []) line) E1 E2).
    rewrite app_assoc. f_equal.
    clear IH H1' H2' E1 E2.
    destruct st as [[disks used_sizes] free_sizes]. cbn [fst snd] in H1, H2.
    unfold parse_step.
    destruct (contains "Total" line); [|cbn; rewrite app_nil_r; reflexivity].
    destruct (3 <=? _)%nat; [|cbn; rewrite app_nil_r; reflexivity].
    destruct (_ ≫= _) as [[used_value free_value]|];
      [|cbn; rewrite app_nil_r; reflexivity].
    cbn [records app].
    rewrite !zip_with_app by (rewrite ?length_zip_with; lia).
    reflexivity.
Qed.


End LogFacts.

(** * Reading back what was rendered *)

Module ReadBackFacts.

Lemma take_digits_stop acc cnt rest :
  head_not_digit rest = true -> take_digits acc cnt rest = (acc, cnt, rest).
Proof.
  destruct rest as [|c rest]; [reflexivity|]. cbn.
  destruct (is_digit c); [discriminate | reflexivity].
Qed.

Lemma take_digits_acc d :
  forall acc cnt rest,
    head_not_digit rest = true ->
    take_digits (Z.pos acc) cnt (NilEmpty.string_of_uint d +:+ rest)
    = (Z.pos (Pos.of_uint_acc d acc), cnt + Z.of_nat (Decimal.nb_digits d),
       rest).
Proof.
  induction d; intros acc cnt rest Hrest;
    cbn [NilEmpty.string_of_uint Decimal.nb_digits Pos.of_uint_acc];
    [change ("" +:+ rest) with rest; rewrite take_digits_stop by assumption;
     f_equal; f_equal; lia
    |change (String ?c ?s +:+ rest) with (String c (s +:+ rest));
     cbn [take_digits];
     match goal with |- context [is_digit ?c] =>
       change (is_digit c) with true end;
     cbv iota;
     match goal with |- context [Pos.of_uint_acc d ?q] =>
       replace (10 * Z.pos acc + digit_val _) with (Z.pos q)
         by (unfold digit_val; cbn; lia) end ..].
  all: try (rewrite IHd by assumption; f_equal; f_equal; lia).
Qed.

Lemma take_digits_zero d :
  forall cnt rest,
    head_not_digit rest = true ->
    take_digits 0 cnt (NilEmpty.string_of_uint d +:+ rest)
    = (Z.of_N (Pos.of_uint d), cnt + Z.of_nat (Decimal.nb_digits d), rest).
Proof.
  induction d; intros cnt rest Hrest;
    cbn [NilEmpty.string_of_uint Decimal.nb_digits Pos.of_uint];
    [change ("" +:+ rest) with rest; rewrite take_digits_stop by assumption;
     f_equal; f_equal; lia
    |change (String ?c ?s +:+ rest) with (String c (s +:+ rest));
     cbn [take_digits];
     match goal with |- context [is_digit ?c] =>
       change (is_digit c) with true end;
     cbv iota ..].
  - change (10 * 0 + digit_val "0") with 0.
    rewrite IHd by assumption. f_equal; f_equal; lia.
  - change (10 * 0 + digit_val "1") with (Z.pos 1).
    rewrite take_digits_acc by assumption. f_equal; f_equal; lia.
  - change (10 * 0 + digit_val "2") with (Z.pos 2).
    rewrite take_digits_acc by assumption. f_equal; f_equal; lia.
  - change (10 * 0 + digit_val "3") with (Z.pos 3).
    rewrite take_digits_acc by assumption. f_equal; f_equal; lia.
  - change (10 * 0 + digit_val "4") with (Z.pos 4).
    rewrite take_digits_acc by assumption. f_equal; f_equal; lia.
  - change (10 * 0 + digit_val "5") with (Z.pos 5).
    rewrite take_digits_acc by assumption. f_equal; f_equal; lia.
  - change (10 * 0 + digit_val "6") with (Z.pos 6).
    rewrite take_digits_acc by assumption. f_equal; f_equal; lia.
  - change (10 * 0 + digit_val "7") with (Z.pos 7).
    rewrite take_digits_acc by assumption. f_equal; f_equal; lia.
  - change (10 * 0 + digit_val "8") with (Z.pos 8).
    rewrite take_digits_acc by assumption. f_equal; f_equal; lia.
  - change (10 * 0 + digit_val "9") with (Z.pos 9).
    rewrite take_digits_acc by assumption. f_equal; f_equal; lia.
Qed.

(** Reading the decimal rendering of a number gives the number back. *)
Lemma take_digits_of_N n rest :
  head_not_digit rest = true ->
  exists k, 0 < k /\ take_digits 0 0 (of_N n +:+ rest) = (Z.of_N n, k, rest).
Proof.
  intros Hrest. unfold of_N, NilZero.string_of_uint.
  pose proof (DecimalN.Unsigned.of_to n) as Hn. unfold N.of_uint in Hn.
  destruct (N.to_uint n) as [|d|d|d|d|d|d|d|d|d|d] eqn:E.
  - cbn in Hn. subst n. exists 1. split; [lia|].
    change ("0" +:+ rest) with (String "0" rest). cbn [take_digits].
    change (is_digit "0") with true. cbv iota.
    rewrite take_digits_stop by assumption. reflexivity.
  - rewrite <- Hn. eexists. rewrite take_digits_zero by assumption.
    split; [|reflexivity]. cbn [Decimal.nb_digits]. lia.
  - rewrite <- Hn. eexists. rewrite take_digits_zero by assumption.
    split; [|reflexivity]. cbn [Decimal.nb_digits]. lia.
  - rewrite <- Hn. eexists. rewrite take_digits_zero by assumption.
    split; [|reflexivity]. cbn [Decimal.nb_digits]. lia.
  - rewrite <- Hn. eexists. rewrite take_digits_zero by assumption.
    split; [|reflexivity]. cbn [Decimal.nb_digits]. lia.
  - rewrite <- Hn. eexists. rewrite take_digits_zero by assumption.
    split; [|reflexivity]. cbn [Decimal.nb_digits]. lia.
  - rewrite <- Hn. eexists. rewrite take_digits_zero by assumption.
    split; [|reflexivity]. cbn [Decimal.nb_digits]. lia.
  - rewrite <- Hn. eexists. rewrite take_digits_zero by assumption.
    split; [|reflexivity]. cbn [Decimal.nb_digits]. lia.
  - rewrite <- Hn. eexists. rewrite take_digits_zero by assumption.
    split; [|reflexivity]. cbn [Decimal.nb_digits]. lia.
  - rewrite <- Hn. eexists. rewrite take_digits_zero by assumption.
    split; [|reflexivity]. cbn [Decimal.nb_digits]. lia.
  - rewrite <- Hn. eexists. rewrite take_digits_zero by assumption.
    split; [|reflexivity]. cbn [Decimal.nb_digits]. lia.
Qed.

(** What is known of a digit or a point as a character. *)
Lemma numeric_char c :
  is_digit c || Ascii.eqb c "." = true ->
  isspace c = false /\ Ascii.eqb c "_" = false /\ Ascii.eqb c "|" = false
  /\ Ascii.eqb c ":" = false /\ Ascii.eqb c " " = false
  /\ Ascii.eqb c "010" = false.
Proof.
  destruct c as [[] [] [] [] [] [] [] []]; vm_compute; intros H;
    try discriminate H; repeat split; reflexivity.
Qed.

Lemma digit_char c :
  is_digit c = true ->
  isspace c = false /\ Ascii.eqb c "-" = false /\ Ascii.eqb c "+" = false /\
  Ascii.eqb (lower c) "i" = false /\ Ascii.eqb (lower c) "n" = false /\
  digit_val c = Z.of_N (N_of_ascii c) - 48 /\ 0 <= digit_val c <= 9.
Proof.
  destruct c as [[] [] [] [] [] [] [] []]; vm_compute; intros H;
    try discriminate H; repeat split; try reflexivity; discriminate.
Qed.

Lemma rstrip_cons c r :
  isspace c = false -> rstrip (String c r) = String c (rstrip r).
Proof. intros H. cbn. rewrite H. destruct (rstrip r); reflexivity. Qed.

Lemma rstrip_numeric_app s t :
  numeric s = true -> rstrip (s +:+ t) = s +:+ rstrip t.
Proof.
  unfold numeric. induction s as [|c s IH]; [reflexivity|]. cbn. intros H.
  apply andb_true_iff in H as [Hc Hs].
  change (String c s +:+ ?x) with (String c (s +:+ x)).
  rewrite rstrip_cons by (apply numeric_char, Hc). rewrite (IH Hs).
  reflexivity.
Qed.

Lemma free_underscore_drop s :
  free_of "_" s = true ->
  forall prev,
    match prev with Some p => Ascii.eqb p "_" | None => false end = false ->
    drop_underscores prev s = Some s.
Proof.
  unfold free_of. induction s as [|c s IH]; intros H prev Hprev.
  - cbn. rewrite Hprev. reflexivity.
  - cbn in H. apply andb_true_iff in H as [Hc Hs].
    apply negb_true_iff in Hc.
    cbn [drop_underscores]. rewrite Hc, Hprev. cbn [andb].
    rewrite (IH Hs (Some c) Hc). reflexivity.
Qed.

Lemma numeric_app s1 s2 :
  numeric (s1 +:+ s2) = numeric s1 && numeric s2.
Proof.
  unfold numeric. induction s1 as [|c s1 IH]; [reflexivity|].
  change (String c s1 +:+ s2) with (String c (s1 +:+ s2)). cbn.
  rewrite IH, andb_assoc. reflexivity.
Qed.

Lemma all_digits_numeric s : all_digits s = true -> numeric s = true.
Proof.
  unfold all_digits, numeric. induction s as [|c s IH]; [reflexivity|]. cbn.
  intros H. apply andb_true_iff in H as [-> Hs]. cbn. exact (IH Hs).
Qed.

(** A digit or a point is none of the characters the log is cut at. *)
Lemma numeric_free c s :
  is_digit c = false -> Ascii.eqb c "." = false ->
  numeric s = true -> free_of c s = true.
Proof.
  intros Hd Hp. unfold numeric, free_of.
  induction s as [|x s IH]; [reflexivity|]. cbn. intros H.
  apply andb_true_iff in H as [Hx Hs]. rewrite (IH Hs), andb_true_r.
  apply negb_true_iff. destruct (Ascii.eqb_spec x c) as [->|]; [|reflexivity].
  rewrite Hd, Hp in Hx. discriminate.
Qed.

Lemma digit_val_digit d :
  exists x, digit d = String x "" /\ is_digit x = true
            /\ digit_val x = d mod 10.
Proof.
  unfold digit. eexists. split; [reflexivity|].
  assert (H : 0 <= d mod 10 < 10) by (apply Z.mod_pos_bound; lia).
  unfold is_digit, digit_val. rewrite N_ascii_embedding by lia.
  split; [|lia]. apply andb_true_iff. split; apply N.leb_le; lia.
Qed.

(** The text of a rendering: the integer part, a point and two digits that
    spell the hundredths. *)
Lemma render_centi_form c :
  exists n x y,
    render_centi false c = of_N n +:+ String "." (String x (String y "")) /\
    is_digit x = true /\ is_digit y = true /\
    (0 <= c -> 10 * (10 * Z.of_N n + digit_val x) + digit_val y = c).
Proof.
  destruct (digit_val_digit (c / 10)) as (x & Ex & Hx & Vx).
  destruct (digit_val_digit c) as (y & Ey & Hy & Vy).
  exists (Z.to_N (c / 100)), x, y. unfold render_centi. rewrite Ex, Ey.
  split; [reflexivity|]. split; [exact Hx|]. split; [exact Hy|].
  intros Hc. rewrite Vx, Vy, Z2N.id by (apply Z.div_pos; lia).
  pose proof (Z.div_mod c 10 ltac:(lia)).
  pose proof (Z.div_mod (c / 10) 10 ltac:(lia)).
  rewrite Z.div_div in * by lia. change (10 * 10) with 100 in *. lia.
Qed.

Lemma numeric_render c : numeric (render_centi false c) = true.
Proof.
  destruct (render_centi_form c) as (n & x & y & -> & Hx & Hy & _).
  rewrite numeric_app, (all_digits_numeric _ (of_N_digits n)).
  unfold numeric. cbn. rewrite Hx, Hy. reflexivity.
Qed.

Lemma render_head c :
  exists c0 r0, render_centi false c = String c0 r0 /\ is_digit c0 = true.
Proof.
  destruct (render_centi_form c) as (n & x & y & -> & _).
  pose proof (of_N_digits n) as Hd. pose proof (of_N_nonempty n) as Hne.
  destruct (of_N n) as [|c0 r0]; [congruence|].
  unfold all_digits in Hd. cbn in Hd. apply andb_true_iff in Hd as [Hc0 _].
  eexists _, _. split; [reflexivity | exact Hc0].
Qed.

(** The decimal literal read from a rendering and what follows it. *)
Lemma parse_decimal_render c tail :
  0 <= c ->
  parse_decimal (render_centi false c +:+ tail)
  = match tail with
    | "" => Some (c, -2)
    | String " " _ => None
    | _ => parse_decimal (render_centi false c +:+ tail)
    end.
Proof.
  intros Hc.
  destruct tail as [|t tail]; [|destruct (Ascii.eqb_spec t " ") as [->|];
    [|destruct t as [[] [] [] [] [] [] [] []]; try reflexivity; congruence]].
  - rewrite HistoryFacts.string_app_empty_r.
    destruct (render_centi_form c) as (n & x & y & -> & Hx & Hy & Hv).
    destruct (take_digits_of_N n (String "." (String x (String y ""))) eq_refl)
      as (k & Hk & Htake).
    unfold parse_decimal. rewrite Htake. rewrite Ascii.eqb_refl.
    cbn [take_digits]. rewrite Hx, Hy.
    destruct (k + (0 + 1 + 1) =? 0) eqn:E0; [apply Z.eqb_eq in E0; lia|].
    rewrite (Hv Hc). reflexivity.
  - destruct (render_centi_form c) as (n & x & y & -> & Hx & Hy & Hv).
    rewrite FloatFacts.string_app_assoc.
    change (String "." (String x (String y "")) +:+ String " " tail)
      with (String "." (String x (String y (String " " tail)))).
    destruct (take_digits_of_N n
                (String "." (String x (String y (String " " tail)))) eq_refl)
      as (k & Hk & Htake).
    unfold parse_decimal. rewrite Htake. rewrite Ascii.eqb_refl.
    cbn [take_digits]. rewrite Hx, Hy.
    change (is_digit " ") with false. cbv iota.
    destruct (k + (0 + 1 + 1) =? 0) eqn:E0; [apply Z.eqb_eq in E0; lia|].
    reflexivity.
Qed.

(** [float] on a text that starts with a digit, has no underscore and no
    space at its end: the decimal literal decides. *)
Lemma py_float_plain c0 r0 :
  is_digit c0 = true -> rstrip (String c0 r0) = String c0 r0 ->
  free_of "_" (String c0 r0) = true ->
  py_float (String c0 r0)
  = match parse_decimal (String c0 r0) with
    | Some (mant, ex) =>
        Some (if 0 <=? ex then nearest_double false (mant * 10 ^ ex) 1
              else nearest_double false mant (10 ^ (- ex)))
    | None => None
    end.
Proof.
  intros Hc0 Hr Hu.
  destruct (digit_char c0 Hc0) as (Hsp & Hm & Hp & Hi & Hn & _).
  unfold py_float, strip. cbn [lstrip]. rewrite Hsp, Hr.
  rewrite (free_underscore_drop _ Hu None eq_refl).
  cbn [take_sign]. rewrite Hm, Hp.
  cbn [lower_str String.eqb]. rewrite Hi, Hn. reflexivity.
Qed.

(** [float] reads a rendering with two decimals back as the float nearest
    to the hundredths it shows. *)
Lemma py_float_render_centi c :
  0 <= c ->
  py_float (render_centi false c) = Some (nearest_double false c 100).
Proof.
  intros Hc. pose proof (parse_decimal_render c "" Hc) as Hp.
  rewrite HistoryFacts.string_app_empty_r in Hp.
  pose proof (numeric_render c) as Hnum.
  pose proof (rstrip_numeric_app (render_centi false c) "" Hnum) as Hr.
  change (rstrip "") with "" in Hr.
  rewrite !HistoryFacts.string_app_empty_r in Hr.
  pose proof (numeric_free "_" _ eq_refl eq_refl Hnum) as Hu.
  destruct (render_head c) as (c0 & r0 & E & Hc0). rewrite E in *.
  rewrite (py_float_plain c0 r0 Hc0 Hr Hu), Hp. reflexivity.
Qed.

(** [float] rejects a rendering that is still followed by a unit. *)
Lemma py_float_render_unit c tail :
  0 <= c -> In tail [" MB"; " KB"; " Bytes"] ->
  py_float (render_centi false c +:+ tail) = None.
Proof.
  intros Hc Hin.
  assert (Ht : exists r, tail = String " " r /\ rstrip tail = tail
                         /\ free_of "_" tail = true).
  { cbn in Hin. destruct Hin as [<-|[<-|[<-|[]]]]; eexists;
      (split; [reflexivity|split; reflexivity]). }
  destruct Ht as (r & Et & Hrt & Hut).
  pose proof (parse_decimal_render c tail Hc) as Hp. rewrite Et in Hp at 2.
  pose proof (numeric_render c) as Hnum.
  pose proof (rstrip_numeric_app (render_centi false c) tail Hnum) as Hr.
  rewrite Hrt in Hr.
  assert (Hu : free_of "_" (render_centi false c +:+ tail) = true).
  { rewrite ParseFacts.free_of_app, Hut,
      (numeric_free "_" _ eq_refl eq_refl Hnum). reflexivity. }
  destruct (render_head c) as (c0 & r0 & E & Hc0). rewrite E in *.
  change (String c0 r0 +:+ tail) with (String c0 (r0 +:+ tail)) in *.
  rewrite (py_float_plain c0 _ Hc0 Hr Hu), Hp. reflexivity.
Qed.

End ReadBackFacts.

(** * More on rounding and on the sizes shown *)

Module SizeFacts.
Import PyStr FloatFacts FormatSizeFacts.

(** The integer within less than half a unit of [n / d] is the rounding. *)
Lemma rhe_unique n d q :
  0 < d -> 2 * Z.abs (q * d - n) < d -> round_half_even n d = q.
Proof.
  intros Hd Hq. pose proof (rhe_error n d Hd) as Hr.
  set (r := round_half_even n d) in *. clearbody r.
  assert (Z.abs (r - q) * d < 2 * d) by nia.
  assert (Z.abs (r - q) < 2) by nia.
  assert (r = q \/ r = q + 1 \/ r = q - 1) by lia.
  nia.
Qed.

Lemma rhe_monotone n1 n2 d :
  0 < d -> n1 <= n2 -> round_half_even n1 d <= round_half_even n2 d.
Proof.
  intros Hd Hn. destruct (Z.eq_dec n1 n2) as [->|Hne]; [lia|].
  pose proof (rhe_error n1 d Hd) as H1. pose proof (rhe_error n2 d Hd) as H2.
  set (r1 := round_half_even n1 d) in *.
  set (r2 := round_half_even n2 d) in *. clearbody r1 r2.
  destruct (Z_le_gt_dec r1 r2) as [|Hgt]; [assumption|]. exfalso.
  assert ((r2 + 1) * d <= r1 * d) by nia. nia.
Qed.

(** The four branches of [format_size], with the hundredths shown. *)
Lemma format_size_shown b :
  0 <= b < 2 ^ 1053 ->
  exists unit k c,
    format_size b = Ok (render_centi false c +:+ " " +:+ unit) /\ 0 <= c /\
    (b < 2 ^ 53 -> c = round_half_even (100 * b) (2 ^ k)) /\
    (unit = "GB" /\ k = 30 /\ 2 ^ 30 <= b
     \/ unit = "MB" /\ k = 20 /\ 2 ^ 20 <= b < 2 ^ 30
     \/ unit = "KB" /\ k = 10 /\ 2 ^ 10 <= b < 2 ^ 20
     \/ unit = "Bytes" /\ k = 0 /\ b < 2 ^ 10).
Proof.
  intros [Hb Hhi].
  assert (HL : 0 < b -> Z.log2 b < 1053) by (intros; apply Z.log2_lt_pow2; lia).
  destruct (Z_lt_dec b 1024) as [H1|H1].
  - exists "Bytes", 0, (100 * b). split; [|split; [lia|split]].
    + rewrite format_size_bytes by assumption. unfold format_num_2f.
      destruct (int_to_float_exact b) as (m & e & -> & Hm & Hc); [lia|].
      destruct (b <? 0) eqn:E; [apply Z.ltb_lt in E; lia|].
      cbn [mbind result_bind]. unfold format_2f.
      rewrite Hc, Z.abs_eq by lia. reflexivity.
    + intros _. symmetry. apply rhe_one.
    + do 3 right. repeat split; lia.
  - unfold format_size. rewrite !Z.geb_leb.
    destruct (1024 ^ 3 <=? b) eqn:E3; [|destruct (1024 ^ 2 <=? b) eqn:E2;
      [|destruct (1024 <=? b) eqn:E1]];
      rewrite ?Z.leb_le, ?Z.leb_gt in *.
    + destruct (format_size_scaled b 30 "GB") as (c & Hc0 & Heq & Hc);
        [lia | lia | specialize (HL ltac:(lia)); lia |].
      exists "GB", 30, c. split; [exact Heq|]. split; [exact Hc0|].
      split; [exact Hc|]. left. repeat split; lia.
    + destruct (format_size_scaled b 20 "MB") as (c & Hc0 & Heq & Hc);
        [lia | lia | |].
      { assert (Z.log2 b < 30) by (apply Z.log2_lt_pow2; lia). lia. }
      exists "MB", 20, c. split; [exact Heq|]. split; [exact Hc0|].
      split; [exact Hc|]. right. left. repeat split; lia.
    + destruct (format_size_scaled b 10 "KB") as (c & Hc0 & Heq & Hc);
        [lia | lia | |].
      { assert (Z.log2 b < 30) by (apply Z.log2_lt_pow2; lia). lia. }
      exists "KB", 10, c. split; [exact Heq|]. split; [exact Hc0|].
      split; [exact Hc|]. right. right. left. repeat split; lia.
    + lia.
Qed.

(** From one gibibyte on the unit is GB. *)
Lemma format_size_GB b :
  2 ^ 30 <= b < 2 ^ 1053 ->
  exists c, 0 <= c /\ format_size b = Ok (render_centi false c +:+ " GB") /\
            (b < 2 ^ 53 -> c = round_half_even (100 * b) (2 ^ 30)).
Proof.
  intros Hb. destruct (format_size_shown b) as (unit & k & c & E & Hc & Hr & Hu);
    [lia|].
  destruct Hu as [(-> & -> & _)|[(_ & _ & ?)|[(_ & _ & ?)|(_ & _ & ?)]]];
    try lia.
  exists c. split; [exact Hc|]. split; [exact E | exact Hr].
Qed.

(** Below one gibibyte the unit is another one. *)
Lemma format_size_small b :
  0 <= b < 2 ^ 30 ->
  exists c tail, 0 <= c /\ In tail [" MB"; " KB"; " Bytes"] /\
                 format_size b = Ok (render_centi false c +:+ tail).
Proof.
  intros Hb. destruct (format_size_shown b) as (unit & k & c & E & Hc & Hr & Hu);
    [lia|].
  destruct Hu as [(_ & _ & ?)|[(-> & _ & _)|[(-> & _ & _)|(-> & _ & _)]]];
    [lia| | |]; eexists c, _; (split; [exact Hc|]); (split; [|exact E]);
    cbn; auto.
Qed.

End SizeFacts.

(** * A missing newline at the end of the file *)

Module NewlineFacts.
Import PyStr HistoryFacts.

Lemma rstrip_LF q : rstrip (q +:+ LF) = rstrip q.
Proof.
  induction q as [|c q IH]; [reflexivity|].
  change (String c q +:+ LF) with (String c (q +:+ LF)).
  cbn [rstrip]. rewrite IH. reflexivity.
Qed.

Lemma lstrip_LF p :
  lstrip (p +:+ LF) = lstrip p +:+ LF \/
  lstrip (p +:+ LF) = "" /\ lstrip p = "".
Proof.
  induction p as [|c p IH]; [right; split; reflexivity|].
  change (String c p +:+ LF) with (String c (p +:+ LF)).
  cbn [lstrip]. destruct (isspace c); [exact IH | left; reflexivity].
Qed.

Lemma strip_LF p : strip (p +:+ LF) = strip p.
Proof.
  unfold strip. destruct (lstrip_LF p) as [->|[-> ->]]; [|reflexivity].
  apply rstrip_LF.
Qed.

Lemma prefix_Total_LF q :
  String.prefix "Total" (q +:+ LF) = String.prefix "Total" q.
Proof.
  destruct q as [|a [|b [|c [|d [|e q]]]]];
    cbv [String.append LF]; cbn [String.prefix];
    repeat match goal with
           | |- context [ascii_dec ?x ?y] => destruct (ascii_dec x y)
           end;
    try reflexivity; try discriminate.
  destruct q; reflexivity.
Qed.

Lemma contains_Total_LF p :
  contains "Total" (p +:+ LF) = contains "Total" p.
Proof.
  induction p as [|c p IH]; [reflexivity|].
  change (String c p +:+ LF) with (String c (p +:+ LF)).
  cbn [contains].
  change (String c (p +:+ LF)) with (String c p +:+ LF).
  rewrite prefix_Total_LF, IH. reflexivity.
Qed.

(** The parser does not see whether a line ends with a newline. *)
Lemma parse_step_LF st p : parse_step st (p +:+ LF) = parse_step st p.
Proof.
  unfold parse_step. rewrite contains_Total_LF, strip_LF. reflexivity.
Qed.

Lemma fold_lines_LF s :
  forall b cur p st,
    (forall t, cur t = p +:+ t) ->
    fold_left parse_step (lines_from b cur (s +:+ LF)) st
    = fold_left parse_step (lines_from b cur s) st.
Proof.
  induction s as [|c s IH]; intros b cur p st Hcur.
  - change ("" +:+ LF) with (String "010" ""). cbn [lines_from].
    change (Ascii.eqb "010" "010") with true. cbv iota.
    destruct b; [reflexivity|].
    rewrite !Hcur, string_app_empty_r. cbn [fold_left].
    change (String "010" "") with LF. rewrite parse_step_LF.
    destruct p; [|reflexivity].
    cbn [fold_left]. destruct st as [[? ?] ?]. reflexivity.
  - change (String c s +:+ LF) with (String c (s +:+ LF)).
    cbn [lines_from]. destruct (Ascii.eqb c "010").
    + destruct b.
      * apply (IH false cur p), Hcur.
      * cbn [fold_left]. apply (IH false (fun t => t) ""). reflexivity.
    + destruct (Ascii.eqb c "013").
      * cbn [fold_left]. apply (IH true (fun t => t) ""). reflexivity.
      * apply (IH false _ (p +:+ String c "")). intros t.
        rewrite Hcur, FloatFacts.string_app_assoc. reflexivity.
Qed.

Lemma parse_history_LF text : parse_history (text +:+ LF) = parse_history text.
Proof.
  unfold parse_history, lines. apply (fold_lines_LF text false _ "").
  reflexivity.
Qed.

End NewlineFacts.

(** * Reading back what [save_history] wrote *)

Module SnapshotFacts.
Import PyStr FloatFacts HistoryFacts ParseFacts ReadBackFacts SizeFacts.

Lemma replace_numeric_app s t :
  numeric s = true ->
  replace " GB" "" (s +:+ t) = s +:+ replace " GB" "" t.
Proof.
  unfold replace, numeric. induction s as [|c s IH]; [reflexivity|]. cbn.
  intros H. apply andb_true_iff in H as [Hc Hs].
  change (String c s +:+ ?x) with (String c (s +:+ x)).
  cbn [replace_from String.prefix].
  destruct (ascii_dec " " c) as [<-|_]; [discriminate Hc|].
  rewrite (IH Hs). reflexivity.
Qed.

Lemma lstrip_render c t :
  lstrip (render_centi false c +:+ t) = render_centi false c +:+ t.
Proof.
  destruct (render_head c) as (c0 & r0 & -> & Hc0).
  destruct (digit_char c0 Hc0) as (Hsp & _).
  change (String c0 r0 +:+ t) with (String c0 (r0 +:+ t)).
  cbn [lstrip]. rewrite Hsp. reflexivity.
Qed.

(** The text [float] is given for a field of a written line. *)
Lemma field_text c tail :
  In tail [" GB"; " MB"; " KB"; " Bytes"] ->
  replace " GB" "" (strip (" " +:+ (render_centi false c +:+ tail) +:+ " "))
  = render_centi false c +:+ (if String.eqb tail " GB" then "" else tail).
Proof.
  intros Hin.
  change (" " +:+ ?x) with (String " " x). unfold strip.
  cbn [lstrip]. change (isspace " ") with true. cbv iota.
  rewrite string_app_assoc, lstrip_render.
  rewrite (rstrip_numeric_app _ _ (numeric_render c)).
  cbn in Hin. destruct Hin as [<-|[<-|[<-|[<-|[]]]]];
    match goal with
    | |- context [rstrip (?t +:+ " ")] =>
        change (rstrip (t +:+ " ")) with t
    end;
    rewrite (replace_numeric_app _ _ (numeric_render c)); reflexivity.
Qed.

Lemma field_value c tail :
  0 <= c -> In tail [" GB"; " MB"; " KB"; " Bytes"] ->
  py_float (replace " GB" ""
              (strip (" " +:+ (render_centi false c +:+ tail) +:+ " ")))
  = if String.eqb tail " GB" then Some (nearest_double false c 100) else None.
Proof.
  intros Hc Hin. rewrite (field_text c tail Hin).
  cbn in Hin. destruct Hin as [<-|[<-|[<-|[<-|[]]]]]; cbn [String.eqb Ascii.eqb];
    cbv iota.
  - rewrite string_app_empty_r. apply py_float_render_centi, Hc.
  - apply py_float_render_unit; [exact Hc | cbn; auto].
  - apply py_float_render_unit; [exact Hc | cbn; auto].
  - apply py_float_render_unit; [exact Hc | cbn; auto].
Qed.

(** What [format_size] prints for a size below 8 PiB: the hundredths and
    the unit, GB from one gibibyte on. *)
Lemma format_size_tail b :
  0 <= b < 2 ^ 53 ->
  exists c tail,
    0 <= c /\ In tail [" GB"; " MB"; " KB"; " Bytes"] /\
    format_size b = Ok (render_centi false c +:+ tail) /\
    String.eqb tail " GB" = (2 ^ 30 <=? b) /\
    (2 ^ 30 <= b -> c = round_half_even (100 * b) (2 ^ 30)).
Proof.
  intros Hb. destruct (Z_le_gt_dec (2 ^ 30) b) as [Hge|Hlt].
  - destruct (format_size_GB b) as (c & Hc & E & Hr); [lia|].
    exists c, " GB". split; [exact Hc|]. split; [cbn; auto|].
    split; [exact E|]. split; [|intros _; apply Hr; lia].
    symmetry. apply Z.leb_le. exact Hge.
  - destruct (format_size_small b) as (c & tail & Hc & Hin & E); [lia|].
    exists c, tail. split; [exact Hc|]. split; [cbn in *; tauto|].
    split; [exact E|]. split; [|lia].
    replace (2 ^ 30 <=? b) with false by (symmetry; apply Z.leb_gt; lia).
    cbn in Hin. destruct Hin as [<-|[<-|[<-|[]]]]; reflexivity.
Qed.











End SnapshotFacts.

(** * Checking the disks *)

Module DiskFacts.
Import PyStr HistoryFacts.

Lemma check_disk_ok h drive w u :
  disk_usage h drive w = Ok u -> uint64_usage u ->
  exists w' t us f,
    check_disk h drive w = Some (w', Ok u) /\
    format_size u.1.1 = Ok t /\ format_size u.1.2 = Ok us /\
    format_size u.2 = Ok f /\
    fs w' = fs w /\ stdin w' = stdin w /\ effects w' = effects w /\
    console w' = console w ++ disk_report drive t us f.
Proof.
  destruct u as [[total used] free]. intros Hu (Ht & Hus & Hf).
  destruct (format_size_uint64 total Ht) as (t & Et & _).
  destruct (format_size_uint64 used Hus) as (us & Eu & _).
  destruct (format_size_uint64 free Hf) as (f & Ef & _).
  unfold check_disk, call, act, lift, mbind, proc_bind, mret, proc_ret.
  rewrite Hu, Et, Eu, Ef.
  eexists _, t, us, f. split; [reflexivity|].
  repeat (split; [first [assumption | reflexivity]|]).
  cbn. rewrite <- !app_assoc. reflexivity.
Qed.

Lemma check_disk_raise h drive w e :
  disk_usage h drive w = Raise e -> check_disk h drive w = Some (w, Raise e).
Proof.
  intros Hu. unfold check_disk, call, mbind, proc_bind. rewrite Hu.
  reflexivity.
Qed.

(** Setting a key the dict does not hold appends it. *)
Lemma dict_set_fresh d v data :
  d ∉ map fst data -> dict_set d v data = data ++ [(d, v)].
Proof.
  induction data as [|[k x] data IH]; [reflexivity|]. cbn. intros Hd.
  apply not_elem_of_cons in Hd as [Hne Hd].
  destruct (String.eqb_spec k d) as [->|_]; [congruence|].
  rewrite (IH Hd). reflexivity.
Qed.

(** The loop of [main] over the disks when every reading succeeds. *)
Lemma check_disks_ok h disks :
  NoDup disks ->
  (forall d w, d ∈ disks ->
     exists u, disk_usage h d w = Ok u /\ uint64_usage u) ->
  forall data w,
    (forall d, d ∈ disks -> d ∉ map fst data) ->
    exists w' new,
      check_disks h disks data w = Some (w', Ok (data ++ new)) /\
      fs w' = fs w /\ stdin w' = stdin w /\ effects w' = effects w /\
      length (console w') = (length (console w) + 6 * length disks)%nat /\
      Forall2 (fun d item =>
                 item.1 = d /\ uint64_usage item.2 /\
                 exists w0, fs w0 = fs w /\ disk_usage h d w0 = Ok item.2)
        disks new.
Proof.
  induction 1 as [|d disks Hd Hnd IH]; intros Hok data w Hfresh.
  - exists w, []. cbn. rewrite app_nil_r. repeat split; auto with lia.
  - destruct (Hok d w ltac:(left)) as (u & Hu & H64).
    destruct (check_disk_ok h d w u Hu H64)
      as (w1 & t & us & f & E1 & _ & _ & _ & Hfs & Hin & Heff & Hcon).
    destruct (IH (fun d' w' Hd' => Hok d' w' ltac:(right; exact Hd'))
                (dict_set d u data) w1) as (w' & new & E & Gfs & Gin & Geff & Gcon & Gall).
    { intros d' Hd'. rewrite dict_set_fresh by (apply Hfresh; left).
      rewrite map_app. cbn. intros Hin'. apply elem_of_app in Hin' as [Hin'|Hin'].
      - exact (Hfresh d' ltac:(right; exact Hd') Hin').
      - apply list_elem_of_singleton in Hin'. subst d'. contradiction. }
    exists w', ((d, u) :: new).
    cbn [check_disks]. unfold mbind, proc_bind at 1. rewrite E1, E.
    rewrite dict_set_fresh by (apply Hfresh; left).
    rewrite <- app_assoc. split; [reflexivity|].
    split; [congruence|]. split; [congruence|]. split; [congruence|].
    split.
    + rewrite Gcon, Hcon, length_app. cbn [length disk_report]. cbn. lia.
    + constructor.
      * cbn. split; [reflexivity|]. split; [exact H64|]. exists w. auto.
      * eapply Forall2_impl; [exact Gall|]. cbn.
        intros d' item (? & ? & w0 & Hw0 & ?). repeat split; auto.
        exists w0. split; [congruence | assumption].
Qed.

(** The loop stops at the first reading that raises. *)
Lemma check_disks_raise h e disks :
  (forall d w, d ∈ disks ->
     (exists u, disk_usage h d w = Ok u /\ uint64_usage u)
     \/ disk_usage h d w = Raise e) ->
  (exists d, d ∈ disks /\ forall w, disk_usage h d w = Raise e) ->
  forall data w,
    exists w',
      check_disks h disks data w = Some (w', Raise e) /\
      fs w' = fs w /\ stdin w' = stdin w /\ effects w' = effects w.
Proof.
  induction disks as [|d disks IH]; intros Hok (bad & Hbad & Hraise) data w.
  - inversion Hbad.
  - cbn [check_disks]. unfold mbind, proc_bind at 1.
    destruct (Hok d w ltac:(left)) as [(u & Hu & H64)|Hu].
    + destruct (check_disk_ok h d w u Hu H64)
        as (w1 & t & us & f & E1 & _ & _ & _ & Hfs & Hin & Heff & _).
      rewrite E1.
      apply elem_of_cons in Hbad as [->|Hbad];
        [rewrite Hraise in Hu; discriminate|].
      destruct (IH (fun d' w' Hd' => Hok d' w' ltac:(right; exact Hd'))
                  (ex_intro _ bad (conj Hbad Hraise)) (dict_set d u data) w1)
        as (w' & E & Gfs & Gin & Geff).
      exists w'. rewrite E. repeat split; congruence.
    + rewrite (check_disk_raise h d w e Hu). exists w. auto.
Qed.

(** Which files can be opened is not changed by the disk check or by
    printing. *)
Lemma check_disk_open h drive w w' r :
  check_disk h drive w = Some (w', r) -> open_error w' = open_error w.
Proof.
  unfold check_disk, call, act, lift, mbind, proc_bind, mret, proc_ret.
  destruct (disk_usage h drive w) as [[[total used] free]|e];
    [|intros [= <- _]; reflexivity].
  destruct (format_size total); [|intros [= <- _]; reflexivity].
  destruct (format_size used); [|intros [= <- _]; reflexivity].
  destruct (format_size free); intros [= <- _]; reflexivity.
Qed.

Lemma check_disks_open h disks :
  forall data w w' r,
    check_disks h disks data w = Some (w', r) -> open_error w' = open_error w.
Proof.
  induction disks as [|d disks IH]; intros data w w' r.
  - intros [= <- _]. reflexivity.
  - cbn [check_disks]. unfold mbind, proc_bind at 1.
    destruct (check_disk h d w) as [[w1 [u|e]]|] eqn:E1; [| |discriminate].
    + intros E. rewrite (IH _ _ _ _ E). exact (check_disk_open _ _ _ _ _ E1).
    + intros [= <- _]. exact (check_disk_open _ _ _ _ _ E1).
Qed.

Lemma print_all_open lines w :
  open_error (print_all lines w) = open_error w.
Proof.
  revert w. induction lines as [|l lines IH]; intros w; [reflexivity|].
  cbn [print_all fold_left]. fold (print_all lines (print l w)).
  rewrite IH. reflexivity.
Qed.

Lemma render_main_menu_open w :
  open_error (render_main_menu w) = open_error w.
Proof. unfold render_main_menu. rewrite print_all_open. reflexivity. Qed.

(** The labels of [get_disks]. *)
Lemma get_disks_labels h d :
  d ∈ get_disks h ->
  if os_nt h
  then exists c, c ∈ ascii_uppercase /\ drive_exists h c = true
                 /\ d = String c ":\ "
  else d = "/".
Proof.
  unfold get_disks. destruct (os_nt h).
  - intros Hd. apply list_elem_of_fmap in Hd as (c & -> & Hc).
    apply list_elem_of_filter in Hc as [Hc1 Hc2].
    exists c. split; [exact Hc2|]. split; [|reflexivity].
    destruct (drive_exists h c); [reflexivity | contradiction].
  - intros Hd. apply list_elem_of_singleton in Hd. exact Hd.
Qed.

Lemma get_disks_NoDup h : NoDup (get_disks h).
Proof.
  unfold get_disks. destruct (os_nt h); [|apply NoDup_singleton].
  apply NoDup_fmap_2; [intros a b [= ->]; reflexivity|].
  apply NoDup_filter. unfold ascii_uppercase. cbn.
  refine (bool_decide_unpack _ _). vm_compute. exact I.
Qed.

Lemma get_disks_plain h d :
  d ∈ get_disks h ->
  plain_label d = true /\
  shown_name d = if os_nt h then String (default "/"%char (head (String.list_ascii_of_string d))) ""
                 else "/".
Proof.
  intros Hd. apply get_disks_labels in Hd. destruct (os_nt h).
  - destruct Hd as (c & Hc & _ & ->). unfold ascii_uppercase in Hc. cbn in Hc.
    repeat (apply elem_of_cons in Hc as [->|Hc]; [split; reflexivity|]).
    inversion Hc.
  - subst d. split; reflexivity.
Qed.

End DiskFacts.

(** * From the disk check to the chart *)

Module ChartFacts.
Import PyStr HistoryFacts MenuFacts DiskFacts SnapshotFacts.








End ChartFacts.

(** * The optimization menu and the ends of [main] *)

Module SubmenuFacts.
Import PyStr MenuFacts.

Lemma optimization_turn_read h w c rest :
  stdin w = c :: rest ->
  windows_optimization_turn h w
  = optimization_dispatch h c
      (prompted "Select optimization task: " rest
         (print_all optimization_menu w)).
Proof.
  intros Hin. unfold windows_optimization_turn.
  unfold mbind, proc_bind, act, input.
  destruct (print_all_rest optimization_menu w) as (_ & -> & _). rewrite Hin.
  reflexivity.
Qed.

Lemma optimization_turn_invalid h w c rest :
  ~ In c optimization_choices ->
  stdin w = c :: rest ->
  windows_optimization_turn h w
  = Some (print (Colors.FAIL +:+ "Invalid choice. Please try again."
                   +:+ Colors.ENDC)
            (prompted "Select optimization task: " rest
               (print_all optimization_menu w)),
          Ok Continue).
Proof.
  intros Hc Hin. rewrite (optimization_turn_read _ _ _ _ Hin).
  unfold optimization_dispatch.
  assert (Hne : forall k, In k optimization_choices -> String.eqb c k = false).
  { intros k Hk. apply String.eqb_neq. intros ->. exact (Hc Hk). }
  rewrite !Hne by (unfold optimization_choices; cbn; tauto).
  reflexivity.
Qed.

Lemma optimization_turn_return h w rest :
  stdin w = "0" :: rest ->
  windows_optimization_turn h w
  = Some (prompted "Select optimization task: " rest
            (print_all optimization_menu w), Ok Break).
Proof. intros Hin. rewrite (optimization_turn_read _ _ _ _ Hin). reflexivity. Qed.

Lemma optimization_loop_invalid_then_return h invalid :
  Forall (fun c => ~ In c optimization_choices) invalid ->
  forall fuel w rest,
    stdin w = invalid ++ "0" :: rest ->
    (length invalid < fuel)%nat ->
    exists w',
      while_true fuel (windows_optimization_turn h) w = Some (w', Ok ()) /\
      console w'
      = console w ++ concat (map (fun _ => invalid_optimization_text) invalid)
          ++ optimization_menu_text ++ ["Select optimization task: "] /\
      stdin w' = rest /\ fs w' = fs w /\ effects w' = effects w.
Proof.
  induction 1 as [|c invalid Hc Hinv IH]; intros fuel w rest Hin Hfuel.
  - destruct fuel as [|fuel]; [cbn in Hfuel; lia|].
    cbn [while_true]. rewrite (optimization_turn_return h w rest Hin).
    eexists. split; [reflexivity|].
    destruct (print_all_rest optimization_menu w) as (Hfs & _ & Hef).
    unfold prompted. cbn [console stdin fs effects concat map app].
    rewrite print_all_console, Hfs, Hef.
    unfold optimization_menu_text. rewrite <- !app_assoc. auto.
  - destruct fuel as [|fuel]; [cbn in Hfuel; lia|].
    cbn [while_true].
    rewrite (optimization_turn_invalid h w c (invalid ++ "0" :: rest) Hc Hin).
    set (w1 := print _ _).
    destruct (IH fuel w1 rest) as (w' & Hrun & Hcon & Hst & Hfs' & Hef');
      [reflexivity | cbn in Hfuel; lia |].
    exists w'. split; [exact Hrun|].
    destruct (print_all_rest optimization_menu w) as (Hfs & _ & Hef).
    rewrite Hcon, Hst, Hfs', Hef'. subst w1.
    unfold print, prompted. cbn [console stdin fs effects concat map].
    rewrite print_all_console, Hfs, Hef.
    unfold invalid_optimization_text, optimization_menu_text.
    rewrite <- !app_assoc. auto.
Qed.

(** The main loop on a run of unrecognised selections that ends the
    input. *)
Lemma main_loop_invalid_then_eof k h invalid :
  Forall (fun c => ~ In c main_choices) invalid ->
  forall fuel w,
    stdin w = invalid ->
    (length invalid < fuel)%nat ->
    exists w',
      while_true fuel (main_turn k h) w
      = Some (w', Raise (EOFError "EOF when reading a line")) /\
      console w'
      = console w ++ concat (map (fun _ => invalid_turn_text) invalid)
          ++ main_menu_text ++ ["Select a menu item: "] /\
      stdin w' = [] /\ fs w' = fs w /\ effects w' = effects w.
Proof.
  induction 1 as [|c invalid Hc Hinv IH]; intros fuel w Hin Hfuel.
  - destruct fuel as [|fuel]; [cbn in Hfuel; lia|].
    cbn [while_true]. unfold main_turn, mbind, proc_bind, act, input.
    destruct (render_main_menu_rest w) as (Hfs & Hst & Hef).
    rewrite Hst, Hin.
    eexists. split; [reflexivity|].
    unfold prompted. cbn [console stdin fs effects concat map app].
    rewrite render_main_menu_console, Hfs, Hef.
    rewrite <- !app_assoc. auto.
  - destruct fuel as [|fuel]; [cbn in Hfuel; lia|].
    cbn [while_true].
    rewrite (main_turn_invalid k h w c invalid Hc Hin).
    set (w1 := print _ _).
    destruct (IH fuel w1) as (w' & Hrun & Hcon & Hst & Hfs' & Hef');
      [reflexivity | cbn in Hfuel; lia |].
    exists w'. split; [exact Hrun|].
    destruct (render_main_menu_rest w) as (Hfs & _ & Hef).
    rewrite Hcon, Hst, Hfs', Hef'. subst w1.
    unfold print, prompted. cbn [console stdin fs effects concat map].
    rewrite render_main_menu_console, Hfs, Hef.
    unfold invalid_turn_text. rewrite <- !app_assoc. auto.
Qed.

(** The loop over the tasks up to one that is interrupted: the world it
    ends in is the one the interrupted task left. *)
Lemma run_tasks_interrupt h name t post pre :
  Forall (fun entry => forall w, exists o,
            run_task h entry.2 w = Some o /\
            forall e, out_result o = Raise e -> is_Exception e = true) pre ->
  (forall w, exists o,
     run_task h t w = Some o /\ out_result o = Raise KeyboardInterrupt) ->
  forall w, exists w1 w',
    run_tasks h (pre ++ (name, t) :: post) w
    = Some (w', Raise KeyboardInterrupt) /\
    run_host (run_task h t) w1 = Some (w', Raise KeyboardInterrupt) /\
    last (console w1) = Some (task_header name +:+ LF).
Proof.
  intros Hpre Hint. induction Hpre as [|[n0 t0] pre H0 _ IH]; intros w.
  - cbn [app run_tasks].
    unfold mbind, proc_bind, act, try_except, run_host.
    destruct (Hint (print (task_header name) w)) as (o & Ho & Hr).
    rewrite Ho, Hr. cbn [is_Exception].
    eexists (print (task_header name) w), _.
    split; [reflexivity|]. rewrite Ho, Hr. split; [reflexivity|].
    cbn [print console]. apply last_snoc.
  - cbn [app run_tasks]. cbn [snd] in H0.
    unfold mbind, proc_bind, act, try_except, run_host, mret, proc_ret.
    destruct (H0 (print (task_header n0) w)) as (o & Ho & He).
    rewrite Ho.
    destruct (out_result o) as [[]|e].
    + match goal with
      | |- context [run_tasks h _ ?w0] =>
          destruct (IH w0) as (w1 & w' & -> & Hrun & Hlast)
      end.
      exists w1, w'. auto.
    + rewrite (He e eq_refl). cbv beta iota.
      match goal with
      | |- context [run_tasks h _ ?w0] =>
          destruct (IH w0) as (w1 & w' & -> & Hrun & Hlast)
      end.
      exists w1, w'. auto.
Qed.

End SubmenuFacts.

(** * Two bodies written out *)

Module BodyFacts.
Import PyStr TaskBodies.

Lemma defrag_drives_effect h letters :
  forall w, exists w',
    defrag_drives h (map (fun d => String d ":") letters) w = Some (w', Ok ()) /\
    effects w'
    = effects w ++ map (fun d => Delegated (defrag_command h d)) letters /\
    console w'
    = console w
        ++ map (fun d => "Optimizing drive " +:+ String d ":" +:+ "..." +:+ LF)
             letters /\
    fs w' = fs w /\ stdin w' = stdin w.
Proof.
  induction letters as [|d letters IH]; intros w.
  - exists w. cbn. rewrite !app_nil_r. auto.
  - cbn [map defrag_drives].
    unfold os_system. unfold mbind, proc_bind, act. cbv beta iota.
    match goal with
    | |- context [defrag_drives h _ ?w0] =>
        destruct (IH w0) as (w' & -> & He & Hc & Hf & Hs)
    end.
    exists w'. split; [reflexivity|].
    rewrite He, Hc, Hf, Hs. cbn [emit print effects console fs stdin].
    rewrite <- !app_assoc. unfold defrag_command.
    destruct (os_nt h); repeat split.
Qed.

Lemma truediv_gib b :
  0 <= b < 2 ^ 64 -> exists x, int_truediv b (1024 ^ 3) = Ok x.
Proof.
  intros Hb. destruct (Z.eq_dec b 0) as [->|Hne]; [eexists; reflexivity|].
  destruct (FloatFacts.int_truediv_pow2 b 30) as (m & e & E & _);
    [lia | lia | |].
  { assert (Z.log2 b < 64) by (apply Z.log2_lt_pow2; lia). lia. }
  eexists. exact E.
Qed.

(** One turn of the loop of [monitor_memory] when nothing raises. *)
Lemma monitor_turn_continues ps interval w mem :
  Monitoring.virtual_memory ps w = Ok mem ->
  0 <= Monitoring.total mem < 2 ^ 64 -> 0 <= Monitoring.used mem < 2 ^ 64 ->
  exists total_gb used_gb,
    int_truediv (Monitoring.total mem) (1024 ^ 3) = Ok total_gb /\
    int_truediv (Monitoring.used mem) (1024 ^ 3) = Ok used_gb /\
    Monitoring.monitor_memory_turn ps interval w
    = let w1 := Monitoring.write
                  (Monitoring.memory_line total_gb used_gb
                     (Monitoring.percent mem)) w in
      match Monitoring.sleep ps interval w1 with
      | Ok _ => Some (emit (Sleep interval) w1, Ok Continue)
      | Raise e => Some (emit (Sleep interval) w1, Raise e)
      end.
Proof.
  intros Hm Ht Hu.
  destruct (truediv_gib _ Ht) as (total_gb & Et).
  destruct (truediv_gib _ Hu) as (used_gb & Eu).
  exists total_gb, used_gb. split; [exact Et|]. split; [exact Eu|].
  unfold Monitoring.monitor_memory_turn, Monitoring.get_memory_info.
  unfold mbind, proc_bind, call, lift, act, mret, proc_ret.
  rewrite Hm, Et, Eu. cbv beta iota zeta.
  destruct (Monitoring.sleep ps interval _) as [[]|e]; reflexivity.
Qed.

(** The loop of [monitor_memory] does not end while nothing raises. *)
Lemma monitor_loop_diverges ps interval :
  (forall w, exists mem,
     Monitoring.virtual_memory ps w = Ok mem /\
     0 <= Monitoring.total mem < 2 ^ 64 /\ 0 <= Monitoring.used mem < 2 ^ 64) ->
  (forall w, Monitoring.sleep ps interval w = Ok ()) ->
  forall fuel w,
    while_true fuel (Monitoring.monitor_memory_turn ps interval) w = None.
Proof.
  intros Hmem Hsleep. induction fuel as [|fuel IH]; intros w; [reflexivity|].
  cbn [while_true].
  destruct (Hmem w) as (mem & Hm & Ht & Hu).
  destruct (monitor_turn_continues ps interval w mem Hm Ht Hu)
    as (total_gb & used_gb & _ & _ & ->).
  cbv zeta. rewrite Hsleep. apply IH.
Qed.

End BodyFacts.

(** * The sizes shown *)

(** X1: Below 8 PiB the magnitude [format_size] prints, read as a decimal
    number of hundredths, is within half a hundredth of the byte count divided
    by the scale of the unit printed after it. *)
Theorem format_size_half_hundredth (b : Z) :
  0 <= b < 2 ^ 53 ->
  exists unit scale c,
    In (unit, scale) units /\
    format_size b = Ok (render_centi false c +:+ " " +:+ unit) /\
    parse_decimal (render_centi false c) = Some (c, -2) /\
    2 * Z.abs (c * scale - 100 * b) <= scale.
Proof.
  intros Hb.
  destruct (SizeFacts.format_size_shown b) as (unit & k & c & E & Hc & Hr & Hu);
    [lia|].
  exists unit, (2 ^ k), c.
  assert (Hk : 0 < 2 ^ k).
  { destruct Hu as [(_ & -> & _)|[(_ & -> & _)|[(_ & -> & _)|(_ & -> & _)]]];
      lia. }
  split; [|split; [exact E|split]].
  - destruct Hu as [(-> & -> & _)|[(-> & -> & _)|[(-> & -> & _)|(-> & -> & _)]]];
      [left|right; left|right; right; left|right; right; right; left];
      reflexivity.
  - pose proof (ReadBackFacts.parse_decimal_render c "" Hc) as Hp.
    rewrite HistoryFacts.string_app_empty_r in Hp. exact Hp.
  - rewrite (Hr ltac:(lia)). apply FloatFacts.rhe_error. exact Hk.
Qed.

Lemma format_size_half_hundredth_witness :
  exists unit scale c,
    In (unit, scale) units /\
    format_size 1500000000 = Ok (render_centi false c +:+ " " +:+ unit) /\
    parse_decimal (render_centi false c) = Some (c, -2) /\
    2 * Z.abs (c * scale - 100 * 1500000000) <= scale.
Proof. apply (format_size_half_hundredth 1500000000). lia. Defined.

(** X2: Below 8 PiB a larger byte count is never shown smaller: its unit is
    the same or a larger one, and in the same unit its magnitude is at least
    as large. *)
Theorem format_size_monotone (b1 b2 : Z) :
  0 <= b1 <= b2 -> b2 < 2 ^ 53 ->
  exists unit1 scale1 c1 unit2 scale2 c2,
    In (unit1, scale1) units /\ In (unit2, scale2) units /\
    format_size b1 = Ok (render_centi false c1 +:+ " " +:+ unit1) /\
    format_size b2 = Ok (render_centi false c2 +:+ " " +:+ unit2) /\
    parse_decimal (render_centi false c1) = Some (c1, -2) /\
    parse_decimal (render_centi false c2) = Some (c2, -2) /\
    scale1 <= scale2 /\ (scale1 = scale2 -> c1 <= c2).
Proof.
  intros H1 H2.
  destruct (SizeFacts.format_size_shown b1)
    as (unit1 & k1 & c1 & E1 & Hc1 & Hr1 & Hu1); [lia|].
  destruct (SizeFacts.format_size_shown b2)
    as (unit2 & k2 & c2 & E2 & Hc2 & Hr2 & Hu2); [lia|].
  exists unit1, (2 ^ k1), c1, unit2, (2 ^ k2), c2.
  pose proof (ReadBackFacts.parse_decimal_render c1 "" Hc1) as Hp1.
  pose proof (ReadBackFacts.parse_decimal_render c2 "" Hc2) as Hp2.
  rewrite HistoryFacts.string_app_empty_r in Hp1, Hp2.
  specialize (Hr1 ltac:(lia)). specialize (Hr2 ltac:(lia)).
  assert (Hin : forall unit k b,
            (unit = "GB" /\ k = 30 /\ 2 ^ 30 <= b
             \/ unit = "MB" /\ k = 20 /\ 2 ^ 20 <= b < 2 ^ 30
             \/ unit = "KB" /\ k = 10 /\ 2 ^ 10 <= b < 2 ^ 20
             \/ unit = "Bytes" /\ k = 0 /\ b < 2 ^ 10) ->
            In (unit, 2 ^ k) units).
  { intros unit k b
      [(-> & -> & _)|[(-> & -> & _)|[(-> & -> & _)|(-> & -> & _)]]];
      [left|right; left|right; right; left|right; right; right; left];
      reflexivity. }
  split; [exact (Hin _ _ _ Hu1)|]. split; [exact (Hin _ _ _ Hu2)|].
  split; [exact E1|]. split; [exact E2|]. split; [exact Hp1|].
  split; [exact Hp2|].
  assert (Hk : k1 <= k2 /\ 0 <= k1 <= 30) by
    (destruct Hu1 as [(_ & -> & ?)|[(_ & -> & ?)|[(_ & -> & ?)|(_ & -> & ?)]]];
     destruct Hu2 as [(_ & -> & ?)|[(_ & -> & ?)|[(_ & -> & ?)|(_ & -> & ?)]]];
     lia).
  split.
  - apply Z.pow_le_mono_r; lia.
  - intros Hs. apply Z.pow_inj_r in Hs; [|lia..]. subst k2 c1 c2.
    apply SizeFacts.rhe_monotone; [apply Z.pow_pos_nonneg|]; lia.
Qed.

Lemma format_size_monotone_witness :
  exists unit1 scale1 c1 unit2 scale2 c2,
    In (unit1, scale1) units /\ In (unit2, scale2) units /\
    format_size 1023 = Ok (render_centi false c1 +:+ " " +:+ unit1) /\
    format_size 1024 = Ok (render_centi false c2 +:+ " " +:+ unit2) /\
    parse_decimal (render_centi false c1) = Some (c1, -2) /\
    parse_decimal (render_centi false c2) = Some (c2, -2) /\
    scale1 <= scale2 /\ (scale1 = scale2 -> c1 <= c2).
Proof. apply (format_size_monotone 1023 1024); lia. Defined.

(** X3: The magnitude printed can reach 1024.00 in the units MB and KB: the
    unit is chosen on the byte count, the magnitude is rounded afterwards, so
    a count within half a hundredth below the next unit shows as [1024.00] of
    the smaller one. *)
Theorem format_size_rounds_up_to_1024 (b k : Z) (unit : string) :
  In (k, unit) [(20, "MB"); (10, "KB")] ->
  204799 * 2 ^ k <= 200 * b -> b < 1024 * 2 ^ k ->
  format_size b = Ok ("1024.00 " +:+ unit).
Proof.
  intros Hin Hlo Hhi.
  assert (Hk : k = 20 \/ k = 10)
    by (cbn in Hin; destruct Hin as [[= <- _]|[[= <- _]|[]]]; auto).
  destruct (SizeFacts.format_size_shown b) as (u & k' & c & E & Hc & Hr & Hu);
    [destruct Hk; subst k; lia|].
  assert (u = unit /\ k' = k) as [-> ->].
  { cbn in Hin.
    destruct Hin as [[= <- <-]|[[= <- <-]|[]]];
      destruct Hu as [(-> & -> & ?)|[(-> & -> & ?)|[(-> & -> & ?)|(-> & -> & ?)]]];
      split; (reflexivity || lia). }
  assert (Hc' : c = 100 * 1024).
  { rewrite (Hr ltac:(destruct Hk; subst k; lia)).
    apply SizeFacts.rhe_unique; destruct Hk; subst k; lia. }
  rewrite E, Hc', FloatFacts.render_centi_integral. reflexivity.
Qed.

Lemma format_size_rounds_up_to_1024_witness :
  format_size (2 ^ 30 - 1) = Ok "1024.00 MB" /\
  format_size (2 ^ 20 - 5) = Ok "1024.00 KB".
Proof.
  split.
  - apply (format_size_rounds_up_to_1024 (2 ^ 30 - 1) 20 "MB");
      [left; reflexivity | lia | lia].
  - apply (format_size_rounds_up_to_1024 (2 ^ 20 - 5) 10 "KB");
      [right; left; reflexivity | lia | lia].
Defined.

(** X4: From 2^1054 bytes on [format_size] raises: the quotient by 1024^3 no
    longer fits a float and the division itself fails with [OverflowError]. *)
Theorem format_size_huge_raises (b : Z) :
  2 ^ 1054 <= b ->
  format_size b
  = Raise (OverflowError "integer division result too large for a float").
Proof.
  intros Hb.
  assert (H30 : 2 ^ 30 < 2 ^ 1054) by (apply Z.pow_lt_mono_r; lia).
  unfold format_size. rewrite Z.geb_leb.
  destruct (1024 ^ 3 <=? b) eqn:E3;
    [|apply Z.leb_gt in E3; change (1024 ^ 3) with (2 ^ 30) in E3; lia].
  unfold int_truediv. change (1024 ^ 3 =? 0) with false. cbv iota.
  destruct (b <? 0) eqn:Eneg; [apply Z.ltb_lt in Eneg; lia|].
  change (1024 ^ 3 <? 0) with false. cbn [xorb].
  change (Z.abs (1024 ^ 3)) with (2 ^ 30). rewrite Z.abs_eq by lia.
  rewrite FloatFacts.nearest_double_overflow; [reflexivity | lia | lia |].
  assert (1054 <= Z.log2 b) by (apply Z.log2_le_pow2; lia). lia.
Qed.

Lemma format_size_huge_raises_witness :
  format_size (2 ^ 1054)
  = Raise (OverflowError "integer division result too large for a float").
Proof. apply (format_size_huge_raises (2 ^ 1054)). lia. Defined.

(** * A size as the parser meets it *)

(** X5: What [float_field] makes of a field of the log that holds a size below
    8 PiB as [format_size] printed it: from one gibibyte on, the float nearest
    to the magnitude printed; below, nothing, because the text still ends with
    a unit other than GB when [float] gets it. *)
Theorem float_field_of_size (b : Z) :
  0 <= b < 2 ^ 53 ->
  exists s,
    format_size b = Ok s /\
    float_field (" Total: " +:+ s +:+ " ")
    = if 2 ^ 30 <=? b then Some (gib_value b) else None.
Proof.
  intros Hb.
  destruct (SnapshotFacts.format_size_tail b Hb)
    as (c & tail & Hc & Hin & E & Et & Hr).
  exists (render_centi false c +:+ tail). split; [exact E|].
  unfold float_field.
  change (" Total: " +:+ ?x) with (" Total" +:+ String ":" (" " +:+ x)).
  rewrite ParseFacts.split_app_sep by reflexivity.
  rewrite ParseFacts.split_free.
  - rewrite (SnapshotFacts.field_value c tail Hc Hin), Et.
    destruct (2 ^ 30 <=? b) eqn:E30; [|reflexivity].
    apply Z.leb_le in E30. unfold gib_value. rewrite <- (Hr E30). reflexivity.
  - change (" " +:+ ?x) with (String " " x).
    rewrite FloatFacts.string_app_assoc.
    change (free_of ":" (String " " ?x)) with (free_of ":" x).
    rewrite ParseFacts.free_of_app.
    rewrite (ReadBackFacts.numeric_free ":" _ eq_refl eq_refl
               (ReadBackFacts.numeric_render c)).
    cbn in Hin. destruct Hin as [<-|[<-|[<-|[<-|[]]]]]; reflexivity.
Qed.

Lemma float_field_of_size_witness :
  exists s,
    format_size (2 ^ 30 - 1) = Ok s /\
    float_field (" Total: " +:+ s +:+ " ")
    = if 2 ^ 30 <=? 2 ^ 30 - 1 then Some (gib_value (2 ^ 30 - 1)) else None.
Proof. apply (float_field_of_size (2 ^ 30 - 1)). lia. Defined.

(** * The history log beyond well-formed records *)


(** X7: The three lists the parser of [plot_usage] fills always have the same
    length, whatever the text of the file, and hold at most one entry per line
    that contains [Total]. *)
Theorem parse_history_lists_aligned (text : string) :
  let '(disks, used_sizes, free_sizes) := parse_history text in
  length disks = length used_sizes /\
  length used_sizes = length free_sizes /\
  (length disks
   <= length (filter (fun l => contains "Total" l = true) (lines text)))%nat.
Proof.
  pose proof (LogFacts.fold_parse_lengths (lines text) ([], [], [])
                eq_refl eq_refl) as H.
  cbv zeta in H. fold (parse_history text) in H.
  destruct (parse_history text) as [[disks used_sizes] free_sizes].
  cbn [fst snd length] in H. lia.
Qed.

(** X8: The parser works line by line and keeps no state between lines but the
    lists: the records of a text that continues after a complete line are
    those of the text up to that line, followed by those of the rest. *)
Theorem parse_history_concatenates (before rest : string) :
  records (parse_history (before +:+ LF +:+ rest))
  = records (parse_history before) ++ records (parse_history rest).
Proof.
  rewrite <- (NewlineFacts.parse_history_LF before).
  unfold parse_history. rewrite LogFacts.lines_app, fold_left_app.
  pose proof (LogFacts.fold_parse_lengths (lines (before +:+ LF)) ([], [], [])
                eq_refl eq_refl) as (H1 & H2 & _).
  apply LogFacts.records_fold; assumption.
Qed.





(** * The disk check of [main] *)

(** X11: [get_disks] never returns a label twice and at most 26 of them; off
    Windows the only label is the root; on Windows each label is the letter of
    a drive whose root exists, followed by a colon, a backslash and a space,
    so that the label is not the path that was tested; every label stays in
    one field of one line of the log, and the name the parser of [plot_usage]
    takes from a line written for it is the letter alone. *)
Theorem get_disks_labels_distinct (h : Host) :
  NoDup (get_disks h) /\ (length (get_disks h) <= 26)%nat /\
  forall d, d ∈ get_disks h ->
    plain_label d = true /\
    if os_nt h
    then exists c, c ∈ ascii_uppercase /\ drive_exists h c = true /\
                   d = String c ":\ " /\ shown_name d = String c ""
    else d = "/" /\ shown_name d = "/".
Proof.
  split; [apply DiskFacts.get_disks_NoDup|]. split.
  - unfold get_disks. destruct (os_nt h); [|cbn; lia].
    rewrite length_map.
    etransitivity; [apply length_filter|]. reflexivity.
  - intros d Hd. split; [apply (DiskFacts.get_disks_plain h), Hd|].
    pose proof (DiskFacts.get_disks_labels h d Hd) as Hl.
    destruct (os_nt h).
    + destruct Hl as (c & Hc & He & ->). exists c.
      split; [exact Hc|]. split; [exact He|]. split; [reflexivity|].
      unfold ascii_uppercase in Hc. cbn in Hc.
      repeat (apply elem_of_cons in Hc as [->|Hc]; [reflexivity|]).
      inversion Hc.
    + subst d. split; reflexivity.
Qed.





(** X14: The disk check is not guarded: when a drive of [get_disks] cannot be
    read, the exception of the reading ends [main] itself; nothing is saved
    for the drives read before it, no file changes and the rest of the input
    stays unread. *)
Theorem main_check_disks_unreadable
    (fuel : nat) (h : Host) (w : World) (rest : list string) (e : exn) :
  (forall d w, d ∈ get_disks h ->
     (exists u, disk_usage h d w = Ok u /\ uint64_usage u)
     \/ disk_usage h d w = Raise e) ->
  (exists d, d ∈ get_disks h /\ forall w, disk_usage h d w = Raise e) ->
  stdin w = "1" :: rest ->
  (1 <= fuel)%nat ->
  exists w',
    main fuel h w = Some (w', Raise e) /\
    fs w' = fs w /\ stdin w' = rest /\ effects w' = effects w.
Proof.
  intros Hok Hbad Hin Hfuel. destruct fuel as [|fuel]; [lia|].
  unfold main. cbn [while_true].
  rewrite (MenuFacts.main_turn_read (S fuel) h w "1" rest Hin).
  set (asked := prompted "Select a menu item: " rest (render_main_menu w)).
  destruct (MenuFacts.render_main_menu_rest w) as (Rfs & _ & Reff).
  destruct (DiskFacts.check_disks_raise h e (get_disks h) Hok Hbad [] asked)
    as (w' & E & Hfs & Hst & Heff).
  exists w'. unfold main_dispatch. cbn [String.eqb Ascii.eqb Bool.eqb].
  unfold mbind, proc_bind at 1. rewrite E.
  split; [reflexivity|]. rewrite Hfs, Hst, Heff. unfold asked.
  cbn [prompted fs stdin effects]. auto.
Qed.

Lemma main_check_disks_unreadable_witness :
  exists w',
    main 1 unreadable_host (typing ["1"; "10"])
    = Some (w', Raise (OtherException "The device is not ready")) /\
    fs w' = fs (typing ["1"; "10"]) /\ stdin w' = ["10"] /\
    effects w' = effects (typing ["1"; "10"]).
Proof.
  apply (main_check_disks_unreadable 1 unreadable_host (typing ["1"; "10"])
           ["10"] (OtherException "The device is not ready")).
  - intros d w _. right. reflexivity.
  - exists "C:\ ". split; [|reflexivity]. vm_compute.
    apply list_elem_of_here.
  - reflexivity.
  - lia.
Defined.

(** X23: The saving is not guarded either: when every drive can be read but
    the history file cannot be opened for append, the selection 1 of [main]
    prints the report of every drive, then the exception of [open] ends
    [main] itself; no file changes, the notice of saving is not printed and
    the rest of the input stays unread. *)
Theorem main_check_disks_unwritable
    (fuel : nat) (h : Host) (w : World) (rest : list string) (e : exn) :
  (forall d w, d ∈ get_disks h ->
     exists u, disk_usage h d w = Ok u /\ uint64_usage u) ->
  open_error w history_file = Some e ->
  stdin w = "1" :: rest ->
  (1 <= fuel)%nat ->
  exists w',
    main fuel h w = Some (w', Raise e) /\
    fs w' = fs w /\ stdin w' = rest /\ effects w' = effects w /\
    (length (console w')
     = length (console w) + length main_menu_text + 1
       + 6 * length (get_disks h))%nat.
Proof.
  intros Hok Hopen Hin Hfuel. destruct fuel as [|fuel]; [lia|].
  unfold main. cbn [while_true].
  rewrite (MenuFacts.main_turn_read (S fuel) h w "1" rest Hin).
  set (asked := prompted "Select a menu item: " rest (render_main_menu w)).
  destruct (MenuFacts.render_main_menu_rest w) as (Rfs & _ & Reff).
  destruct (DiskFacts.check_disks_ok h (get_disks h)
              (DiskFacts.get_disks_NoDup h) Hok [] asked)
    as (w1 & data & E & Gfs & Gin & Geff & Gcon & _).
  { intros d _ Hd. inversion Hd. }
  cbn [app] in E.
  assert (Hopen1 : open_error w1 history_file = Some e).
  { rewrite (DiskFacts.check_disks_open _ _ _ _ _ _ E). unfold asked.
    cbn [prompted open_error]. rewrite DiskFacts.render_main_menu_open.
    exact Hopen. }
  exists w1. split.
  { unfold main_dispatch. cbn [String.eqb Ascii.eqb Bool.eqb].
    unfold mbind, proc_bind at 1. rewrite E.
    unfold call, mbind, proc_bind, mret, proc_ret.
    rewrite (HistoryFacts.save_history_unopened data history_file
               (clock h w1) w1 e Hopen1).
    reflexivity. }
  rewrite Gfs, Gin, Geff, Gcon. unfold asked.
  cbn [prompted fs stdin effects console].
  split; [exact Rfs|]. split; [reflexivity|]. split; [exact Reff|].
  rewrite length_app, MenuFacts.render_main_menu_console, length_app.
  cbn [length]. lia.
Qed.

Lemma main_check_disks_unwritable_witness :
  exists w',
    main 1 (charting_host half_used_drive) (read_only ["1"; "10"])
    = Some (w', Raise (OtherException "Permission denied")) /\
    fs w' = fs (read_only ["1"; "10"]) /\ stdin w' = ["10"] /\
    effects w' = effects (read_only ["1"; "10"]) /\
    (length (console w')
     = length (console (read_only ["1"; "10"])) + length main_menu_text + 1
       + 6 * length (get_disks (charting_host half_used_drive)))%nat.
Proof.
  apply (main_check_disks_unwritable 1 (charting_host half_used_drive)
           (read_only ["1"; "10"]) ["10"]
           (OtherException "Permission denied")).
  - intros d w _. eexists. split; [reflexivity|]. cbn. lia.
  - reflexivity.
  - reflexivity.
  - lia.
Defined.

(** * Ways out of the menus *)

(** X15: Off Windows the selection 8 of [main] only prints the notice: the
    optimization menu is not shown, no further selection is read, nothing else
    changes, and the main loop goes on. *)
Theorem windows_optimization_off_windows
    (fuel : nat) (h : Host) (w : World) (rest : list string) :
  os_nt h = false ->
  stdin w = "8" :: rest ->
  windows_optimization fuel h w = Some (print not_on_windows w, Ok ()) /\
  main_turn fuel h w
  = Some (print not_on_windows
            (prompted "Select a menu item: " rest (render_main_menu w)),
          Ok Continue).
Proof.
  intros Hnt Hin. split.
  - unfold windows_optimization. rewrite Hnt. reflexivity.
  - rewrite (MenuFacts.main_turn_read fuel h w "8" rest Hin).
    unfold main_dispatch. cbn [String.eqb Ascii.eqb Bool.eqb].
    unfold windows_optimization. rewrite Hnt. reflexivity.
Qed.

Lemma windows_optimization_off_windows_witness :
  main_turn 0 posix_host (typing ["8"; "0"])
  = Some (print not_on_windows
            (prompted "Select a menu item: " ["0"]
               (render_main_menu (typing ["8"; "0"]))),
          Ok Continue).
Proof.
  apply (windows_optimization_off_windows 0 posix_host (typing ["8"; "0"])
           ["0"]); reflexivity.
Defined.

(** X16: On Windows the optimization menu goes round on every selection it
    does not recognise, writing its ten lines, the prompt and the
    invalid-choice notice each time, and returns on the selection 0 without a
    notice: the rest of the input is left for the main menu, and neither the
    files nor the external effects change. *)
Theorem optimization_menu_invalid_then_return
    (h : Host) (fuel : nat) (w : World) (invalid rest : list string) :
  os_nt h = true ->
  Forall (fun c => ~ In c optimization_choices) invalid ->
  stdin w = invalid ++ "0" :: rest ->
  (length invalid < fuel)%nat ->
  exists w',
    windows_optimization fuel h w = Some (w', Ok ()) /\
    console w'
    = console (print_separator "Windows System Optimization" w)
        ++ concat (map (fun _ => invalid_optimization_text) invalid)
        ++ optimization_menu_text ++ ["Select optimization task: "] /\
    stdin w' = rest /\ fs w' = fs w /\ effects w' = effects w.
Proof.
  intros Hnt Hinv Hin Hfuel. unfold windows_optimization. rewrite Hnt.
  cbn [negb]. unfold mbind, proc_bind, act.
  apply (SubmenuFacts.optimization_loop_invalid_then_return h invalid Hinv
           fuel (print_separator "Windows System Optimization" w) rest);
    assumption.
Qed.

Lemma optimization_menu_invalid_then_return_witness :
  exists w',
    windows_optimization 3 (example_host []) (typing ["10"; "abc"; "0"; "1"])
    = Some (w', Ok ()) /\
    console w'
    = console (print_separator "Windows System Optimization"
                 (typing ["10"; "abc"; "0"; "1"]))
        ++ concat (map (fun _ => invalid_optimization_text) ["10"; "abc"])
        ++ optimization_menu_text ++ ["Select optimization task: "] /\
    stdin w' = ["1"] /\ fs w' = fs (typing ["10"; "abc"; "0"; "1"]) /\
    effects w' = effects (typing ["10"; "abc"; "0"; "1"]).
Proof.
  apply (optimization_menu_invalid_then_return (example_host []) 3
           (typing ["10"; "abc"; "0"; "1"]) ["10"; "abc"] ["1"]).
  - reflexivity.
  - repeat constructor; unfold optimization_choices; cbn;
      intros H; repeat destruct H as [H|H]; try discriminate H; exact H.
  - reflexivity.
  - cbn. lia.
Defined.

(** X17: When the input ends before the selection 10 was typed, [main] does
    not return normally: after the unrecognised selections it writes the menu
    and the prompt once more and the [EOFError] of [input] ends it. *)
Theorem main_end_of_input
    (h : Host) (fuel : nat) (w : World) (invalid : list string) :
  Forall (fun c => ~ In c main_choices) invalid ->
  stdin w = invalid ->
  (length invalid < fuel)%nat ->
  exists w',
    main fuel h w = Some (w', Raise (EOFError "EOF when reading a line")) /\
    console w'
    = console w ++ concat (map (fun _ => invalid_turn_text) invalid)
        ++ main_menu_text ++ ["Select a menu item: "] /\
    stdin w' = [] /\ fs w' = fs w /\ effects w' = effects w.
Proof.
  intros Hinv Hin Hfuel. unfold main.
  apply (SubmenuFacts.main_loop_invalid_then_eof fuel h invalid Hinv fuel w);
    assumption.
Qed.

Lemma main_end_of_input_witness :
  exists w',
    main 2 (example_host []) (typing ["0"])
    = Some (w', Raise (EOFError "EOF when reading a line")) /\
    console w'
    = console (typing ["0"]) ++ concat (map (fun _ => invalid_turn_text) ["0"])
        ++ main_menu_text ++ ["Select a menu item: "] /\
    stdin w' = [] /\ fs w' = fs (typing ["0"]) /\
    effects w' = effects (typing ["0"]).
Proof.
  apply (main_end_of_input (example_host []) 2 (typing ["0"]) ["0"]).
  - repeat constructor; unfold main_choices; cbn;
      intros H; repeat destruct H as [H|H]; try discriminate H; exact H.
  - reflexivity.
  - cbn. lia.
Defined.

(** X18: [run_all_optimizations] guards its tasks against [Exception] only: a
    task interrupted from the keyboard ends the composite with
    [KeyboardInterrupt], and the world it ends in is the one that task left
    right after its header, so no error line, no pause, no later task and no
    closing notice follow. *)
Theorem run_all_interrupted
    (h : Host) (w : World) (name : string) (t : task)
    (pre post : list (string * task)) :
  optimizations = pre ++ (name, t) :: post ->
  Forall (fun entry => forall w, exists o,
            run_task h entry.2 w = Some o /\
            forall e, out_result o = Raise e -> is_Exception e = true) pre ->
  (forall w, exists o,
     run_task h t w = Some o /\ out_result o = Raise KeyboardInterrupt) ->
  exists w1 w',
    run_all_optimizations h w = Some (w', Raise KeyboardInterrupt) /\
    run_host (run_task h t) w1 = Some (w', Raise KeyboardInterrupt) /\
    last (console w1) = Some (task_header name +:+ LF).
Proof.
  intros Hopt Hpre Hint. unfold run_all_optimizations. rewrite Hopt.
  unfold mbind, proc_bind, act at 1.
  destruct (SubmenuFacts.run_tasks_interrupt h name t post pre Hpre Hint
              (print running_all w)) as (w1 & w' & -> & Hrun & Hlast).
  exists w1, w'. auto.
Qed.

Lemma run_all_interrupted_witness :
  exists w1 w',
    run_all_optimizations (interrupting_host clear_dns_cache) empty_world
    = Some (w', Raise KeyboardInterrupt) /\
    run_host (run_task (interrupting_host clear_dns_cache) clear_dns_cache) w1
    = Some (w', Raise KeyboardInterrupt) /\
    last (console w1) = Some (task_header "Clearing DNS cache" +:+ LF).
Proof.
  apply (run_all_interrupted (interrupting_host clear_dns_cache) empty_world
           "Clearing DNS cache" clear_dns_cache
           [("Cleaning temporary files", clean_temp_files);
            ("Clearing update cache", clear_update_cache)]
           [("Clearing prefetch", clear_prefetch);
            ("Optimizing disks", optimize_disks);
            ("Cleaning Recycle Bin", clean_recycle_bin);
            ("Clearing event logs", clear_event_logs)]).
  - reflexivity.
  - repeat constructor; intros w; eexists; (split; [reflexivity|]);
      cbn; intros e [=].
  - intros w. eexists. split; reflexivity.
Defined.

(** X19: A task selected on its own in the optimization menu is not guarded:
    when it raises, the exception leaves the menu and ends [main]. *)
Theorem optimization_direct_failure_escapes
    (fuel : nat) (h : Host) (w : World) (t : task) (e : exn)
    (rest : list string) :
  os_nt h = true ->
  stdin w = "8" :: task_choice t :: rest ->
  (forall w0, exists o, run_task h t w0 = Some o /\ out_result o = Raise e) ->
  (1 <= fuel)%nat ->
  exists w', main fuel h w = Some (w', Raise e).
Proof.
  intros Hnt Hin Hfail Hfuel. destruct fuel as [|fuel]; [lia|].
  unfold main. cbn [while_true].
  rewrite (MenuFacts.main_turn_read (S fuel) h w "8" _ Hin).
  set (asked := prompted _ _ _).
  unfold main_dispatch. cbn [String.eqb Ascii.eqb Bool.eqb].
  unfold windows_optimization. rewrite Hnt. cbn [negb].
  unfold mbind, proc_bind at 1. unfold mbind, proc_bind, act at 1.
  cbn [while_true].
  set (w1 := print_separator _ asked).
  assert (Hin1 : stdin w1 = task_choice t :: rest) by reflexivity.
  rewrite (SubmenuFacts.optimization_turn_read h w1 _ _ Hin1).
  set (w2 := prompted _ _ _).
  destruct (Hfail w2) as (o & Ho & Hr).
  assert (E : optimization_dispatch h (task_choice t) w2
              = (run_host (run_task h t);; mret Continue) w2)
    by (destruct t; reflexivity).
  rewrite E. unfold mbind, proc_bind, run_host. rewrite Ho, Hr.
  eexists. reflexivity.
Qed.

Lemma optimization_direct_failure_escapes_witness :
  exists w',
    main 1 (example_host [clear_dns_cache]) (typing ["8"; "3"; "0"; "10"])
    = Some (w', Raise (OtherException "failed")).
Proof.
  apply (optimization_direct_failure_escapes 1
           (example_host [clear_dns_cache]) (typing ["8"; "3"; "0"; "10"])
           clear_dns_cache (OtherException "failed") ["0"; "10"]).
  - reflexivity.
  - reflexivity.
  - intros w0. eexists. split; reflexivity.
  - lia.
Defined.

(** * The bodies written out *)

(** X20: [optimize_disks] always returns normally; it hands the shell one
    command per drive letter whose root exists, in alphabetical order, and
    each command names its drive with a doubled colon; it prints one line per
    drive between its two notices and changes no file and reads no input; on
    Windows the commands are as many as the labels of [get_disks]. *)
Theorem optimize_disks_commands (h : Host) (w : World) :
  exists w',
    TaskBodies.optimize_disks h w = Some (w', Ok ()) /\
    effects w'
    = effects w ++ map (fun d => Delegated (defrag_command h d))
                     (filter (drive_exists h) ascii_uppercase) /\
    (forall d, contains "::" (defrag_command h d) = true) /\
    length (console w')
    = (length (console w) + 2
       + length (filter (drive_exists h) ascii_uppercase))%nat /\
    fs w' = fs w /\ stdin w' = stdin w /\
    (if os_nt h
     then length (effects w') = (length (effects w) + length (get_disks h))%nat
     else get_disks h = ["/"]).
Proof.
  unfold TaskBodies.optimize_disks.
  unfold mbind, proc_bind, act at 1.
  match goal with
  | |- context [TaskBodies.defrag_drives h _ ?w0] =>
      destruct (BodyFacts.defrag_drives_effect h
                  (filter (drive_exists h) ascii_uppercase) w0)
        as (w1 & E & He & Hc & Hf & Hs)
  end.
  unfold mbind, proc_bind, act. rewrite E.
  eexists. split; [reflexivity|].
  cbn [print effects console fs stdin] in *.
  split; [exact He|]. split.
  { intros d. unfold defrag_command.
    destruct (os_nt h); destruct d as [[] [] [] [] [] [] [] []];
      vm_compute; reflexivity. }
  split.
  { rewrite Hc, !length_app, length_map. cbn [length]. lia. }
  split; [exact Hf|]. split; [exact Hs|].
  unfold get_disks. destruct (os_nt h); [|reflexivity].
  rewrite He, length_app, !length_map. reflexivity.
Qed.

(** X21: With the metrics provider present, [monitor_memory] does not return
    by itself: as long as the provider answers with sizes that fit 64 bits and
    no pause is interrupted, the loop goes on whatever the number of turns it
    is given. *)
Theorem monitor_memory_runs_until_interrupted
    (ps : Monitoring.Sampler) (interval : Z) (fuel : nat) (w : World) :
  (forall w, exists mem,
     Monitoring.virtual_memory ps w = Ok mem /\
     0 <= Monitoring.total mem < 2 ^ 64 /\ 0 <= Monitoring.used mem < 2 ^ 64) ->
  (forall w, Monitoring.sleep ps interval w = Ok ()) ->
  Monitoring.monitor_memory ps interval fuel w = None.
Proof.
  intros Hmem Hsleep. unfold Monitoring.monitor_memory.
  rewrite (BodyFacts.monitor_loop_diverges ps interval Hmem Hsleep).
  reflexivity.
Qed.

Lemma monitor_memory_runs_until_interrupted_witness :
  Monitoring.monitor_memory steady_sampler 1 1000 empty_world = None.
Proof.
  apply (monitor_memory_runs_until_interrupted steady_sampler 1 1000
           empty_world).
  - intros w. eexists. split; [reflexivity|]. cbn. lia.
  - reflexivity.
Defined.

(** X22: An exception in the first pause of [monitor_memory] ends the loop
    after one line: a [KeyboardInterrupt] is caught, the stop notice is
    printed and the function returns normally, so that the menu comes back;
    any other exception leaves the function. *)
Theorem monitor_memory_interrupted
    (ps : Monitoring.Sampler) (interval : Z) (fuel : nat) (w : World)
    (mem : Monitoring.svmem) (e : exn) :
  Monitoring.virtual_memory ps w = Ok mem ->
  0 <= Monitoring.total mem < 2 ^ 64 -> 0 <= Monitoring.used mem < 2 ^ 64 ->
  (forall w1, Monitoring.sleep ps interval w1 = Raise e) ->
  (1 <= fuel)%nat ->
  exists total_gb used_gb,
    int_truediv (Monitoring.total mem) (1024 ^ 3) = Ok total_gb /\
    int_truediv (Monitoring.used mem) (1024 ^ 3) = Ok used_gb /\
    let w1 := emit (Sleep interval)
                (Monitoring.write
                   (Monitoring.memory_line total_gb used_gb
                      (Monitoring.percent mem)) w) in
    Monitoring.monitor_memory ps interval fuel w
    = match e with
      | KeyboardInterrupt => Some (print Monitoring.memory_stopped w1, Ok ())
      | _ => Some (w1, Raise e)
      end.
Proof.
  intros Hm Ht Hu Hsleep Hfuel. destruct fuel as [|fuel]; [lia|].
  destruct (BodyFacts.monitor_turn_continues ps interval w mem Hm Ht Hu)
    as (total_gb & used_gb & Et & Eu & Eturn).
  exists total_gb, used_gb. split; [exact Et|]. split; [exact Eu|].
  cbv zeta. unfold Monitoring.monitor_memory. cbn [while_true].
  rewrite Eturn. cbv zeta. rewrite Hsleep. destruct e; reflexivity.
Qed.

Lemma monitor_memory_interrupted_witness :
  exists total_gb used_gb,
    int_truediv (2 ^ 34) (1024 ^ 3) = Ok total_gb /\
    int_truediv (2 ^ 33) (1024 ^ 3) = Ok used_gb /\
    Monitoring.monitor_memory interrupted_sampler 1 1 empty_world
    = Some (print Monitoring.memory_stopped
              (emit (Sleep 1)
                 (Monitoring.write
                    (Monitoring.memory_line total_gb used_gb "50.0")
                    empty_world)), Ok ()).
Proof.
  apply (monitor_memory_interrupted interrupted_sampler 1 1 empty_world
           {| Monitoring.total := 2 ^ 34; Monitoring.used := 2 ^ 33;
              Monitoring.percent := "50.0" |} KeyboardInterrupt).
  - reflexivity.
  - cbn. lia.
  - cbn. lia.
  - reflexivity.
  - lia.
Defined.
